(** * TetrisForge: the falling-block engine and the join code

    A shallow embedding of [src/tetrisforge/tetris.py]: the [Shape] class,
    the game logic of the [Board] widget (piece bag, collision test, moves,
    rotation, lock, line clear, hold, levelling, game over) and the two
    join-code functions [ipv4_port_to_base64] / [base64_to_ipv4_port].

    Python integers are [Z]; the class-level [Board.Speed], which true
    division turns into a float, is the rational value [Q] of that double,
    and the float operations on it round as IEEE 754 binary64 does; a
    [str] is the [string] of its code points, all below 256; [bytes] is a
    list of [Z] in [0, 256).  Python exceptions are the [Raise] results of
    [result]. *)

From Stdlib Require Import ZArith QArith Lia Bool.
From Stdlib Require Import Ascii.
From Stdlib Require Import PrimFloat FloatOps SpecFloat.
From stdpp Require Import base list strings.

Local Open Scope Z_scope.

(** ** Exceptions and results *)

Inductive exn : Type :=
| IndexError      (* list index out of range *)
| StructError     (* struct.error *)
| BinasciiError   (* binascii.Error *)
| ValueError.     (* ValueError / UnicodeEncodeError *)

Inductive result (A : Type) : Type :=
| Ok (a : A)
| Raise (e : exn).
Arguments Ok {A} a.
Arguments Raise {A} e.

(** ** class Tetrominoe *)

Inductive Tetrominoe : Type :=
| NoShape | ZShape | SShape | LineShape | TShape
| SquareShape | LShape | MirroredLShape.

#[global] Instance Tetrominoe_eq_dec : EqDecision Tetrominoe.
Proof. solve_decision. Defined.

(** The integer a kind stands for (the class attributes 0..7). *)
Definition Tetrominoe_value (t : Tetrominoe) : Z :=
  match t with
  | NoShape => 0 | ZShape => 1 | SShape => 2 | LineShape => 3 | TShape => 4
  | SquareShape => 5 | LShape => 6 | MirroredLShape => 7
  end.

(** ** class Shape *)

(** Index of one of the four squares of a piece: the values of [range(4)]. *)
Inductive Idx : Type := i0 | i1 | i2 | i3.

Definition range4 : list Idx := [i0; i1; i2; i3].

(** [self.coords]: always four [x, y] pairs. *)
Record Coords : Type := mkCoords {
  c0 : Z * Z; c1 : Z * Z; c2 : Z * Z; c3 : Z * Z
}.

Definition get_coord (c : Coords) (i : Idx) : Z * Z :=
  match i with i0 => c0 c | i1 => c1 c | i2 => c2 c | i3 => c3 c end.

Definition set_coord (c : Coords) (i : Idx) (p : Z * Z) : Coords :=
  match i with
  | i0 => mkCoords p (c1 c) (c2 c) (c3 c)
  | i1 => mkCoords (c0 c) p (c2 c) (c3 c)
  | i2 => mkCoords (c0 c) (c1 c) p (c3 c)
  | i3 => mkCoords (c0 c) (c1 c) (c2 c) p
  end.

Module Shape.

Record t : Type := mk {
  coords : Coords;
  piece_shape : Tetrominoe
}.

Definition coordsTable (s : Tetrominoe) : Coords :=
  match s with
  | NoShape        => mkCoords (0, 0) (0, 0) (0, 0) (0, 0)
  | ZShape         => mkCoords (0, -1) (0, 0) (-1, 0) (-1, 1)
  | SShape         => mkCoords (0, -1) (0, 0) (1, 0) (1, 1)
  | LineShape      => mkCoords (0, -1) (0, 0) (0, 1) (0, 2)
  | TShape         => mkCoords (-1, 0) (0, 0) (1, 0) (0, 1)
  | SquareShape    => mkCoords (0, 0) (1, 0) (0, 1) (1, 1)
  | LShape         => mkCoords (-1, -1) (0, -1) (0, 0) (0, 1)
  | MirroredLShape => mkCoords (1, -1) (0, -1) (0, 0) (0, 1)
  end.

Definition shape (s : t) : Tetrominoe := piece_shape s.

(** [set_shape]: copy the table row into the coordinates, set the kind. *)
Definition set_shape (s : t) (k : Tetrominoe) : t :=
  mk (coordsTable k) k.

(** [Shape()]: zero coordinates, then [set_shape(NoShape)]. *)
Definition new : t :=
  set_shape (mk (mkCoords (0, 0) (0, 0) (0, 0) (0, 0)) NoShape) NoShape.

Definition x (s : t) (i : Idx) : Z := fst (get_coord (coords s) i).
Definition y (s : t) (i : Idx) : Z := snd (get_coord (coords s) i).

Definition set_x (s : t) (i : Idx) (v : Z) : t :=
  mk (set_coord (coords s) i (v, snd (get_coord (coords s) i))) (piece_shape s).
Definition set_y (s : t) (i : Idx) (v : Z) : t :=
  mk (set_coord (coords s) i (fst (get_coord (coords s) i), v)) (piece_shape s).

(** [min_y]: start from [coords[0][1]], fold [min] over the four squares. *)
Definition min_y (s : t) : Z :=
  fold_left (fun m i => Z.min m (y s i)) range4 (y s i0).

(** [rotate_left]: the square is returned as it is; otherwise a fresh
    shape of the same kind with [(x, y) -> (y, -x)]. *)
Definition rotate_left (s : t) : t :=
  if decide (piece_shape s = SquareShape) then s
  else
    let result := mk (coords new) (piece_shape s) in
    fold_left (fun r i => set_y (set_x r i (y s i)) i (- x s i)) range4 result.

(** [rotate_right]: the square is returned as it is; otherwise a fresh
    shape of the same kind with [(x, y) -> (-y, x)]. *)
Definition rotate_right (s : t) : t :=
  if decide (piece_shape s = SquareShape) then s
  else
    let result := mk (coords new) (piece_shape s) in
    fold_left (fun r i => set_y (set_x r i (- y s i)) i (x s i)) range4 result.

(** [min_x], [max_x], [max_y]: as [min_y], on the other extremes. *)
Definition min_x (s : t) : Z :=
  fold_left (fun m i => Z.min m (x s i)) range4 (x s i0).

Definition max_x (s : t) : Z :=
  fold_left (fun m i => Z.max m (x s i)) range4 (x s i0).

Definition max_y (s : t) : Z :=
  fold_left (fun m i => Z.max m (y s i)) range4 (y s i0).

End Shape.


(** ** Python lists: indexing with negative wrap-around and [IndexError] *)

Definition py_index (len i : Z) : option nat :=
  let j := if i <? 0 then i + len else i in
  if (0 <=? j) && (j <? len) then Some (Z.to_nat j) else None.

(** [l[i]] *)
Definition py_getitem {A : Type} (l : list A) (i : Z) : result A :=
  match py_index (Z.of_nat (length l)) i with
  | Some n => match l !! n with Some a => Ok a | None => Raise IndexError end
  | None => Raise IndexError
  end.

(** [l[i] = v] *)
Definition py_setitem {A : Type} (l : list A) (i : Z) (v : A) : result (list A) :=
  match py_index (Z.of_nat (length l)) i with
  | Some n => Ok (<[n:=v]> l)
  | None => Raise IndexError
  end.

(** ** [str(n)] for an integer: decimal digits, a minus sign when negative *)

Definition digit_char (d : Z) : ascii :=
  ascii_of_nat (48 + Z.to_nat d).

Fixpoint str_of_nonneg (fuel : nat) (n : Z) (acc : string) : string :=
  match fuel with
  | O => acc
  | S fuel' =>
      let acc' := String (digit_char (n mod 10)) acc in
      if n <? 10 then acc' else str_of_nonneg fuel' (n / 10) acc'
  end.

Definition str_of_Z (n : Z) : string :=
  if n <? 0
  then String "-" (str_of_nonneg (S (Z.to_nat (Z.log2 (- n)))) (- n) "")
  else str_of_nonneg (S (Z.to_nat (Z.log2 n))) n "".

(** ** Python floats

    A [float] is an IEEE 754 binary64 number.  A finite one is represented
    by its value, a rational; the two zeros are one value, which no
    operation used here tells apart.  An operation gives the exact result
    rounded to the nearest double, ties to the even significand: 53 bits,
    the unit in the last place never below [2 ^ -1074].  The results
    needed are never above the operands in size, so there is no
    overflow. *)

(** The integer [r] with [2 ^ r <= n / d < 2 ^ (r + 1)]. *)
Definition log2_quot (n d : positive) : Z :=
  let k := Z.log2 (Zpos n) - Z.log2 (Zpos d) in
  if 0 <=? k
  then (if Zpos n <? Zpos d * 2 ^ k then k - 1 else k)
  else (if Zpos n * 2 ^ (- k) <? Zpos d then k - 1 else k).

(** [n / d] rounded to the nearest integer, ties to the even one. *)
Definition div_half_even (n d : Z) : Z :=
  let q := n / d in
  let r := n mod d in
  if 2 * r <? d then q
  else if d <? 2 * r then q + 1
  else if Z.even q then q else q + 1.

(** The significand and the exponent of the unit in the last place of
    the double nearest to [n / d]. *)
Definition float_round_pos (n d : positive) : Z * Z :=
  let e := Z.max (log2_quot n d - 52) (- 1074) in
  (if 0 <=? e
   then div_half_even (Zpos n) (Zpos d * 2 ^ e)
   else div_half_even (Zpos n * 2 ^ (- e)) (Zpos d), e).

(** [m * 2 ^ e], in lowest terms. *)
Definition float_value (m e : Z) : Q :=
  if 0 <=? e then inject_Z (m * 2 ^ e)
  else Qred (Qmake m (Z.to_pos (2 ^ (- e)))).

(** The double nearest to a rational. *)
Definition float_round (x : Q) : Q :=
  match Qnum x with
  | Z0 => 0%Q
  | Zpos n => let (m, e) := float_round_pos n (Qden x) in float_value m e
  | Zneg n => let (m, e) := float_round_pos n (Qden x) in float_value (- m) e
  end.

(** [x - y] and [x / y] on floats. *)
Definition float_sub (x y : Q) : Q := float_round (x - y)%Q.
Definition float_div (x y : Q) : Q := float_round (x / y)%Q.

(** ** The random source

    [random.shuffle] draws from the module-level generator.  The generator
    is a tape of raw values read left to right; [randbelow n] is the next
    raw value reduced into [0, n), so every outcome of the real generator
    is the outcome of some tape. *)

Record RNG : Type := mkRNG { tape : nat -> Z; pos : nat }.

Definition randbelow (n : Z) (r : RNG) : Z * RNG :=
  (tape r (pos r) mod n, mkRNG (tape r) (S (pos r))).

(** [x[i], x[j] = x[j], x[i]] *)
Definition swap {A : Type} (l : list A) (i j : nat) : list A :=
  match l !! i, l !! j with
  | Some a, Some b => <[j:=a]> (<[i:=b]> l)
  | _, _ => l
  end.

(** [random.shuffle(x)]:
    [for i in reversed(range(1, len(x))): j = randbelow(i + 1); swap]. *)
Definition shuffle {A : Type} (l : list A) (r : RNG) : list A * RNG :=
  fold_left
    (fun (st : list A * RNG) (i : nat) =>
       let (j, r') := randbelow (Z.of_nat i + 1) (snd st) in
       (swap (fst st) i (Z.to_nat j), r'))
    (reverse (seq 1 (length l - 1))) (l, r).

(** ** class Board: the state

    The three piece slots always hold three distinct [Shape] objects
    ([try_move] stores either the current object or a fresh rotated one,
    and hold exchanges the two references), so each slot is a value.  The
    Qt timers are their active flags ([timer] with the interval it was
    started with); [statusbar] lists what [msg2Statusbar] emitted, oldest
    first.  Repaint requests ([update], [labels]) are not part of the
    state. *)

Inductive Key : Type :=
| Key_P | Key_Left | Key_Right | Key_Down | Key_Space | Key_Up | Key_C
| Key_Other.

Module Board.

Definition board_width : Z := 10.
Definition BoardHeight : Z := 22.
Definition FinalizeDelay : Z := 1000.
Definition KeyRepeatDelay : Z := 150.

Record t : Type := mk {
  board : list Tetrominoe;
  cur_x : Z;
  cur_y : Z;
  current_piece : Shape.t;
  next_piece : Shape.t;
  hold_piece : Shape.t;
  bag : list Tetrominoe;
  hold_locked : bool;
  is_started : bool;
  is_paused : bool;
  is_waiting_after_line : bool;
  is_landed : bool;
  num_lines_removed : Z;
  goal : Z;
  num_goals_reached : Z;
  lines_to_goal : Z;
  Speed : Q;                     (* the class attribute Board.Speed *)
  timer : option Q;              (* QBasicTimer: Some interval when active *)
  finalize_timer : bool;
  left_key_timer : bool;
  right_key_timer : bool;
  down_key_timer : bool;
  statusbar : list string;
  rng : RNG
}.

(** *** Field updates *)

Definition with_board v b :=
  mk v (cur_x b) (cur_y b) (current_piece b) (next_piece b) (hold_piece b)
     (bag b) (hold_locked b) (is_started b) (is_paused b)
     (is_waiting_after_line b) (is_landed b) (num_lines_removed b) (goal b)
     (num_goals_reached b) (lines_to_goal b) (Speed b) (timer b)
     (finalize_timer b) (left_key_timer b) (right_key_timer b)
     (down_key_timer b) (statusbar b) (rng b).
Definition with_cur_x v b :=
  mk (board b) v (cur_y b) (current_piece b) (next_piece b) (hold_piece b)
     (bag b) (hold_locked b) (is_started b) (is_paused b)
     (is_waiting_after_line b) (is_landed b) (num_lines_removed b) (goal b)
     (num_goals_reached b) (lines_to_goal b) (Speed b) (timer b)
     (finalize_timer b) (left_key_timer b) (right_key_timer b)
     (down_key_timer b) (statusbar b) (rng b).
Definition with_cur_y v b :=
  mk (board b) (cur_x b) v (current_piece b) (next_piece b) (hold_piece b)
     (bag b) (hold_locked b) (is_started b) (is_paused b)
     (is_waiting_after_line b) (is_landed b) (num_lines_removed b) (goal b)
     (num_goals_reached b) (lines_to_goal b) (Speed b) (timer b)
     (finalize_timer b) (left_key_timer b) (right_key_timer b)
     (down_key_timer b) (statusbar b) (rng b).
Definition with_current_piece v b :=
  mk (board b) (cur_x b) (cur_y b) v (next_piece b) (hold_piece b)
     (bag b) (hold_locked b) (is_started b) (is_paused b)
     (is_waiting_after_line b) (is_landed b) (num_lines_removed b) (goal b)
     (num_goals_reached b) (lines_to_goal b) (Speed b) (timer b)
     (finalize_timer b) (left_key_timer b) (right_key_timer b)
     (down_key_timer b) (statusbar b) (rng b).
Definition with_next_piece v b :=
  mk (board b) (cur_x b) (cur_y b) (current_piece b) v (hold_piece b)
     (bag b) (hold_locked b) (is_started b) (is_paused b)
     (is_waiting_after_line b) (is_landed b) (num_lines_removed b) (goal b)
     (num_goals_reached b) (lines_to_goal b) (Speed b) (timer b)
     (finalize_timer b) (left_key_timer b) (right_key_timer b)
     (down_key_timer b) (statusbar b) (rng b).
Definition with_hold_piece v b :=
  mk (board b) (cur_x b) (cur_y b) (current_piece b) (next_piece b) v
     (bag b) (hold_locked b) (is_started b) (is_paused b)
     (is_waiting_after_line b) (is_landed b) (num_lines_removed b) (goal b)
     (num_goals_reached b) (lines_to_goal b) (Speed b) (timer b)
     (finalize_timer b) (left_key_timer b) (right_key_timer b)
     (down_key_timer b) (statusbar b) (rng b).
Definition with_bag v b :=
  mk (board b) (cur_x b) (cur_y b) (current_piece b) (next_piece b)
     (hold_piece b) v (hold_locked b) (is_started b) (is_paused b)
     (is_waiting_after_line b) (is_landed b) (num_lines_removed b) (goal b)
     (num_goals_reached b) (lines_to_goal b) (Speed b) (timer b)
     (finalize_timer b) (left_key_timer b) (right_key_timer b)
     (down_key_timer b) (statusbar b) (rng b).
Definition with_hold_locked v b :=
  mk (board b) (cur_x b) (cur_y b) (current_piece b) (next_piece b)
     (hold_piece b) (bag b) v (is_started b) (is_paused b)
     (is_waiting_after_line b) (is_landed b) (num_lines_removed b) (goal b)
     (num_goals_reached b) (lines_to_goal b) (Speed b) (timer b)
     (finalize_timer b) (left_key_timer b) (right_key_timer b)
     (down_key_timer b) (statusbar b) (rng b).
Definition with_is_started v b :=
  mk (board b) (cur_x b) (cur_y b) (current_piece b) (next_piece b)
     (hold_piece b) (bag b) (hold_locked b) v (is_paused b)
     (is_waiting_after_line b) (is_landed b) (num_lines_removed b) (goal b)
     (num_goals_reached b) (lines_to_goal b) (Speed b) (timer b)
     (finalize_timer b) (left_key_timer b) (right_key_timer b)
     (down_key_timer b) (statusbar b) (rng b).
Definition with_is_paused v b :=
  mk (board b) (cur_x b) (cur_y b) (current_piece b) (next_piece b)
     (hold_piece b) (bag b) (hold_locked b) (is_started b) v
     (is_waiting_after_line b) (is_landed b) (num_lines_removed b) (goal b)
     (num_goals_reached b) (lines_to_goal b) (Speed b) (timer b)
     (finalize_timer b) (left_key_timer b) (right_key_timer b)
     (down_key_timer b) (statusbar b) (rng b).
Definition with_is_waiting_after_line v b :=
  mk (board b) (cur_x b) (cur_y b) (current_piece b) (next_piece b)
     (hold_piece b) (bag b) (hold_locked b) (is_started b) (is_paused b)
     v (is_landed b) (num_lines_removed b) (goal b)
     (num_goals_reached b) (lines_to_goal b) (Speed b) (timer b)
     (finalize_timer b) (left_key_timer b) (right_key_timer b)
     (down_key_timer b) (statusbar b) (rng b).
Definition with_is_landed v b :=
  mk (board b) (cur_x b) (cur_y b) (current_piece b) (next_piece b)
     (hold_piece b) (bag b) (hold_locked b) (is_started b) (is_paused b)
     (is_waiting_after_line b) v (num_lines_removed b) (goal b)
     (num_goals_reached b) (lines_to_goal b) (Speed b) (timer b)
     (finalize_timer b) (left_key_timer b) (right_key_timer b)
     (down_key_timer b) (statusbar b) (rng b).
Definition with_num_lines_removed v b :=
  mk (board b) (cur_x b) (cur_y b) (current_piece b) (next_piece b)
     (hold_piece b) (bag b) (hold_locked b) (is_started b) (is_paused b)
     (is_waiting_after_line b) (is_landed b) v (goal b)
     (num_goals_reached b) (lines_to_goal b) (Speed b) (timer b)
     (finalize_timer b) (left_key_timer b) (right_key_timer b)
     (down_key_timer b) (statusbar b) (rng b).
Definition with_goal v b :=
  mk (board b) (cur_x b) (cur_y b) (current_piece b) (next_piece b)
     (hold_piece b) (bag b) (hold_locked b) (is_started b) (is_paused b)
     (is_waiting_after_line b) (is_landed b) (num_lines_removed b) v
     (num_goals_reached b) (lines_to_goal b) (Speed b) (timer b)
     (finalize_timer b) (left_key_timer b) (right_key_timer b)
     (down_key_timer b) (statusbar b) (rng b).
Definition with_num_goals_reached v b :=
  mk (board b) (cur_x b) (cur_y b) (current_piece b) (next_piece b)
     (hold_piece b) (bag b) (hold_locked b) (is_started b) (is_paused b)
     (is_waiting_after_line b) (is_landed b) (num_lines_removed b) (goal b)
     v (lines_to_goal b) (Speed b) (timer b)
     (finalize_timer b) (left_key_timer b) (right_key_timer b)
     (down_key_timer b) (statusbar b) (rng b).
Definition with_lines_to_goal v b :=
  mk (board b) (cur_x b) (cur_y b) (current_piece b) (next_piece b)
     (hold_piece b) (bag b) (hold_locked b) (is_started b) (is_paused b)
     (is_waiting_after_line b) (is_landed b) (num_lines_removed b) (goal b)
     (num_goals_reached b) v (Speed b) (timer b)
     (finalize_timer b) (left_key_timer b) (right_key_timer b)
     (down_key_timer b) (statusbar b) (rng b).
Definition with_Speed v b :=
  mk (board b) (cur_x b) (cur_y b) (current_piece b) (next_piece b)
     (hold_piece b) (bag b) (hold_locked b) (is_started b) (is_paused b)
     (is_waiting_after_line b) (is_landed b) (num_lines_removed b) (goal b)
     (num_goals_reached b) (lines_to_goal b) v (timer b)
     (finalize_timer b) (left_key_timer b) (right_key_timer b)
     (down_key_timer b) (statusbar b) (rng b).
Definition with_timer v b :=
  mk (board b) (cur_x b) (cur_y b) (current_piece b) (next_piece b)
     (hold_piece b) (bag b) (hold_locked b) (is_started b) (is_paused b)
     (is_waiting_after_line b) (is_landed b) (num_lines_removed b) (goal b)
     (num_goals_reached b) (lines_to_goal b) (Speed b) v
     (finalize_timer b) (left_key_timer b) (right_key_timer b)
     (down_key_timer b) (statusbar b) (rng b).
Definition with_finalize_timer v b :=
  mk (board b) (cur_x b) (cur_y b) (current_piece b) (next_piece b)
     (hold_piece b) (bag b) (hold_locked b) (is_started b) (is_paused b)
     (is_waiting_after_line b) (is_landed b) (num_lines_removed b) (goal b)
     (num_goals_reached b) (lines_to_goal b) (Speed b) (timer b)
     v (left_key_timer b) (right_key_timer b)
     (down_key_timer b) (statusbar b) (rng b).
Definition with_left_key_timer v b :=
  mk (board b) (cur_x b) (cur_y b) (current_piece b) (next_piece b)
     (hold_piece b) (bag b) (hold_locked b) (is_started b) (is_paused b)
     (is_waiting_after_line b) (is_landed b) (num_lines_removed b) (goal b)
     (num_goals_reached b) (lines_to_goal b) (Speed b) (timer b)
     (finalize_timer b) v (right_key_timer b)
     (down_key_timer b) (statusbar b) (rng b).
Definition with_right_key_timer v b :=
  mk (board b) (cur_x b) (cur_y b) (current_piece b) (next_piece b)
     (hold_piece b) (bag b) (hold_locked b) (is_started b) (is_paused b)
     (is_waiting_after_line b) (is_landed b) (num_lines_removed b) (goal b)
     (num_goals_reached b) (lines_to_goal b) (Speed b) (timer b)
     (finalize_timer b) (left_key_timer b) v
     (down_key_timer b) (statusbar b) (rng b).
Definition with_down_key_timer v b :=
  mk (board b) (cur_x b) (cur_y b) (current_piece b) (next_piece b)
     (hold_piece b) (bag b) (hold_locked b) (is_started b) (is_paused b)
     (is_waiting_after_line b) (is_landed b) (num_lines_removed b) (goal b)
     (num_goals_reached b) (lines_to_goal b) (Speed b) (timer b)
     (finalize_timer b) (left_key_timer b) (right_key_timer b)
     v (statusbar b) (rng b).
Definition with_statusbar v b :=
  mk (board b) (cur_x b) (cur_y b) (current_piece b) (next_piece b)
     (hold_piece b) (bag b) (hold_locked b) (is_started b) (is_paused b)
     (is_waiting_after_line b) (is_landed b) (num_lines_removed b) (goal b)
     (num_goals_reached b) (lines_to_goal b) (Speed b) (timer b)
     (finalize_timer b) (left_key_timer b) (right_key_timer b)
     (down_key_timer b) v (rng b).
Definition with_rng v b :=
  mk (board b) (cur_x b) (cur_y b) (current_piece b) (next_piece b)
     (hold_piece b) (bag b) (hold_locked b) (is_started b) (is_paused b)
     (is_waiting_after_line b) (is_landed b) (num_lines_removed b) (goal b)
     (num_goals_reached b) (lines_to_goal b) (Speed b) (timer b)
     (finalize_timer b) (left_key_timer b) (right_key_timer b)
     (down_key_timer b) (statusbar b) v.

(** *** Methods run in a state monad that can raise *)

Definition M (A : Type) : Type := t -> result (A * t).

Definition ret {A : Type} (a : A) : M A := fun b => Ok (a, b).

Definition bind {A B : Type} (m : M A) (k : A -> M B) : M B :=
  fun b => match m b with
           | Ok (a, b') => k a b'
           | Raise e => Raise e
           end.

Definition get : M t := fun b => Ok (b, b).
Definition gets {A : Type} (f : t -> A) : M A := fun b => Ok (f b, b).
Definition modify (f : t -> t) : M unit := fun b => Ok (tt, f b).
Definition lift {A : Type} (r : result A) : M A :=
  fun b => match r with Ok a => Ok (a, b) | Raise e => Raise e end.

Declare Scope board_scope.
Delimit Scope board_scope with board.
Notation "x <- m ;; k" := (bind m (fun x => k))
  (at level 100, m at next level, right associativity) : board_scope.
Notation "m ;; k" := (bind m (fun _ => k))
  (at level 100, right associativity) : board_scope.
Local Open Scope board_scope.

(** [for a in l: body(a)] *)
Fixpoint for_each {A : Type} (l : list A) (body : A -> M unit) : M unit :=
  match l with
  | [] => ret tt
  | a :: l' => body a ;; for_each l' body
  end.

(** A loop that threads a local variable. *)
Fixpoint for_fold {A S : Type} (l : list A) (body : S -> A -> M S) (s : S)
  : M S :=
  match l with
  | [] => ret s
  | a :: l' => s' <- body s a ;; for_fold l' body s'
  end.

(** [msg2Statusbar.emit(msg)] *)
Definition emit (msg : string) : M unit :=
  modify (fun b => with_statusbar (statusbar b ++ [msg]) b).

(** *** Grid access *)

Definition shape_at (x y : Z) : M Tetrominoe :=
  fun b => match py_getitem (board b) (y * board_width + x) with
           | Ok s => Ok (s, b)
           | Raise e => Raise e
           end.

Definition set_shape_at (x y : Z) (shape : Tetrominoe) : M unit :=
  fun b => match py_setitem (board b) (y * board_width + x) shape with
           | Ok l => Ok (tt, with_board l b)
           | Raise e => Raise e
           end.

Definition clear_board : M unit :=
  modify (with_board
            (replicate (Z.to_nat (BoardHeight * board_width)) NoShape)).

(** *** try_move *)

(** The [for i in range(4)] loop of [try_move]: [false] at the first
    square that is off the board or on a landed cell, [true] when the
    loop runs to its end. *)
Fixpoint try_move_scan (new_piece : Shape.t) (new_x new_y : Z)
    (idxs : list Idx) : M bool :=
  match idxs with
  | [] => ret true
  | i :: idxs' =>
      let x := new_x + Shape.x new_piece i in
      let y := new_y - Shape.y new_piece i in
      if (x <? 0) || (x >=? board_width) || (y <? 0) || (y >=? BoardHeight)
      then ret false
      else
        s <- shape_at x y ;;
        if decide (s <> NoShape) then ret false
        else try_move_scan new_piece new_x new_y idxs'
  end.

Definition try_move (new_piece : Shape.t) (new_x new_y : Z) : M bool :=
  free <- try_move_scan new_piece new_x new_y range4 ;;
  if free : bool then
    modify (with_current_piece new_piece) ;;
    modify (with_cur_x new_x) ;;
    modify (with_cur_y new_y) ;;
    ret true
  else ret false.

(** *** try_rotate_right *)

Definition try_rotate_right : M unit :=
  b <- get ;;
  let new_piece := Shape.rotate_right (current_piece b) in
  r <- (cx <- gets cur_x ;; cy <- gets cur_y ;; try_move new_piece cx cy) ;;
  if r : bool then ret tt else
  r <- (cx <- gets cur_x ;; cy <- gets cur_y ;;
        try_move new_piece (cx - 1) cy) ;;
  if r : bool then ret tt else
  r <- (cx <- gets cur_x ;; cy <- gets cur_y ;;
        try_move new_piece (cx + 1) cy) ;;
  if r : bool then ret tt else
  r <- (cx <- gets cur_x ;; cy <- gets cur_y ;;
        try_move new_piece cx (cy + 1)) ;;
  if r : bool then ret tt else
  r <- (cx <- gets cur_x ;; cy <- gets cur_y ;;
        try_move new_piece cx (cy - 1)) ;;
  if r : bool then ret tt else ret tt.

(** *** get_next_shape *)

(** [list(range(1, 8))] as piece kinds. *)
Definition all_shapes : list Tetrominoe :=
  [ZShape; SShape; LineShape; TShape; SquareShape; LShape; MirroredLShape].

Definition get_next_shape : M Tetrominoe :=
  b <- get ;;
  (if decide (bag b = []) then
     let (l, r) := shuffle all_shapes (rng b) in
     modify (with_bag l) ;; modify (with_rng r)
   else ret tt) ;;
  b <- get ;;
  match reverse (bag b) with
  | s :: rest => modify (with_bag (reverse rest)) ;; ret s
  | [] => lift (Raise IndexError)          (* pop from empty list *)
  end.

(** *** new_piece *)

(** What both spawn failures do: blank the current piece, stop the
    timers, leave the started state, report. *)
Definition game_over : M unit :=
  modify (fun b => with_current_piece
                     (Shape.set_shape (current_piece b) NoShape) b) ;;
  modify (with_timer None) ;;
  modify (with_finalize_timer false) ;;
  modify (with_is_started false) ;;
  emit "Game over".

Definition new_piece : M unit :=
  modify (fun b => with_current_piece
                     (Shape.set_shape (current_piece b)
                        (Shape.shape (next_piece b))) b) ;;
  s <- get_next_shape ;;
  modify (fun b => with_next_piece (Shape.set_shape (next_piece b) s) b) ;;
  modify (with_cur_x (board_width / 2 + 1)) ;;
  modify (fun b => with_cur_y
                     (BoardHeight - 1 + Shape.min_y (current_piece b)) b) ;;
  b <- get ;;
  r <- try_move (current_piece b) (cur_x b) (cur_y b) ;;
  if r : bool then ret tt else game_over.

(** *** remove_full_lines *)

(** [int(Board.Speed)] on a finite float: truncation toward zero. *)
Definition int_of_Q (q : Q) : Z := Z.quot (Qnum q) (Zpos (Qden q)).

(** The inner counting loop for row [i]. *)
Definition count_row (i : Z) : M Z :=
  for_fold (seqZ 0 board_width)
    (fun n j => s <- shape_at j i ;;
                ret (if decide (s = NoShape) then n else n + 1)) 0.

(** The scan that collects [rows_to_remove], in increasing order. *)
Definition scan_full_rows : M (list Z) :=
  for_fold (seqZ 0 BoardHeight)
    (fun rows i => n <- count_row i ;;
                   ret (if n =? 10 then rows ++ [i] else rows)) [].

(** The body of [for m in rows_to_remove]. *)
Definition remove_row (m : Z) : M unit :=
  for_each (seqZ m (BoardHeight - 1 - m))
    (fun k => for_each (seqZ 0 board_width)
       (fun l => s <- shape_at l (k + 1) ;; set_shape_at l k s)) ;;
  for_each (seqZ 0 board_width)
    (fun l => set_shape_at l (BoardHeight - 1) NoShape).

(** The [if self.lines_to_goal >= self.goal] block.
    [Board.Speed -= Board.Speed / 4] is a true division and then a
    subtraction of floats, each rounded; the integer 300 the attribute
    starts as is a double as it is. *)
Definition level_up : M unit :=
  b <- get ;;
  (if decide (num_goals_reached b <> 0)
   then modify (with_goal (5 * num_goals_reached b + goal b))
   else modify (with_goal (5 + goal b))) ;;
  modify (with_lines_to_goal 0) ;;
  modify (fun b => with_num_goals_reached (num_goals_reached b + 1) b) ;;
  modify (fun b => with_Speed
                     (float_sub (Speed b) (float_div (Speed b) (4 # 1))) b) ;;
  modify (fun b => with_timer (Some (inject_Z (int_of_Q (Speed b)))) b).

Definition remove_full_lines : M unit :=
  let num_full_lines := 0 in
  rows <- scan_full_rows ;;
  let rows_to_remove := reverse rows in
  for_each rows_to_remove remove_row ;;
  let num_full_lines := num_full_lines + Z.of_nat (length rows_to_remove) in
  if 0 <? num_full_lines then
    modify (fun b => with_num_lines_removed
                       (num_lines_removed b
                        + Z.of_nat (length rows_to_remove)) b) ;;
    b <- get ;;
    emit (str_of_Z (num_lines_removed b)) ;;
    modify (with_is_waiting_after_line true) ;;
    modify (fun b => with_current_piece
                       (Shape.set_shape (current_piece b) NoShape) b) ;;
    modify (fun b => with_lines_to_goal
                       (lines_to_goal b
                        + Z.of_nat (length rows_to_remove)) b) ;;
    b <- get ;;
    if goal b <=? lines_to_goal b then level_up else ret tt
  else ret tt.

(** *** Locking *)

Definition finalize_piece : M unit :=
  modify (with_finalize_timer false) ;;
  for_each range4
    (fun i => b <- get ;;
              let x := cur_x b + Shape.x (current_piece b) i in
              let y := cur_y b - Shape.y (current_piece b) i in
              set_shape_at x y (Shape.shape (current_piece b))) ;;
  remove_full_lines ;;
  modify (with_is_landed false) ;;
  b <- get ;;
  if negb (is_waiting_after_line b) then
    new_piece ;;
    modify (with_hold_locked false)
  else ret tt.

Definition piece_dropped : M unit :=
  modify (with_is_landed true) ;;
  finalize_piece.

Definition one_line_down : M unit :=
  b <- get ;;
  r <- try_move (current_piece b) (cur_x b) (cur_y b - 1) ;;
  if r : bool then ret tt else piece_dropped.

(** The [while new_y > 0] loop of [drop_down]; [new_y] goes down by one
    per round, so [Z.to_nat cur_y] rounds are enough. *)
Fixpoint drop_down_loop (rounds : nat) (new_y : Z) : M unit :=
  match rounds with
  | O => ret tt
  | S rounds' =>
      if 0 <? new_y then
        b <- get ;;
        r <- try_move (current_piece b) (cur_x b) (new_y - 1) ;;
        if r : bool then drop_down_loop rounds' (new_y - 1) else ret tt
      else ret tt
  end.

Definition drop_down : M unit :=
  b <- get ;;
  drop_down_loop (Z.to_nat (cur_y b)) (cur_y b) ;;
  piece_dropped.

(** *** Moves *)

Definition move_left : M unit :=
  b <- get ;;
  try_move (current_piece b) (cur_x b - 1) (cur_y b) ;; ret tt.

Definition move_right : M unit :=
  b <- get ;;
  try_move (current_piece b) (cur_x b + 1) (cur_y b) ;; ret tt.

Definition move_down : M unit :=
  b <- get ;;
  r <- try_move (current_piece b) (cur_x b) (cur_y b - 1) ;;
  if r : bool then ret tt else piece_dropped.

(** *** hold_current_piece *)

Definition hold_current_piece : M unit :=
  b <- get ;;
  if negb (hold_locked b) then
    (if decide (Shape.shape (hold_piece b) = NoShape) then
       modify (fun b => with_hold_piece
                          (Shape.set_shape (hold_piece b)
                             (Shape.shape (current_piece b))) b) ;;
       new_piece
     else
       modify (fun b => with_hold_piece (current_piece b)
                          (with_current_piece (hold_piece b) b)) ;;
       modify (with_cur_x (board_width / 2 + 1)) ;;
       modify (fun b => with_cur_y
                          (BoardHeight - 1 + Shape.min_y (current_piece b))
                          b) ;;
       b <- get ;;
       r <- try_move (current_piece b) (cur_x b) (cur_y b) ;;
       if r : bool then ret tt else game_over) ;;
    modify (with_hold_locked true)
  else ret tt.

(** *** start, pause *)

Definition start : M unit :=
  b <- get ;;
  if is_paused b then ret tt else
  modify (with_is_started true) ;;
  modify (with_is_waiting_after_line false) ;;
  modify (with_num_lines_removed 0) ;;
  clear_board ;;
  b <- get ;;
  emit (str_of_Z (num_lines_removed b)) ;;
  new_piece ;;
  modify (fun b => with_timer (Some (Speed b)) b).

Definition pause : M unit :=
  b <- get ;;
  if negb (is_started b) then ret tt else
  modify (with_is_paused (negb (is_paused b))) ;;
  b <- get ;;
  if is_paused b then
    modify (with_timer None) ;;
    modify (with_finalize_timer false) ;;
    modify (with_left_key_timer false) ;;
    modify (with_right_key_timer false) ;;
    modify (with_down_key_timer false) ;;
    emit "Paused"
  else
    modify (with_timer (Some (Speed b))) ;;
    emit (str_of_Z (num_lines_removed b)).

(** *** Events *)

Definition keyPressEvent (key : Key) : M unit :=
  b <- get ;;
  if negb (is_started b)
     || bool_decide (Shape.shape (current_piece b) = NoShape)
  then ret tt                       (* super().keyPressEvent(event) *)
  else
    match key with
    | Key_P => pause
    | _ =>
        if is_paused b then ret tt else
        match key with
        | Key_Left => move_left ;; modify (with_left_key_timer true)
        | Key_Right => move_right ;; modify (with_right_key_timer true)
        | Key_Down => move_down ;; modify (with_down_key_timer true)
        | Key_Space => drop_down
        | Key_Up =>
            try_rotate_right ;;
            b <- get ;;
            if finalize_timer b then modify (with_finalize_timer true)
            else ret tt
        | Key_C => hold_current_piece
        | _ => ret tt               (* super().keyPressEvent(event) *)
        end
    end.

Definition keyReleaseEvent (key : Key) : M unit :=
  match key with
  | Key_Left => modify (with_left_key_timer false)
  | Key_Right => modify (with_right_key_timer false)
  | Key_Down => modify (with_down_key_timer false)
  | _ => ret tt
  end.

(** [timerEvent] for an event of the game timer.  A stopped
    [QBasicTimer] has no id that an event could carry, so the branch is
    taken only while [timer] is active. *)
Definition timerEvent : M unit :=
  b <- get ;;
  if bool_decide (timer b <> None) then
    if is_waiting_after_line b then
      modify (with_is_waiting_after_line false) ;;
      new_piece
    else one_line_down
  else ret tt.

(** The timeouts of the three key-repeat timers and of the finalize
    timer, connected to [move_left], [move_right], [move_down] and
    [finalize_piece]; a [QTimer] fires only while it is active. *)
Definition left_key_timeout : M unit :=
  b <- get ;; if left_key_timer b then move_left else ret tt.
Definition right_key_timeout : M unit :=
  b <- get ;; if right_key_timer b then move_right else ret tt.
Definition down_key_timeout : M unit :=
  b <- get ;; if down_key_timer b then move_down else ret tt.
Definition finalize_timeout : M unit :=
  b <- get ;; if finalize_timer b then finalize_piece else ret tt.

(** *** square_size

    The side of one square for a content rectangle of the given width and
    height: two thirds of the width go to the board. *)
Definition square_size (rect_width rect_height : Z) : Z :=
  let board_width' := rect_width * 2 / 3 in
  let square_width := board_width' / board_width in
  let square_height := rect_height / BoardHeight in
  Z.min square_width square_height.

(** *** Tetris.show_game_over, on the board it is called for

    The message goes to the status bar the board's signal is connected
    to. *)
Definition show_game_over (message : string) : M unit :=
  emit message ;;
  modify (with_timer None) ;;
  modify (with_finalize_timer false) ;;
  modify (with_is_started false).

(** *** init_board

    The state [__init__] leaves for a solo game (the multiplayer branch
    adds widgets and a socket, no game state), for the class-level speed
    and the generator state found at construction. *)
Definition init_board (speed : Q) (r : RNG) : result t :=
  let b0 :=
    mk [] 0 0 Shape.new Shape.new Shape.new [] false false false false
       false 0 10 0 0 speed None false false false false [] r in
  match (clear_board ;;
         s <- get_next_shape ;;
         modify (fun b => with_next_piece
                            (Shape.set_shape (next_piece b) s) b)) b0 with
  | Ok (_, b) => Ok b
  | Raise e => Raise e
  end.

End Board.

(** ** The join code

    The Python library functions the two join-code functions call
    ([str.split], [int], [str], [struct.pack] / [struct.unpack],
    [base64.b64encode] / [base64.b64decode]) are written out first, then
    the two functions themselves. *)

Module JoinCode.

Definition rbind {A B : Type} (r : result A) (k : A -> result B)
  : result B :=
  match r with Ok a => k a | Raise e => Raise e end.

Declare Scope result_scope.
Delimit Scope result_scope with result.
Notation "x <- r ;; k" := (rbind r (fun x => k))
  (at level 100, r at next level, right associativity) : result_scope.
Local Open Scope result_scope.

(** *** str.split(sep) for a one-character separator *)

Fixpoint split_from (sep : ascii) (s : list ascii) (cur : list ascii)
  : list (list ascii) :=
  match s with
  | [] => [cur]
  | c :: s' =>
      if decide (c = sep) then cur :: split_from sep s' []
      else split_from sep s' (cur ++ [c])
  end.

Definition split (s : string) (sep : ascii) : list string :=
  map String.string_of_list_ascii (split_from sep (String.list_ascii_of_string s) []).

(** *** sep.join(parts) *)

Fixpoint join (sep : string) (parts : list string) : string :=
  match parts with
  | [] => ""
  | [p] => p
  | p :: rest => p +:+ sep +:+ join sep rest
  end.

(** *** int(s), base ten

    Surrounding white space is dropped, one sign is allowed, and the
    digits may be separated by single underscores; anything else is a
    [ValueError], and so is a literal of more than 4300 digits.  The
    white space is that of the C parser (tab to carriage return, the
    blank) and the two code points from 128 to 255 that [int] turns into
    a blank first (U+0085, U+00A0); U+001C to U+001F are not dropped. *)

Definition code (c : ascii) : Z := Z.of_nat (nat_of_ascii c).

Definition is_space (c : ascii) : bool :=
  let n := code c in
  ((9 <=? n) && (n <=? 13)) || (n =? 32) || (n =? 133) || (n =? 160).

Definition is_digit (c : ascii) : bool :=
  (48 <=? code c) && (code c <=? 57).

(** [sys.int_info.default_max_str_digits] *)
Definition max_str_digits : Z := 4300.

Fixpoint lstrip (s : list ascii) : list ascii :=
  match s with
  | c :: s' => if is_space c then lstrip s' else s
  | [] => []
  end.

Definition strip (s : list ascii) : list ascii :=
  reverse (lstrip (reverse (lstrip s))).

Fixpoint parse_digits (s : list ascii) (acc : Z) (after_digit : bool)
  : option Z :=
  match s with
  | [] => if after_digit then Some acc else None
  | c :: s' =>
      if is_digit c then parse_digits s' (acc * 10 + (code c - 48)) true
      else if decide (c = "_"%char)
           then if after_digit then parse_digits s' acc false else None
           else None
  end.

Definition int_of_str (s : string) : result Z :=
  let body := strip (String.list_ascii_of_string s) in
  let signed :=
    match body with
    | c :: rest =>
        if decide (c = "-"%char) then (-1, rest)
        else if decide (c = "+"%char) then (1, rest)
        else (1, body)
    | [] => (1, body)
    end in
  match parse_digits (snd signed) 0 false with
  | Some n =>
      if max_str_digits <? Z.of_nat (length (List.filter is_digit (snd signed)))
      then Raise ValueError
      else Ok (fst signed * n)
  | None => Raise ValueError
  end.

(** *** struct.pack / struct.unpack, formats '!BBBB' and '!H' *)

Definition pack_B (v : Z) : result Z :=
  if (0 <=? v) && (v <=? 255) then Ok v else Raise StructError.

Definition pack_BBBB (a b c d : Z) : result (list Z) :=
  a' <- pack_B a ;; b' <- pack_B b ;; c' <- pack_B c ;; d' <- pack_B d ;;
  Ok [a'; b'; c'; d'].

Definition pack_H (v : Z) : result (list Z) :=
  if (0 <=? v) && (v <=? 65535)
  then Ok [Z.shiftr v 8; Z.land v 255]
  else Raise StructError.

Definition unpack_BBBB (bs : list Z) : result (Z * Z * Z * Z) :=
  match bs with
  | [a; b; c; d] => Ok (a, b, c, d)
  | _ => Raise StructError
  end.

Definition unpack_H (bs : list Z) : result Z :=
  match bs with
  | [hi; lo] => Ok (Z.lor (Z.shiftl hi 8) lo)
  | _ => Raise StructError
  end.

(** *** base64 *)

Definition BASE64_PAD : Z := 61.                       (* '=' *)

(** [table_b2a_base64]: the character of a six-bit value. *)
Definition table_b2a_base64 (v : Z) : Z :=
  if v <? 26 then 65 + v                                (* 'A'..'Z' *)
  else if v <? 52 then 97 + (v - 26)                    (* 'a'..'z' *)
  else if v <? 62 then 48 + (v - 52)                    (* '0'..'9' *)
  else if v =? 62 then 43                               (* '+' *)
  else 47.                                              (* '/' *)

(** [table_a2b_base64]: the six-bit value of a character, or 64 and
    more for a character outside the alphabet. *)
Definition table_a2b_base64 (c : Z) : Z :=
  if (65 <=? c) && (c <=? 90) then c - 65
  else if (97 <=? c) && (c <=? 122) then c - 97 + 26
  else if (48 <=? c) && (c <=? 57) then c - 48 + 52
  else if c =? 43 then 62
  else if c =? 47 then 63
  else 64.

(** [binascii.b2a_base64(data, newline=False)] *)
Fixpoint b2a_base64 (data : list Z) : list Z :=
  match data with
  | [] => []
  | [a] =>
      [table_b2a_base64 (Z.shiftr a 2);
       table_b2a_base64 (Z.shiftl (Z.land a 3) 4);
       BASE64_PAD; BASE64_PAD]
  | [a; b] =>
      [table_b2a_base64 (Z.shiftr a 2);
       table_b2a_base64 (Z.lor (Z.shiftl (Z.land a 3) 4) (Z.shiftr b 4));
       table_b2a_base64 (Z.shiftl (Z.land b 15) 2);
       BASE64_PAD]
  | a :: b :: c :: rest =>
      table_b2a_base64 (Z.shiftr a 2)
      :: table_b2a_base64 (Z.lor (Z.shiftl (Z.land a 3) 4) (Z.shiftr b 4))
      :: table_b2a_base64 (Z.lor (Z.shiftl (Z.land b 15) 2) (Z.shiftr c 6))
      :: table_b2a_base64 (Z.land c 63)
      :: b2a_base64 rest
  end.

(** The decoder state of [binascii.a2b_base64]. *)
Record a2b_state : Type := mk_a2b {
  quad_pos : Z;
  leftchar : Z;
  pads : Z;
  bin_data : list Z
}.

(** [binascii.a2b_base64(data, strict_mode=False)]: the character loop.
    A pad is skipped unless it completes a quad, which ends the parse;
    a character outside the alphabet is skipped; the others fill the
    quad.  At the end a quad left open is a [binascii.Error]. *)
Fixpoint a2b_loop (data : list Z) (st : a2b_state) : result (list Z) :=
  match data with
  | [] =>
      if quad_pos st =? 0 then Ok (bin_data st) else Raise BinasciiError
  | this_ch :: data' =>
      if this_ch =? BASE64_PAD then
        if 2 <=? quad_pos st then
          if 4 <=? quad_pos st + (pads st + 1) then Ok (bin_data st)
          else a2b_loop data'
                 (mk_a2b (quad_pos st) (leftchar st) (pads st + 1)
                    (bin_data st))
        else a2b_loop data' st
      else
        let this_ch := table_a2b_base64 this_ch in
        if 64 <=? this_ch then a2b_loop data' st
        else
          let q := quad_pos st in
          let l := leftchar st in
          a2b_loop data'
            (if q =? 0 then mk_a2b 1 this_ch 0 (bin_data st)
             else if q =? 1 then
               mk_a2b 2 (Z.land this_ch 15) 0
                 (bin_data st
                  ++ [Z.land (Z.lor (Z.shiftl l 2) (Z.shiftr this_ch 4))
                        255])
             else if q =? 2 then
               mk_a2b 3 (Z.land this_ch 3) 0
                 (bin_data st
                  ++ [Z.land (Z.lor (Z.shiftl l 4) (Z.shiftr this_ch 2))
                        255])
             else
               mk_a2b 0 0 0
                 (bin_data st
                  ++ [Z.land (Z.lor (Z.shiftl l 6) this_ch) 255]))
  end.

Definition a2b_base64 (data : list Z) : result (list Z) :=
  a2b_loop data (mk_a2b 0 0 0 []).

(** [bytes.decode('utf-8')] on the ASCII output of the encoder. *)
Definition str_of_bytes (bs : list Z) : string :=
  String.string_of_list_ascii (map (fun c => ascii_of_nat (Z.to_nat c)) bs).

(** [str.encode('ascii')] as [base64] does it for a [str] argument:
    a character above 127 is a [ValueError]. *)
Definition ascii_bytes (s : string) : result (list Z) :=
  let cs := map code (String.list_ascii_of_string s) in
  if forallb (fun c => c <? 128) cs then Ok cs else Raise ValueError.

Definition b64encode (data : list Z) : list Z := b2a_base64 data.

Definition b64decode (s : string) : result (list Z) :=
  bs <- ascii_bytes s ;; a2b_base64 bs.

(** *** The two functions of the source *)

Definition ipv4_port_to_base64 (ipv4 : string) (port : Z) : result string :=
  let octets := split ipv4 "." in
  s0 <- py_getitem octets 0 ;; o0 <- int_of_str s0 ;;
  s1 <- py_getitem octets 1 ;; o1 <- int_of_str s1 ;;
  s2 <- py_getitem octets 2 ;; o2 <- int_of_str s2 ;;
  s3 <- py_getitem octets 3 ;; o3 <- int_of_str s3 ;;
  ip_bytes <- pack_BBBB o0 o1 o2 o3 ;;
  port_bytes <- pack_H port ;;
  let combined_bytes := ip_bytes ++ port_bytes in
  let base64_encoded := str_of_bytes (b64encode combined_bytes) in
  Ok base64_encoded.

Definition base64_to_ipv4_port (base64_encoded : string)
  : result (string * Z) :=
  combined_bytes <- b64decode base64_encoded ;;
  let ip_bytes := take 4 combined_bytes in
  octets <- unpack_BBBB ip_bytes ;;
  let '(a, b, c, d) := octets in
  let ipv4 := join "." (map str_of_Z [a; b; c; d]) in
  let port_bytes := drop 4 combined_bytes in
  port <- unpack_H port_bytes ;;
  Ok (ipv4, port).

End JoinCode.

(** * Vocabulary of the statements

    Pure readings of the state used to state the properties, and a few
    concrete states. *)

Import Board.
Local Open Scope board_scope.

(** The board as [clear_board] makes it: 220 cells. *)
Definition wf (b : Board.t) : Prop := length (board b) = 220%nat.

(** The cell at column [x], row [y] of a grid. *)
Definition cell (l : list Tetrominoe) (x y : Z) : option Tetrominoe :=
  l !! Z.to_nat (y * 10 + x).

Definition on_board (x y : Z) : bool :=
  (0 <=? x) && (x <? 10) && (0 <=? y) && (y <? 22).

(** A piece fits at a position when each of its four squares is on the
    board and on an empty cell. *)
Definition cell_free (l : list Tetrominoe) (x y : Z) : bool :=
  on_board x y && bool_decide (cell l x y = Some NoShape).

Definition fits (b : Board.t) (p : Shape.t) (x y : Z) : bool :=
  forallb (fun i => cell_free (board b) (x + Shape.x p i) (y - Shape.y p i))
    range4.

(** The state after a successful [try_move]. *)
Definition place (p : Shape.t) (x y : Z) (b : Board.t) : Board.t :=
  with_cur_y y (with_cur_x x (with_current_piece p b)).

(** The quarter turn [(x, y) -> (-y, x)]. *)
Definition quarter_turn (c : Z * Z) : Z * Z := (- snd c, fst c).

(** The rotated piece in the words of the specification: the square as it
    is, any other piece with each offset turned. *)
Definition rotated_right (s : Shape.t) : Shape.t :=
  if decide (Shape.piece_shape s = SquareShape) then s
  else Shape.mk
         (mkCoords (quarter_turn (c0 (Shape.coords s)))
                   (quarter_turn (c1 (Shape.coords s)))
                   (quarter_turn (c2 (Shape.coords s)))
                   (quarter_turn (c3 (Shape.coords s))))
         (Shape.piece_shape s).

(** The inverse quarter turn [(x, y) -> (y, -x)] of [rotate_left]. *)
Definition quarter_turn_back (c : Z * Z) : Z * Z := (snd c, - fst c).

Definition rotated_left (s : Shape.t) : Shape.t :=
  if decide (Shape.piece_shape s = SquareShape) then s
  else Shape.mk
         (mkCoords (quarter_turn_back (c0 (Shape.coords s)))
                   (quarter_turn_back (c1 (Shape.coords s)))
                   (quarter_turn_back (c2 (Shape.coords s)))
                   (quarter_turn_back (c3 (Shape.coords s))))
         (Shape.piece_shape s).

(** The five positions tried, in order: in place, left, right, up, down. *)
Definition kick_positions (x y : Z) : list (Z * Z) :=
  [(x, y); (x - 1, y); (x + 1, y); (x, y + 1); (x, y - 1)].

Definition first_fit (b : Board.t) (p : Shape.t) (cands : list (Z * Z))
  : option (Z * Z) :=
  List.find (fun c => fits b p (fst c) (snd c)) cands.

Definition occupied (l : list Tetrominoe) (x y : Z) : bool :=
  match cell l x y with
  | Some s => bool_decide (s <> NoShape)
  | None => false
  end.

(** The value of [n] after the inner loop of the row scan. *)
Definition row_count (l : list Tetrominoe) (i : Z) : Z :=
  fold_left (fun n j => if occupied l j i then n + 1 else n) (seqZ 0 10) 0.

(** A row is full when all ten cells are occupied. *)
Definition row_full (l : list Tetrominoe) (i : Z) : bool :=
  forallb (fun j => occupied l j i) (seqZ 0 10).

Definition full_rows (l : list Tetrominoe) : list Z :=
  List.filter (row_full l) (seqZ 0 22).

(** The grid while [remove_row m] copies: cells from the start of row [m]
    up to flat index [c] already hold the cell one row up, the others are
    as they were. *)
Definition copied (orig : list Tetrominoe) (m c : Z)
    (l' : list Tetrominoe) : Prop :=
  length l' = 220%nat
  /\ forall i, 0 <= i < 220 ->
       l' !! Z.to_nat i
       = if (m * 10 <=? i) && (i <? c) then orig !! Z.to_nat (i + 10)
         else orig !! Z.to_nat i.

(** The grid while the top row is blanked up to column [j]. *)
Definition blanked (mid : list Tetrominoe) (j : Z)
    (l' : list Tetrominoe) : Prop :=
  length l' = 220%nat
  /\ forall i, 0 <= i < 220 ->
       l' !! Z.to_nat i
       = if (210 <=? i) && (i <? 210 + j) then Some NoShape
         else mid !! Z.to_nat i.

(** The grid after [remove_row m], cell by cell: below row [m] as before,
    from row [m] to row 20 the cell one row up, row 21 empty. *)
Definition row_removed (orig : list Tetrominoe) (m : Z)
    (l' : list Tetrominoe) : Prop :=
  length l' = 220%nat
  /\ forall x y, on_board x y = true ->
       cell l' x y
       = if y <? m then cell orig x y
         else if y <? 21 then cell orig x (y + 1)
         else Some NoShape.

(** The counters after the [if self.lines_to_goal >= self.goal] block. *)
Definition leveled (b : Board.t) : Board.t :=
  let g := if decide (num_goals_reached b <> 0)
           then 5 * num_goals_reached b + goal b else 5 + goal b in
  let v := float_sub (Speed b) (float_div (Speed b) (4 # 1)) in
  with_timer (Some (inject_Z (int_of_Q v)))
    (with_Speed v
       (with_num_goals_reached (num_goals_reached b + 1)
          (with_lines_to_goal 0 (with_goal g b)))).

(** The state after the bookkeeping for [n] removed rows, before the
    level check. *)
Definition counted (n : Z) (b : Board.t) : Board.t :=
  let b1 := with_num_lines_removed (num_lines_removed b + n) b in
  let b2 := with_statusbar (statusbar b1 ++ [str_of_Z (num_lines_removed b1)])
              b1 in
  let b3 := with_is_waiting_after_line true b2 in
  let b4 := with_current_piece (Shape.set_shape (current_piece b3) NoShape)
              b3 in
  with_lines_to_goal (lines_to_goal b4 + n) b4.

(** Everything [remove_full_lines] does after the rows are removed. *)
Definition lines_tail (n : Z) (b : Board.t) : Board.t :=
  if 0 <? n then
    if goal (counted n b) <=? lines_to_goal (counted n b)
    then leveled (counted n b) else counted n b
  else b.

(** *** Speeds

    A double that loses nothing when it is divided by four and when three
    quarters of it are taken: [4 k / 2 ^ j] with [3 k] within 53 bits. *)
Definition quarter_exact (x : Q) : Prop :=
  exists k j, Z.abs (3 * k) < 2 ^ 53 /\ 0 <= j <= 1074
              /\ (x == Qmake (4 * k) (Z.to_pos (2 ^ j)))%Q.

(** The speed after a level-up, in the float model and in the binary64
    arithmetic of the kernel. *)
Definition level_speed (x : Q) : Q :=
  float_sub x (float_div x (4 # 1)).

Definition level_speed_binary64 (x : float) : float :=
  PrimFloat.sub x (PrimFloat.div x 4%float).

(** The value of a finite binary64 number. *)
Definition value_of_binary64 (f : float) : option Q :=
  match Prim2SF f with
  | S754_zero _ => Some 0%Q
  | S754_finite s m e => Some (float_value (if s then Zneg m else Zpos m) e)
  | S754_infinity _ | S754_nan => None
  end.

(** The two agree on [k] level-ups in a row. *)
Fixpoint speeds_agree (k : nat) (x : Q) (f : float) : bool :=
  match k with
  | O => true
  | S k' =>
      match value_of_binary64 f with
      | Some q =>
          Qeq_bool q x
          && speeds_agree k' (level_speed x) (level_speed_binary64 f)
      | None => false
      end
  end.

(** *** Concrete states *)

Definition rng_zero : RNG := mkRNG (fun _ => 0) 0.

Definition empty_grid : list Tetrominoe := replicate 220 NoShape.

(** A running game on the grid [grid]: a Z piece falling at (6, 20), a T
    piece next, nothing held. *)
Definition example_state (grid : list Tetrominoe) : Board.t :=
  Board.mk grid 6 20 (Shape.set_shape Shape.new ZShape)
    (Shape.set_shape Shape.new TShape) Shape.new [] false true false false
    false 0 10 0 0 (300 # 1) (Some (300 # 1)) false false false false []
    rng_zero.

(** An S piece against the left wall of an empty grid. *)
Definition s_at_left_wall : Board.t :=
  with_cur_y 10
    (with_cur_x 0
       (with_current_piece (Shape.set_shape Shape.new SShape)
          (example_state empty_grid))).

(** The bottom row full, the rest empty. *)
Definition bottom_row_full : list Tetrominoe :=
  replicate 10 TShape ++ replicate 210 NoShape.

(** One line short of the first goal, with the bottom row full. *)
Definition before_first_goal : Board.t :=
  with_lines_to_goal 9 (example_state bottom_row_full).

(** One goal reached (goal 15, speed 225), one line short of the second
    goal, with the bottom row full. *)
Definition before_second_goal : Board.t :=
  with_lines_to_goal 14
    (with_num_goals_reached 1
       (with_goal 15
          (with_Speed (225 # 1) (example_state bottom_row_full)))).

(** Twenty-nine goals reached from the start (goal 2045, speed
    [300 * (3/4) ^ 29]), one line short of the thirtieth, with the bottom
    row full. *)
Definition before_thirtieth_goal : Board.t :=
  with_lines_to_goal 2044
    (with_num_goals_reached 29
       (with_goal 2045
          (with_Speed (5147278302366225 # 72057594037927936)
             (example_state bottom_row_full)))).

(** *** Sequences of draws *)

(** [n] successive calls of [get_next_shape], results in call order. *)
Fixpoint draws (n : nat) : M (list Tetrominoe) :=
  match n with
  | O => ret []
  | S n' =>
      s <- get_next_shape ;; rest <- draws n' ;; ret (s :: rest)
  end.

(** The [k]-th run of seven draws, counted from a refill. *)
Definition window (l : list Tetrominoe) (k : nat) : list Tetrominoe :=
  take 7 (drop (7 * k) l).

(** *** Spawning and locking *)

(** The state of [new_piece] just before its [try_move]: the next piece
    made current, a new next piece [s] drawn (leaving bag [bg] and
    generator [r]), the position set to the spawn position. *)
Definition spawned (s : Tetrominoe) (bg : list Tetrominoe) (r : RNG)
    (b : Board.t) : Board.t :=
  let b1 := with_current_piece
              (Shape.set_shape (current_piece b) (Shape.shape (next_piece b)))
              b in
  let b2 := with_bag bg (with_rng r b1) in
  let b3 := with_next_piece (Shape.set_shape (next_piece b2) s) b2 in
  let b4 := with_cur_x (board_width / 2 + 1) b3 in
  with_cur_y (BoardHeight - 1 + Shape.min_y (current_piece b4)) b4.

(** The state after the game-over block. *)
Definition game_over_state (b : Board.t) : Board.t :=
  with_statusbar (statusbar b ++ ["Game over"])
    (with_is_started false
       (with_finalize_timer false
          (with_timer None
             (with_current_piece
                (Shape.set_shape (current_piece b) NoShape) b)))).

(** The spawn position of the piece in the next slot is blocked. *)
Definition spawn_blocked (b : Board.t) : Prop :=
  let p := Shape.set_shape (current_piece b) (Shape.shape (next_piece b)) in
  fits b p (board_width / 2 + 1) (BoardHeight - 1 + Shape.min_y p) = false.

(** All four squares of the current piece are on the board. *)
Definition piece_on_board (b : Board.t) : bool :=
  forallb (fun i => on_board (cur_x b + Shape.x (current_piece b) i)
                      (cur_y b - Shape.y (current_piece b) i)) range4.

(** The grid once the current piece is written into it. *)
Definition locked_grid (b : Board.t) : list Tetrominoe :=
  fold_left
    (fun l i =>
       <[Z.to_nat ((cur_y b - Shape.y (current_piece b) i) * 10
                   + (cur_x b + Shape.x (current_piece b) i))
         := Shape.shape (current_piece b)]> l)
    range4 (board b).

(** The bottom row filled except for column 6. *)
Definition row_gap_grid : list Tetrominoe :=
  map (fun i => if ((i <? 10) && negb (i =? 6))%nat
                then LineShape else NoShape) (seq 0 220).

(** A running game over that grid, hold not yet used: the Z piece
    falling, a T piece next. *)
Definition before_hold : Board.t := example_state row_gap_grid.

(** Column 6 stacked up to row 18. *)
Definition column6_grid : list Tetrominoe :=
  map (fun i => if ((i mod 10 =? 6) && (i / 10 <=? 18))%nat
                then LShape else NoShape) (seq 0 220).

(** A game about to be lost: the O piece just spawned at (6, 21) above
    the stack, a T piece next. *)
Definition topped_out : Board.t :=
  with_cur_y 21
    (with_current_piece (Shape.set_shape Shape.new SquareShape)
       (example_state column6_grid)).

(** *** Join codes *)

(** The canonical dotted-quad text of four octets. *)
Definition dotted_quad (a b c d : Z) : string :=
  JoinCode.join "." (map str_of_Z [a; b; c; d]).

(** The six bytes a join code carries: the four octets, then the port,
    high byte first. *)
Definition packed (a b c d port : Z) : list Z :=
  [a; b; c; d; Z.shiftr port 8; Z.land port 255].

(** What is checked of each octet value by evaluation: its text has no
    dot and [int] reads it back. *)
Definition octet_ok (v : Z) : bool :=
  forallb (fun ch => negb (bool_decide (ch = "."%char)))
    (String.list_ascii_of_string (str_of_Z v))
  && match JoinCode.int_of_str (str_of_Z v) with
     | Ok n => n =? v
     | Raise _ => false
     end.

(** What is checked of each six-bit value by evaluation: its character is
    an ASCII character other than the pad, and the decoding table reads
    it back. *)
Definition sextet_ok (v : Z) : bool :=
  negb (JoinCode.table_b2a_base64 v =? JoinCode.BASE64_PAD)
  && (JoinCode.table_a2b_base64 (JoinCode.table_b2a_base64 v) =? v)
  && (0 <=? JoinCode.table_b2a_base64 v)
  && (JoinCode.table_b2a_base64 v <? 128).

(** The decoder state after a character of value [v]. *)
Definition a2b_next (v : Z) (st : JoinCode.a2b_state) : JoinCode.a2b_state :=
  let q := JoinCode.quad_pos st in
  let l := JoinCode.leftchar st in
  if q =? 0 then JoinCode.mk_a2b 1 v 0 (JoinCode.bin_data st)
  else if q =? 1 then
    JoinCode.mk_a2b 2 (Z.land v 15) 0
      (JoinCode.bin_data st
       ++ [Z.land (Z.lor (Z.shiftl l 2) (Z.shiftr v 4)) 255])
  else if q =? 2 then
    JoinCode.mk_a2b 3 (Z.land v 3) 0
      (JoinCode.bin_data st
       ++ [Z.land (Z.lor (Z.shiftl l 4) (Z.shiftr v 2)) 255])
  else
    JoinCode.mk_a2b 0 0 0
      (JoinCode.bin_data st ++ [Z.land (Z.lor (Z.shiftl l 6) v) 255]).


(** *** Tokens, character by character *)






(** An ASCII character the decoder skips: outside the alphabet, and not
    the pad. *)
Definition foreign (c : ascii) : bool :=
  (JoinCode.code c <? 128)
  && (64 <=? JoinCode.table_a2b_base64 (JoinCode.code c))
  && negb (JoinCode.code c =? JoinCode.BASE64_PAD).

(** *** Vocabulary of the further properties *)

(** A bag between refills: no kind twice, no empty kind. *)
Definition bag_ok (bg : list Tetrominoe) : Prop :=
  NoDup bg /\ forall s, s ∈ bg -> s <> NoShape.

(** The counters of the level display. *)
Definition counters_ok (b : Board.t) : Prop :=
  0 < goal b /\ 0 <= num_goals_reached b /\ 0 <= lines_to_goal b < goal b.

(** The rows that are not full, bottom to top. *)
Definition kept_rows (l : list Tetrominoe) : list Z :=
  List.filter (fun y => negb (row_full l y)) (seqZ 0 22).

(** The cell at [(x, y)] once the full rows are gone: the rows that
    are not full, in their order, then empty rows. *)
Definition gravity_cell (l : list Tetrominoe) (x y : Z)
  : option Tetrominoe :=
  match kept_rows l !! Z.to_nat y with
  | Some y0 => cell l x y0
  | None => Some NoShape
  end.

(** *** The board under the events it receives

    What Qt delivers to the board: key presses and releases, the game
    timer, the timeouts of the three key-repeat timers and of the finalize
    timer; and the two calls from the window: [start] and
    [show_game_over].  Each is handled to its end before the next. *)
Inductive Event : Type :=
| KeyPress (key : Key)
| KeyRelease (key : Key)
| GameTimer
| LeftRepeat
| RightRepeat
| DownRepeat
| FinalizeTimeout
| Start
| GameOverMessage (message : string).

Definition handle (e : Event) : M unit :=
  match e with
  | KeyPress key => keyPressEvent key
  | KeyRelease key => keyReleaseEvent key
  | GameTimer => timerEvent
  | LeftRepeat => left_key_timeout
  | RightRepeat => right_key_timeout
  | DownRepeat => down_key_timeout
  | FinalizeTimeout => finalize_timeout
  | Start => start
  | GameOverMessage message => show_game_over message
  end.

Definition run (events : list Event) : M unit := for_each events handle.

(** A piece as [set_shape] and the rotations make it: one square at the
    origin, every offset within two of it. *)
Definition piece_ok (p : Shape.t) : bool :=
  existsb (fun i => (Shape.x p i =? 0) && (Shape.y p i =? 0)) range4
  && forallb (fun i => (-2 <=? Shape.x p i) && (Shape.x p i <=? 2)
                       && (-2 <=? Shape.y p i) && (Shape.y p i <=? 2))
       range4.

(** What holds between events: the grid has its 220 cells, the current
    piece is on the board, a falling piece overlaps no landed cell, and
    there is no falling piece during the wait after a line clear. *)
Definition game_inv (b : Board.t) : Prop :=
  wf b
  /\ piece_ok (current_piece b) = true
  /\ piece_ok (hold_piece b) = true
  /\ piece_on_board b = true
  /\ (Shape.shape (current_piece b) <> NoShape ->
      fits b (current_piece b) (cur_x b) (cur_y b) = true)
  /\ (is_waiting_after_line b = true ->
      Shape.shape (current_piece b) = NoShape).

(** The same, with the finalize timer inactive when [dead] is set. *)
Definition inv_with (dead : bool) (b : Board.t) : Prop :=
  game_inv b /\ (dead = true -> finalize_timer b = false).

(** The state the key P leaves when it pauses a running game. *)
Definition paused_state (b : Board.t) : Board.t :=
  with_statusbar (statusbar b ++ ["Paused"])
    (with_down_key_timer false
       (with_right_key_timer false
          (with_left_key_timer false
             (with_finalize_timer false
                (with_timer None (with_is_paused true b)))))).

(** The state the key P leaves when it resumes a paused game. *)
Definition resumed_state (b : Board.t) : Board.t :=
  with_statusbar (statusbar b ++ [str_of_Z (num_lines_removed b)])
    (with_timer (Some (Speed b)) (with_is_paused false b)).

(** The state of [start] just before its [new_piece]. *)
Definition cleared_state (b : Board.t) : Board.t :=
  with_statusbar (statusbar b ++ [str_of_Z 0])
    (with_board empty_grid
       (with_num_lines_removed 0
          (with_is_waiting_after_line false (with_is_started true b)))).



(** * Properties *)

(** ** Reading the grid *)

Lemma py_index_in_range (len i : Z) :
  0 <= i < len -> py_index len i = Some (Z.to_nat i).
Proof.
  intros H. unfold py_index.
  destruct (Z.ltb_spec i 0); [lia|].
  destruct (Z.leb_spec 0 i); [|lia].
  destruct (Z.ltb_spec i len); [|lia]. reflexivity.
Qed.

Lemma shape_at_on_board (b : Board.t) (x y : Z) :
  wf b -> on_board x y = true ->
  exists s, cell (board b) x y = Some s /\ shape_at x y b = Ok (s, b).
Proof.
  unfold wf, on_board, cell, shape_at, py_getitem, board_width.
  intros Hlen Hon.
  assert (0 <= y * 10 + x < 220) as Hi by lia.
  rewrite Hlen, py_index_in_range by lia.
  destruct (board b !! Z.to_nat (y * 10 + x)) as [s|] eqn:E.
  - exists s. split; reflexivity.
  - apply lookup_ge_None in E. lia.
Qed.

Lemma set_shape_at_on_board (b : Board.t) (x y : Z) (s : Tetrominoe) :
  wf b -> on_board x y = true ->
  set_shape_at x y s b
  = Ok (tt, with_board (<[Z.to_nat (y * 10 + x) := s]> (board b)) b).
Proof.
  unfold wf, on_board, set_shape_at, py_setitem, board_width.
  intros Hlen Hon.
  rewrite Hlen, py_index_in_range by lia. reflexivity.
Qed.

(** ** try_move *)

Lemma try_move_scan_spec (b : Board.t) (p : Shape.t) (x y : Z)
    (idxs : list Idx) :
  wf b ->
  try_move_scan p x y idxs b
  = Ok (forallb (fun i => cell_free (board b) (x + Shape.x p i)
                            (y - Shape.y p i)) idxs, b).
Proof.
  intros Hwf. induction idxs as [|i idxs IH]; simpl; [reflexivity|].
  set (cx := x + Shape.x p i). set (cy := y - Shape.y p i).
  unfold cell_free at 1. fold cx cy.
  destruct (on_board cx cy) eqn:Hon.
  - assert (((cx <? 0) || (cx >=? board_width) || (cy <? 0)
             || (cy >=? BoardHeight)) = false) as ->.
    { unfold on_board, board_width, BoardHeight in *. lia. }
    destruct (shape_at_on_board b cx cy Hwf Hon) as (s & Hs & Hat).
    unfold bind at 1. rewrite Hat, Hs.
    destruct (decide (s <> NoShape)) as [Hne|Heq].
    + rewrite bool_decide_eq_false_2 by congruence. reflexivity.
    + assert (s = NoShape) as -> by (destruct (decide (s = NoShape)); tauto).
      rewrite bool_decide_eq_true_2 by reflexivity. simpl. exact IH.
  - assert (((cx <? 0) || (cx >=? board_width) || (cy <? 0)
             || (cy >=? BoardHeight)) = true) as ->.
    { unfold on_board, board_width, BoardHeight in *. lia. }
    reflexivity.
Qed.

Lemma try_move_spec (b : Board.t) (p : Shape.t) (x y : Z) :
  wf b ->
  try_move p x y b
  = Ok (fits b p x y, if fits b p x y then place p x y b else b).
Proof.
  intros Hwf. unfold try_move, bind at 1.
  rewrite try_move_scan_spec by assumption. fold (fits b p x y).
  destruct (fits b p x y); reflexivity.
Qed.

Lemma wf_place (p : Shape.t) (x y : Z) (b : Board.t) :
  wf b -> wf (place p x y b).
Proof. intros H; exact H. Qed.

(** ** try_rotate_right *)

Lemma rotate_right_rotated (s : Shape.t) :
  Shape.rotate_right s = rotated_right s.
Proof.
  unfold Shape.rotate_right, rotated_right.
  destruct (decide (Shape.piece_shape s = SquareShape)); [reflexivity|].
  destruct s as [[[x0 y0] [x1 y1] [x2 y2] [x3 y3]] k]. reflexivity.
Qed.

Lemma try_rotate_right_spec (b : Board.t) :
  wf b ->
  try_rotate_right b
  = Ok (tt,
        match first_fit b (Shape.rotate_right (current_piece b))
                (kick_positions (cur_x b) (cur_y b)) with
        | Some c => place (Shape.rotate_right (current_piece b))
                      (fst c) (snd c) b
        | None => b
        end).
Proof.
  intros Hwf. unfold try_rotate_right, first_fit, kick_positions.
  unfold bind, get, gets; cbv beta iota zeta.
  set (p := Shape.rotate_right (current_piece b)). simpl List.find.
  rewrite (try_move_spec b p (cur_x b) (cur_y b) Hwf).
  destruct (fits b p (cur_x b) (cur_y b)); [reflexivity|].
  rewrite (try_move_spec b p (cur_x b - 1) (cur_y b) Hwf).
  destruct (fits b p (cur_x b - 1) (cur_y b)); [reflexivity|].
  rewrite (try_move_spec b p (cur_x b + 1) (cur_y b) Hwf).
  destruct (fits b p (cur_x b + 1) (cur_y b)); [reflexivity|].
  rewrite (try_move_spec b p (cur_x b) (cur_y b + 1) Hwf).
  destruct (fits b p (cur_x b) (cur_y b + 1)); [reflexivity|].
  rewrite (try_move_spec b p (cur_x b) (cur_y b - 1) Hwf).
  destruct (fits b p (cur_x b) (cur_y b - 1)); reflexivity.
Qed.

(** ** Loops *)

Lemma for_fold_pure {A S : Type} (l : list A) (body : S -> A -> M S)
    (f : S -> A -> S) (b : Board.t) :
  (forall s a, In a l -> body s a b = Ok (f s a, b)) ->
  forall s, for_fold l body s b = Ok (fold_left f l s, b).
Proof.
  induction l as [|a l IH]; intros Hbody s; simpl; [reflexivity|].
  unfold bind. rewrite Hbody by (left; reflexivity).
  apply IH. intros s' a' Hin. apply Hbody. right; exact Hin.
Qed.

(** A counted loop [for k in range(m, m + n)] keeps an invariant indexed
    by the loop variable. *)
Lemma for_each_seqZ_inv (I : Z -> Board.t -> Prop) (body : Z -> M unit)
    (n : nat) :
  forall (m : Z) (b : Board.t),
    I m b ->
    (forall k b0, m <= k < m + Z.of_nat n -> I k b0 ->
                  exists b1, body k b0 = Ok (tt, b1) /\ I (k + 1) b1) ->
    exists b', for_each (seqZ m (Z.of_nat n)) body b = Ok (tt, b')
               /\ I (m + Z.of_nat n) b'.
Proof.
  induction n as [|n IH]; intros m b HI Hstep.
  - exists b. simpl. rewrite Z.add_0_r. split; [reflexivity|exact HI].
  - rewrite seqZ_cons by lia. simpl.
    destruct (Hstep m b ltac:(lia) HI) as (b1 & Hb1 & HI1).
    unfold bind. rewrite Hb1.
    replace (Z.pred (Z.of_nat (S n))) with (Z.of_nat n) by lia.
    replace (Z.succ m) with (m + 1) by lia.
    destruct (IH (m + 1) b1 HI1) as (b' & Hb' & HI').
    { intros k b0 Hk. apply Hstep. lia. }
    exists b'. split; [exact Hb'|].
    replace (m + Z.of_nat (S n)) with (m + 1 + Z.of_nat n) by lia.
    exact HI'.
Qed.

(** ** Full rows *)

Lemma fold_count_bounds {A : Type} (P : A -> bool) (l : list A) (n0 : Z) :
  n0 <= fold_left (fun n j => if P j then n + 1 else n) l n0
     <= n0 + Z.of_nat (length l)
  /\ (fold_left (fun n j => if P j then n + 1 else n) l n0
      = n0 + Z.of_nat (length l) <-> forallb P l = true).
Proof.
  revert n0. induction l as [|a l IH]; intros n0; simpl.
  - split; [lia|]. split; [reflexivity|lia].
  - destruct (P a); simpl.
    + destruct (IH (n0 + 1)) as [Hb Hiff]. split; [lia|].
      rewrite <- Hiff. lia.
    + destruct (IH n0) as [Hb Hiff]. split; [lia|].
      split; [lia|discriminate].
Qed.

Lemma row_count_full (l : list Tetrominoe) (i : Z) :
  (row_count l i =? 10) = row_full l i.
Proof.
  unfold row_count, row_full.
  destruct (fold_count_bounds (fun j => occupied l j i) (seqZ 0 10) 0)
    as [_ Hiff].
  rewrite length_seqZ in Hiff.
  change (0 + Z.of_nat (Z.to_nat 10)) with 10 in Hiff.
  destruct (forallb (fun j => occupied l j i) (seqZ 0 10)).
  - apply Z.eqb_eq. apply Hiff. reflexivity.
  - apply Z.eqb_neq. intros H. apply Hiff in H. discriminate.
Qed.

Lemma elem_seqZ_In (m n k : Z) : In k (seqZ m n) -> m <= k < m + n.
Proof. rewrite <- list_elem_of_In. apply elem_of_seqZ. Qed.

Lemma count_row_spec (b : Board.t) (i : Z) :
  wf b -> 0 <= i < 22 ->
  count_row i b = Ok (row_count (board b) i, b).
Proof.
  intros Hwf Hi. unfold count_row, row_count, board_width.
  apply for_fold_pure. intros n j Hj. apply elem_seqZ_In in Hj.
  assert (on_board j i = true) as Hon by (unfold on_board; lia).
  destruct (shape_at_on_board b j i Hwf Hon) as (s & Hs & Hat).
  unfold bind. rewrite Hat. unfold occupied. rewrite Hs. unfold ret.
  destruct (decide (s = NoShape)) as [->|Hne].
  - rewrite bool_decide_eq_false_2 by tauto. reflexivity.
  - rewrite bool_decide_eq_true_2 by assumption. reflexivity.
Qed.

Lemma fold_collect (P : Z -> bool) (l : list Z) (acc : list Z) :
  fold_left (fun rows i => if P i then rows ++ [i] else rows) l acc
  = acc ++ List.filter P l.
Proof.
  revert acc. induction l as [|a l IH]; intros acc; simpl.
  - rewrite app_nil_r. reflexivity.
  - destruct (P a); rewrite IH; [|reflexivity].
    rewrite <- app_assoc. reflexivity.
Qed.

Lemma scan_full_rows_spec (b : Board.t) :
  wf b -> scan_full_rows b = Ok (full_rows (board b), b).
Proof.
  intros Hwf. unfold scan_full_rows, full_rows, BoardHeight.
  rewrite (for_fold_pure _ _
             (fun rows i => if row_full (board b) i then rows ++ [i]
                            else rows)).
  - rewrite fold_collect. reflexivity.
  - intros rows i Hi. apply elem_seqZ_In in Hi.
    unfold bind. rewrite count_row_spec by (assumption || lia).
    unfold ret. rewrite row_count_full. reflexivity.
Qed.

(** ** Removing one row *)

Lemma with_board_with_board (l l' : list Tetrominoe) (b : Board.t) :
  with_board l (with_board l' b) = with_board l b.
Proof. reflexivity. Qed.

Lemma with_board_same (b : Board.t) : with_board (board b) b = b.
Proof. destruct b; reflexivity. Qed.

Lemma with_bag_same' (b : Board.t) : with_bag (bag b) b = b.
Proof. destruct b; reflexivity. Qed.

Lemma copy_cell_step (b : Board.t) (m k l : Z) (b0 : Board.t) :
  0 <= m -> m <= k < 21 -> 0 <= l < 10 ->
  (exists l0, b0 = with_board l0 b /\ copied (board b) m (k * 10 + l) l0) ->
  exists b1,
    (s <- shape_at l (k + 1) ;; set_shape_at l k s) b0 = Ok (tt, b1)
    /\ exists l1, b1 = with_board l1 b
                  /\ copied (board b) m (k * 10 + l + 1) l1.
Proof.
  intros Hm Hk Hl (l0 & -> & Hlen & Hcells).
  assert (wf (with_board l0 b)) as Hwf by exact Hlen.
  assert (on_board l (k + 1) = true) as Hon1 by (unfold on_board; lia).
  assert (on_board l k = true) as Hon by (unfold on_board; lia).
  destruct (shape_at_on_board _ l (k + 1) Hwf Hon1) as (s & Hs & Hat).
  unfold bind. rewrite Hat, (set_shape_at_on_board _ l k s Hwf Hon).
  eexists. split; [reflexivity|].
  exists (<[Z.to_nat (k * 10 + l) := s]> l0). split; [reflexivity|].
  split; [rewrite length_insert; exact Hlen|].
  intros i Hi. simpl in Hs. unfold cell in Hs.
  destruct (decide (i = k * 10 + l)) as [->|Hne].
  - rewrite list_lookup_insert_eq by lia.
    rewrite Hcells in Hs by lia.
    replace ((m * 10 <=? (k + 1) * 10 + l) && ((k + 1) * 10 + l <? k * 10 + l))
      with false in Hs by lia.
    replace ((m * 10 <=? k * 10 + l) && (k * 10 + l <? k * 10 + l + 1))
      with true by lia.
    replace (k * 10 + l + 10) with ((k + 1) * 10 + l) by lia.
    symmetry; exact Hs.
  - rewrite list_lookup_insert_ne by lia.
    rewrite Hcells by lia.
    replace ((m * 10 <=? i) && (i <? k * 10 + l + 1))
      with ((m * 10 <=? i) && (i <? k * 10 + l)) by lia.
    reflexivity.
Qed.

Lemma copy_row_step (b : Board.t) (m k : Z) (b0 : Board.t) :
  0 <= m -> m <= k < 21 ->
  (exists l0, b0 = with_board l0 b /\ copied (board b) m (k * 10) l0) ->
  exists b1,
    for_each (seqZ 0 board_width)
      (fun l => s <- shape_at l (k + 1) ;; set_shape_at l k s) b0
    = Ok (tt, b1)
    /\ exists l1, b1 = with_board l1 b
                  /\ copied (board b) m ((k + 1) * 10) l1.
Proof.
  intros Hm Hk H0.
  destruct (for_each_seqZ_inv
              (fun l b' => exists l0, b' = with_board l0 b
                                      /\ copied (board b) m (k * 10 + l) l0)
              (fun l => s <- shape_at l (k + 1) ;; set_shape_at l k s)
              10 0 b0) as (b1 & Hrun & Hinv).
  - rewrite Z.add_0_r. exact H0.
  - intros l b' Hl Hb'.
    destruct (copy_cell_step b m k l b' Hm Hk ltac:(lia) Hb')
      as (b1 & Hrun & l1 & -> & Hc).
    exists (with_board l1 b). split; [exact Hrun|].
    exists l1. split; [reflexivity|].
    replace (k * 10 + (l + 1)) with (k * 10 + l + 1) by lia. exact Hc.
  - exists b1. split; [exact Hrun|].
    replace ((k + 1) * 10) with (k * 10 + (0 + Z.of_nat 10)) by lia.
    exact Hinv.
Qed.

Lemma blank_cell_step (b : Board.t) (mid : list Tetrominoe) (j : Z)
    (b0 : Board.t) :
  0 <= j < 10 ->
  (exists l0, b0 = with_board l0 b /\ blanked mid j l0) ->
  exists b1,
    set_shape_at j (BoardHeight - 1) NoShape b0 = Ok (tt, b1)
    /\ exists l1, b1 = with_board l1 b /\ blanked mid (j + 1) l1.
Proof.
  intros Hj (l0 & -> & Hlen & Hcells).
  assert (wf (with_board l0 b)) as Hwf by exact Hlen.
  assert (on_board j (BoardHeight - 1) = true) as Hon
    by (unfold on_board, BoardHeight; lia).
  rewrite (set_shape_at_on_board _ j _ NoShape Hwf Hon).
  eexists. split; [reflexivity|].
  exists (<[Z.to_nat ((BoardHeight - 1) * 10 + j) := NoShape]> l0).
  split; [reflexivity|].
  split; [rewrite length_insert; exact Hlen|].
  intros i Hi. unfold BoardHeight.
  destruct (decide (i = 210 + j)) as [->|Hne].
  - replace ((22 - 1) * 10 + j) with (210 + j) by lia.
    rewrite list_lookup_insert_eq by lia.
    replace ((210 <=? 210 + j) && (210 + j <? 210 + (j + 1)))
      with true by lia.
    reflexivity.
  - rewrite list_lookup_insert_ne by lia.
    rewrite Hcells by lia.
    replace ((210 <=? i) && (i <? 210 + (j + 1)))
      with ((210 <=? i) && (i <? 210 + j)) by lia.
    reflexivity.
Qed.

Lemma remove_row_spec (b : Board.t) (m : Z) :
  wf b -> 0 <= m < 22 ->
  exists l', remove_row m b = Ok (tt, with_board l' b)
             /\ row_removed (board b) m l'.
Proof.
  intros Hwf Hm. unfold remove_row.
  destruct (for_each_seqZ_inv
              (fun k b' => exists l0, b' = with_board l0 b
                                      /\ copied (board b) m (k * 10) l0)
              (fun k => for_each (seqZ 0 board_width)
                 (fun l => s <- shape_at l (k + 1) ;; set_shape_at l k s))
              (Z.to_nat (21 - m)) m b) as (b1 & Hrun & l1 & -> & Hc).
  - exists (board b). split; [symmetry; apply with_board_same|].
    split; [exact Hwf|]. intros i Hi.
    replace ((m * 10 <=? i) && (i <? m * 10)) with false by lia.
    reflexivity.
  - intros k b0 Hk Hb0. apply copy_row_step; [lia|lia|exact Hb0].
  - replace (BoardHeight - 1 - m) with (Z.of_nat (Z.to_nat (21 - m)))
      by (unfold BoardHeight; lia).
    unfold bind at 1. rewrite Hrun.
    replace (m + Z.of_nat (Z.to_nat (21 - m))) with 21 in Hc by lia.
    destruct (for_each_seqZ_inv
                (fun j b' => exists l0, b' = with_board l0 b
                                        /\ blanked l1 j l0)
                (fun l => set_shape_at l (BoardHeight - 1) NoShape)
                10 0 (with_board l1 b)) as (b2 & Hrun2 & l2 & -> & Hb).
    + exists l1. split; [reflexivity|]. split; [apply Hc|].
      intros i Hi.
      replace ((210 <=? i) && (i <? 210 + 0)) with false by lia.
      reflexivity.
    + intros j b0 Hj Hb0. apply blank_cell_step; [lia|exact Hb0].
    + exists l2. split; [exact Hrun2|].
      destruct Hc as [_ Hc]. destruct Hb as [Hlen2 Hb].
      split; [exact Hlen2|].
      intros x y Hon. unfold cell, on_board in *.
      rewrite Hb by lia.
      change (0 + Z.of_nat 10) with 10.
      destruct (Z.ltb_spec y 21) as [Hy|Hy].
      * replace ((210 <=? y * 10 + x) && (y * 10 + x <? 210 + 10))
          with false by lia.
        rewrite Hc by lia.
        destruct (Z.ltb_spec y m).
        -- replace ((m * 10 <=? y * 10 + x) && (y * 10 + x <? 21 * 10))
             with false by lia.
           reflexivity.
        -- replace ((m * 10 <=? y * 10 + x) && (y * 10 + x <? 21 * 10))
             with true by lia.
           replace (y * 10 + x + 10) with ((y + 1) * 10 + x) by lia.
           reflexivity.
      * replace ((210 <=? y * 10 + x) && (y * 10 + x <? 210 + 10))
          with true by lia.
        destruct (Z.ltb_spec y m); [lia|reflexivity].
Qed.

(** ** remove_full_lines as a whole *)

Lemma remove_rows_ok (rows : list Z) :
  forall b, wf b -> Forall (fun m => 0 <= m < 22) rows ->
  exists l', for_each rows remove_row b = Ok (tt, with_board l' b)
             /\ length l' = 220%nat.
Proof.
  induction rows as [|m rows IH]; intros b Hwf Hrows.
  - exists (board b). simpl. unfold ret. rewrite with_board_same.
    split; [reflexivity|exact Hwf].
  - inversion Hrows as [|? ? Hm Hrest]; subst.
    destruct (remove_row_spec b m Hwf Hm) as (l1 & Hrun & Hlen & _).
    destruct (IH (with_board l1 b) Hlen Hrest) as (l2 & Hrun2 & Hlen2).
    exists l2. simpl. unfold bind. rewrite Hrun, Hrun2.
    split; [reflexivity|exact Hlen2].
Qed.

Lemma full_rows_range (l : list Tetrominoe) :
  Forall (fun m => 0 <= m < 22) (full_rows l).
Proof.
  apply Forall_forall. intros m Hm. apply list_elem_of_In in Hm.
  unfold full_rows in Hm. apply filter_In in Hm. destruct Hm as [Hm _].
  apply elem_seqZ_In in Hm. lia.
Qed.

Lemma remove_full_lines_spec (b : Board.t) :
  wf b ->
  exists l',
    for_each (reverse (full_rows (board b))) remove_row b
    = Ok (tt, with_board l' b)
    /\ length l' = 220%nat
    /\ remove_full_lines b
       = Ok (tt, lines_tail (Z.of_nat (length (full_rows (board b))))
                   (with_board l' b)).
Proof.
  intros Hwf.
  destruct (remove_rows_ok (reverse (full_rows (board b))) b Hwf)
    as (l' & Hrun & Hlen).
  { apply Forall_reverse, full_rows_range. }
  exists l'. split; [exact Hrun|]. split; [exact Hlen|].
  unfold remove_full_lines. unfold bind at 1.
  rewrite scan_full_rows_spec by exact Hwf.
  unfold bind at 1. rewrite Hrun. rewrite length_reverse.
  change (0 + Z.of_nat (length (full_rows (board b))))
    with (Z.of_nat (length (full_rows (board b)))).
  generalize (Z.of_nat (length (full_rows (board b)))) as n.
  generalize (with_board l' b) as s. clear. intros s n.
  unfold lines_tail. destruct (0 <? n); [|reflexivity].
  destruct s. unfold counted, leveled, level_up.
  cbv [bind modify get emit ret]. cbn.
  destruct (goal0 <=? lines_to_goal0 + n); [|reflexivity].
  cbn. destruct (decide (num_goals_reached0 <> 0)); reflexivity.
Qed.

Lemma filter_none {A : Type} (P : A -> bool) (l : list A) :
  (forall a, In a l -> P a = false) -> List.filter P l = [].
Proof.
  induction l as [|a l IH]; intros H; simpl; [reflexivity|].
  rewrite (H a) by (left; reflexivity).
  apply IH. intros a' Ha'. apply H. right; exact Ha'.
Qed.

Lemma filter_unique (P : Z -> bool) (R : Z) (l : list Z) :
  NoDup l -> In R l -> P R = true ->
  (forall r, In r l -> r <> R -> P r = false) ->
  List.filter P l = [R].
Proof.
  induction l as [|a l IH]; intros Hnd Hin HR Hothers; [destruct Hin|].
  apply NoDup_cons in Hnd. destruct Hnd as [Hnotin Hnd]. simpl.
  destruct (decide (a = R)) as [->|Hne].
  - rewrite HR. f_equal. apply filter_none. intros r Hr.
    apply Hothers; [right; exact Hr|].
    intros ->. apply Hnotin. apply list_elem_of_In. exact Hr.
  - rewrite (Hothers a) by first [left; reflexivity | exact Hne].
    apply IH; [exact Hnd| |exact HR|].
    + destruct Hin as [Heq|Hin]; [contradiction|exact Hin].
    + intros r Hr. apply Hothers. right; exact Hr.
Qed.

Lemma full_rows_single (l : list Tetrominoe) (R : Z) :
  0 <= R < 22 -> row_full l R = true ->
  (forall r, 0 <= r < 22 -> r <> R -> row_full l r = false) ->
  full_rows l = [R].
Proof.
  intros HR Hfull Hothers. unfold full_rows.
  apply filter_unique; [apply NoDup_seqZ| |exact Hfull|].
  - apply list_elem_of_In. apply elem_of_seqZ. lia.
  - intros r Hr. apply elem_seqZ_In in Hr. apply Hothers. lia.
Qed.

Lemma with_board_inj (l1 l2 : list Tetrominoe) (b : Board.t) :
  with_board l1 b = with_board l2 b -> l1 = l2.
Proof. intros H. apply (f_equal board) in H. exact H. Qed.

Lemma board_lines_tail (n : Z) (b : Board.t) :
  board (lines_tail n b) = board b.
Proof.
  unfold lines_tail. destruct (0 <? n); [|reflexivity].
  destruct (goal _ <=? lines_to_goal _); reflexivity.
Qed.

Lemma num_lines_removed_lines_tail (n : Z) (b : Board.t) :
  0 < n -> num_lines_removed (lines_tail n b) = num_lines_removed b + n.
Proof.
  intros Hn. unfold lines_tail.
  destruct (Z.ltb_spec 0 n); [|lia].
  destruct (goal _ <=? lines_to_goal _); reflexivity.
Qed.

(** C2. With exactly one full row [R], the line clear removes that row:
    rows below stay, every row above moves down by one, the top row
    becomes empty, and the count of removed lines grows by one. *)
Theorem remove_full_lines_single_row (b : Board.t) (R : Z) :
  wf b -> 0 <= R < 22 ->
  row_full (board b) R = true ->
  (forall r, 0 <= r < 22 -> r <> R -> row_full (board b) r = false) ->
  exists b',
    remove_full_lines b = Ok (tt, b')
    /\ length (board b') = 220%nat
    /\ (forall x y, on_board x y = true ->
          cell (board b') x y
          = if y <? R then cell (board b) x y
            else if y <? 21 then cell (board b) x (y + 1)
            else Some NoShape)
    /\ num_lines_removed b' = num_lines_removed b + 1.
Proof.
  intros Hwf HR Hfull Hothers.
  destruct (remove_full_lines_spec b Hwf) as (l' & Hrun & Hlen & Hspec).
  rewrite (full_rows_single _ R HR Hfull Hothers) in Hrun, Hspec.
  destruct (remove_row_spec b R Hwf HR) as (l1 & Hrow & _ & Hcells).
  simpl in Hrun. unfold bind in Hrun. rewrite Hrow in Hrun.
  unfold ret in Hrun.
  assert (l1 = l') as ->.
  { apply (with_board_inj _ _ b). congruence. }
  eexists. split; [exact Hspec|].
  rewrite board_lines_tail. simpl board.
  split; [exact Hlen|]. split; [exact Hcells|].
  change (Z.of_nat (length [R])) with 1.
  rewrite num_lines_removed_lines_tail by lia. reflexivity.
Qed.


Lemma remove_full_lines_single_row_witness :
  exists b',
    remove_full_lines (example_state bottom_row_full) = Ok (tt, b')
    /\ length (board b') = 220%nat
    /\ (forall x y, on_board x y = true ->
          cell (board b') x y
          = if y <? 0 then cell bottom_row_full x y
            else if y <? 21 then cell bottom_row_full x (y + 1)
            else Some NoShape)
    /\ num_lines_removed b' = 0 + 1.
Proof.
  apply (remove_full_lines_single_row (example_state bottom_row_full) 0).
  - reflexivity.
  - lia.
  - reflexivity.
  - intros r Hr Hne.
    assert (In r (seqZ 1 21)) as Hin
      by (apply list_elem_of_In, elem_of_seqZ; lia).
    vm_compute in Hin.
    repeat (destruct Hin as [<-|Hin]; [reflexivity|]). destruct Hin.
Defined.

(** ** Moves and rotation: the frame and the kick order *)

(** C1. [try_move] returns; when it returns false the whole state,
    and so the grid, the current piece and the position, is unchanged; when
    it returns true the position is exactly the requested one, the current
    piece is the piece passed, and the grid is unchanged. *)
Theorem try_move_frame (b : Board.t) (piece : Shape.t) (new_x new_y : Z) :
  wf b ->
  exists r b',
    try_move piece new_x new_y b = Ok (r, b')
    /\ (r = false -> b' = b)
    /\ (r = true ->
        cur_x b' = new_x /\ cur_y b' = new_y
        /\ current_piece b' = piece /\ board b' = board b).
Proof.
  intros Hwf. rewrite (try_move_spec b piece new_x new_y Hwf).
  destruct (fits b piece new_x new_y).
  - exists true, (place piece new_x new_y b).
    split; [reflexivity|]. split; [discriminate|].
    intros _. repeat split.
  - exists false, b. split; [reflexivity|]. split; [reflexivity|discriminate].
Qed.

Lemma try_move_frame_witness :
  exists r b',
    try_move (Shape.set_shape Shape.new LineShape) 3 5
      (example_state empty_grid) = Ok (r, b')
    /\ (r = false -> b' = example_state empty_grid)
    /\ (r = true ->
        cur_x b' = 3 /\ cur_y b' = 5
        /\ current_piece b' = Shape.set_shape Shape.new LineShape
        /\ board b' = board (example_state empty_grid)).
Proof.
  apply (try_move_frame (example_state empty_grid)). reflexivity.
Defined.

(** C3. [try_rotate_right] turns the current piece by
    [(x, y) -> (-y, x)] (the square is left as it is) and tries it in
    place, then one cell left, right, up, down; the first position that
    fits becomes the position, and when none fits the state is unchanged.
    In particular, failing in place and on the left but fitting one cell
    to the right ends at [(x + 1, y)]. *)
Theorem try_rotate_right_kicks (b : Board.t) :
  wf b ->
  let p := Shape.rotate_right (current_piece b) in
  p = rotated_right (current_piece b)
  /\ try_rotate_right b
     = Ok (tt,
           match first_fit b p (kick_positions (cur_x b) (cur_y b)) with
           | Some c => place p (fst c) (snd c) b
           | None => b
           end)
  /\ (fits b p (cur_x b) (cur_y b) = false ->
      fits b p (cur_x b - 1) (cur_y b) = false ->
      fits b p (cur_x b + 1) (cur_y b) = true ->
      exists b', try_rotate_right b = Ok (tt, b')
                 /\ cur_x b' = cur_x b + 1 /\ cur_y b' = cur_y b
                 /\ current_piece b' = p /\ board b' = board b).
Proof.
  intros Hwf p. split; [apply rotate_right_rotated|].
  split; [apply try_rotate_right_spec; exact Hwf|].
  intros H0 Hl Hr. rewrite (try_rotate_right_spec b Hwf). fold p.
  unfold first_fit, kick_positions. simpl List.find.
  rewrite H0, Hl, Hr. eexists. split; [reflexivity|]. repeat split.
Qed.

Lemma try_rotate_right_kicks_witness :
  exists b', try_rotate_right s_at_left_wall = Ok (tt, b')
             /\ cur_x b' = 1 /\ cur_y b' = 10
             /\ current_piece b'
                = Shape.rotate_right (current_piece s_at_left_wall)
             /\ board b' = board s_at_left_wall.
Proof.
  destruct (try_rotate_right_kicks s_at_left_wall) as (_ & _ & H).
  - reflexivity.
  - apply H; reflexivity.
Defined.

(** ** Levelling *)

Lemma log2_quot_le (n d : positive) :
  (0 <= log2_quot n d -> 2 ^ log2_quot n d * Zpos d <= Zpos n)
  /\ (log2_quot n d < 0 -> Zpos d <= Zpos n * 2 ^ (- log2_quot n d)).
Proof.
  unfold log2_quot.
  destruct (Z.log2_spec (Zpos n)) as [Hn1 Hn2]; [lia|].
  destruct (Z.log2_spec (Zpos d)) as [Hd1 Hd2]; [lia|].
  pose proof (Z.log2_nonneg (Zpos n)) as Hln.
  pose proof (Z.log2_nonneg (Zpos d)) as Hld.
  rewrite Z.pow_succ_r in Hn2, Hd2 by lia.
  set (ln := Z.log2 (Zpos n)) in *. set (ld := Z.log2 (Zpos d)) in *.
  destruct (Z.leb_spec 0 (ln - ld)) as [Hk|Hk].
  - assert (2 ^ ln = 2 ^ (ln - ld) * 2 ^ ld) as Hpow
      by (rewrite <- Z.pow_add_r by lia; f_equal; lia).
    assert (0 < 2 ^ (ln - ld)) as Hpos by (apply Z.pow_pos_nonneg; lia).
    destruct (Z.ltb_spec (Zpos n) (Zpos d * 2 ^ (ln - ld))) as [Hlt|Hge].
    + split; intros Hr.
      * assert (2 ^ (ln - ld) = 2 * 2 ^ (ln - ld - 1)) as Hhalf
          by (rewrite <- Z.pow_succ_r by lia; f_equal; lia).
        assert (0 < 2 ^ (ln - ld - 1)) by (apply Z.pow_pos_nonneg; lia).
        nia.
      * replace (ln - ld) with 0 in * by lia.
        change (- (0 - 1)) with 1. change (2 ^ 1) with 2.
        change (2 ^ 0) with 1 in Hpow. lia.
    + split; intros Hr; [lia|lia].
  - assert (2 ^ ld = 2 ^ ln * 2 ^ (- (ln - ld))) as Hpow
      by (rewrite <- Z.pow_add_r by lia; f_equal; lia).
    assert (0 < 2 ^ (- (ln - ld))) as Hpos by (apply Z.pow_pos_nonneg; lia).
    destruct (Z.ltb_spec (Zpos n * 2 ^ (- (ln - ld))) (Zpos d)) as [Hlt|Hge].
    + split; intros Hr; [lia|].
      replace (- (ln - ld - 1)) with (Z.succ (- (ln - ld))) by lia.
      rewrite Z.pow_succ_r by lia. nia.
    + split; intros Hr; [lia|exact Hge].
Qed.

Lemma div_half_even_exact (q d : Z) :
  0 < d -> div_half_even (q * d) d = q.
Proof.
  intros Hd. unfold div_half_even.
  rewrite Z.div_mul, Z.mod_mul by lia.
  destruct (Z.ltb_spec (2 * 0) d); [reflexivity|lia].
Qed.

(** A rational that is a double is its own rounding: [m / 2 ^ j] with
    [m] within 53 bits and [j] within the range of the exponent. *)
Lemma float_round_pos_exact (n d : positive) (m j : Z) :
  0 < m < 2 ^ 53 -> 0 <= j <= 1074 ->
  Zpos n * 2 ^ j = m * Zpos d ->
  let (m', e) := float_round_pos n d in
  (float_value m' e == Qmake (Zpos n) d)%Q
  /\ (float_value (- m') e == Qmake (Zneg n) d)%Q.
Proof.
  intros Hm Hj Heq. unfold float_round_pos.
  destruct (log2_quot_le n d) as [Hr1 Hr2].
  set (r := log2_quot n d) in *.
  assert (0 < 2 ^ j) as Hpj by (apply Z.pow_pos_nonneg; lia).
  assert (r <= 52 - j) as Hr.
  { destruct (Z.le_gt_cases r (52 - j)) as [H|H]; [exact H|exfalso].
    destruct (Z.le_gt_cases 0 r) as [Hr0|Hr0].
    - specialize (Hr1 Hr0).
      assert (2 ^ 53 <= 2 ^ (r + j)) as Hbig
        by (apply Z.pow_le_mono_r; lia).
      rewrite Z.pow_add_r in Hbig by lia.
      assert (0 < 2 ^ r) by (apply Z.pow_pos_nonneg; lia).
      nia.
    - specialize (Hr2 Hr0).
      assert (2 ^ (53 - r) <= 2 ^ j) as Hbig
        by (apply Z.pow_le_mono_r; lia).
      replace (53 - r) with (53 + - r) in Hbig by lia.
      rewrite Z.pow_add_r in Hbig by lia.
      assert (0 < 2 ^ (- r)) by (apply Z.pow_pos_nonneg; lia).
      nia. }
  set (e := Z.max (r - 52) (- 1074)).
  assert (e <= - j) as He by lia.
  unfold float_value.
  destruct (Z.leb_spec 0 e) as [He0|He0].
  - assert (e = 0) as -> by lia. assert (j = 0) as -> by lia.
    change (2 ^ 0) with 1 in *. rewrite !Z.mul_1_r in *.
    rewrite Heq, div_half_even_exact by lia.
    unfold Qeq. cbn [Qnum Qden inject_Z]. split; lia.
  - assert (Zpos n * 2 ^ (- e) = (m * 2 ^ (- e - j)) * Zpos d) as Hdiv.
    { replace (- e) with (j + (- e - j)) at 1 by lia.
      rewrite Z.pow_add_r by lia. nia. }
    rewrite Hdiv, div_half_even_exact by lia.
    assert (0 < 2 ^ (- e)) as Hpe by (apply Z.pow_pos_nonneg; lia).
    rewrite !Qred_correct. unfold Qeq. cbn [Qnum Qden].
    rewrite Z2Pos.id by exact Hpe. split; lia.
Qed.

Lemma float_round_exact (x : Q) (m j : Z) :
  Z.abs m < 2 ^ 53 -> 0 <= j <= 1074 ->
  (x == Qmake m (Z.to_pos (2 ^ j)))%Q ->
  (float_round x == x)%Q.
Proof.
  intros Hm Hj Hx.
  assert (0 < 2 ^ j) as Hpj by (apply Z.pow_pos_nonneg; lia).
  unfold Qeq in Hx. cbn [Qnum Qden] in Hx.
  rewrite Z2Pos.id in Hx by exact Hpj.
  destruct x as [[|n|n] d]; unfold float_round; cbn [Qnum Qden] in *.
  - reflexivity.
  - pose proof (float_round_pos_exact n d m j) as H.
    destruct (float_round_pos n d) as [m' e]. apply H; lia.
  - pose proof (float_round_pos_exact n d (- m) j) as H.
    destruct (float_round_pos n d) as [m' e]. apply H; lia.
Qed.

Lemma level_speed_three_quarters (x : Q) :
  quarter_exact x -> (level_speed x == x * (3 # 4))%Q.
Proof.
  intros (k & j & Hk & Hj & Hx). unfold level_speed, float_sub, float_div.
  assert (0 < 2 ^ j) as Hpj by (apply Z.pow_pos_nonneg; lia).
  assert (x / (4 # 1) == Qmake k (Z.to_pos (2 ^ j)))%Q as Hquarter.
  { rewrite Hx. unfold Qeq, Qdiv, Qmult, Qinv. cbn [Qnum Qden].
    rewrite Pos2Z.inj_mul, Z2Pos.id by exact Hpj. lia. }
  assert (float_round (x / (4 # 1)) == Qmake k (Z.to_pos (2 ^ j)))%Q as Hy.
  { rewrite (float_round_exact _ k j) by (lia || exact Hquarter).
    exact Hquarter. }
  set (y := float_round (x / (4 # 1))) in *.
  assert (x - y == Qmake (3 * k) (Z.to_pos (2 ^ j)))%Q as Hrest.
  { rewrite Hy, Hx. unfold Qeq, Qminus, Qplus, Qopp. cbn [Qnum Qden].
    rewrite Pos2Z.inj_mul, Z2Pos.id by exact Hpj. lia. }
  rewrite (float_round_exact _ (3 * k) j) by (lia || exact Hrest).
  rewrite Hrest, Hx. unfold Qeq, Qmult. cbn [Qnum Qden].
  rewrite Pos2Z.inj_mul, Z2Pos.id by exact Hpj. lia.
Qed.

(** The float model is the binary64 arithmetic of the kernel on the
    speeds of the first two hundred level-ups. *)
Lemma level_speed_is_binary64 :
  speeds_agree 200 (300 # 1) 300%float = true.
Proof. vm_compute. reflexivity. Qed.

(** The same at the small end, where the doubles are multiples of
    [2 ^ -1074] and [Speed / 4] is rounded too: sixty-four level-ups from
    [300 * 2 ^ -1070], by which the speed no longer changes. *)
Lemma level_speed_is_binary64_subnormal :
  speeds_agree 64 (Qmake 300 (Z.to_pos (2 ^ 1070)))
    (Z.ldexp 300%float (- 1070))
  = true
  /\ level_speed (Qmake 1 (Z.to_pos (2 ^ 1074)))
     = Qmake 1 (Z.to_pos (2 ^ 1074)).
Proof. split; vm_compute; reflexivity. Qed.

(** From 300 the first twenty-nine level-ups are exact; the thirtieth
    stores a rounded double. *)
Lemma thirtieth_level_rounds :
  Nat.iter 29 level_speed (300 # 1)
  = 5147278302366225 # 72057594037927936
  /\ Nat.iter 30 level_speed (300 # 1)
     = 3860458726774669 # 72057594037927936
  /\ ~ (Nat.iter 30 level_speed (300 # 1)
        == Nat.iter 29 level_speed (300 # 1) * (3 # 4))%Q.
Proof.
  split; [vm_compute; reflexivity|]. split; [vm_compute; reflexivity|].
  intros H. vm_compute in H. discriminate H.
Qed.

Lemma level_fields (b : Board.t) :
  lines_to_goal (leveled b) = 0
  /\ num_goals_reached (leveled b) = num_goals_reached b + 1
  /\ goal (leveled b)
     = (if decide (num_goals_reached b <> 0)
        then 5 * num_goals_reached b + goal b else 5 + goal b)
  /\ Speed (leveled b) = level_speed (Speed b)
  /\ timer (leveled b) = Some (inject_Z (int_of_Q (Speed (leveled b)))).
Proof. repeat split. Qed.

(** C4. When a line clear brings the lines counted toward the goal up
    to the goal, [lines_to_goal] is reset to 0, [Board.Speed] becomes
    [Speed - Speed / 4] in float arithmetic and the timer is restarted
    with its integer part.  That is three quarters of the speed whenever
    the double holds them exactly: from the initial 300 the speed becomes
    225 and the tick period 225 ms, from 225 the speed becomes 168.75 and
    the period 168 ms; the first result that is rounded is the thirtieth
    from 300.  From [goal = 10] and no goal reached, [goal]
    becomes 15 and the count of goals reached 1; with one goal reached,
    [goal] grows by [5 * 1] (from 15 to 20) and the count becomes 2. *)
Theorem level_up_progression (b : Board.t) :
  wf b ->
  0 < Z.of_nat (length (full_rows (board b))) ->
  goal b <= lines_to_goal b + Z.of_nat (length (full_rows (board b))) ->
  exists b',
    remove_full_lines b = Ok (tt, b')
    /\ lines_to_goal b' = 0
    /\ Speed b' = float_sub (Speed b) (float_div (Speed b) (4 # 1))
    /\ (quarter_exact (Speed b) -> (Speed b' == Speed b * (3 # 4))%Q)
    /\ timer b' = Some (inject_Z (int_of_Q (Speed b')))
    /\ (Speed b = 300 # 1 ->
        Speed b' = 225 # 1 /\ timer b' = Some (225 # 1))
    /\ (Speed b = 225 # 1 ->
        Speed b' = 675 # 4 /\ timer b' = Some (168 # 1))
    /\ (Speed b = 5147278302366225 # 72057594037927936 ->
        Speed b' = 3860458726774669 # 72057594037927936)
    /\ (num_goals_reached b = 0 -> goal b = 10 ->
        goal b' = 15 /\ num_goals_reached b' = 1)
    /\ (num_goals_reached b = 1 ->
        goal b' = goal b + 5 * 1 /\ num_goals_reached b' = 2
        /\ (goal b = 15 -> goal b' = 20)).
Proof.
  intros Hwf Hn Hgoal.
  destruct (remove_full_lines_spec b Hwf) as (l' & _ & _ & Hspec).
  eexists. split; [exact Hspec|].
  set (n := Z.of_nat (length (full_rows (board b)))) in *.
  unfold lines_tail.
  destruct (Z.ltb_spec 0 n) as [_|]; [|lia].
  destruct (Z.leb_spec (goal (counted n (with_board l' b)))
              (lines_to_goal (counted n (with_board l' b)))) as [_|Hlt];
    [|simpl in Hlt; lia].
  destruct (level_fields (counted n (with_board l' b)))
    as (H1 & H2 & H3 & H4 & H5).
  change (Speed (counted n (with_board l' b))) with (Speed b) in H4.
  rewrite H5, H4, H2, H3. clear H2 H3 H4 H5.
  split; [exact H1|]. split; [reflexivity|].
  split; [apply level_speed_three_quarters|].
  split; [reflexivity|].
  split; [intros ->; split; vm_compute; reflexivity|].
  split; [intros ->; split; vm_compute; reflexivity|].
  split; [intros ->; vm_compute; reflexivity|].
  simpl num_goals_reached. simpl goal.
  split.
  - intros Hngr Hg. rewrite Hngr, Hg.
    destruct (decide (0 <> 0)); [lia|]. split; reflexivity.
  - intros Hngr. rewrite Hngr.
    destruct (decide (1 <> 0)); [|lia].
    split; [lia|]. split; [reflexivity|lia].
Qed.

Lemma level_up_progression_witness :
  (exists b1,
     remove_full_lines before_first_goal = Ok (tt, b1)
     /\ goal b1 = 15 /\ num_goals_reached b1 = 1 /\ lines_to_goal b1 = 0
     /\ Speed b1 = 225 # 1 /\ timer b1 = Some (225 # 1)
     /\ (Speed b1 == (300 # 1) * (3 # 4))%Q)
  /\ (exists b2,
        remove_full_lines before_second_goal = Ok (tt, b2)
        /\ goal b2 = 20 /\ num_goals_reached b2 = 2 /\ lines_to_goal b2 = 0
        /\ Speed b2 = 675 # 4 /\ timer b2 = Some (168 # 1)
        /\ (Speed b2 == (225 # 1) * (3 # 4))%Q)
  /\ (exists b3,
        remove_full_lines before_thirtieth_goal = Ok (tt, b3)
        /\ lines_to_goal b3 = 0
        /\ Speed b3 = 3860458726774669 # 72057594037927936).
Proof.
  split; [|split].
  - destruct (level_up_progression before_first_goal)
      as (b1 & Hrun & Hl & _ & Hq & _ & H300 & _ & _ & H0 & _).
    + reflexivity.
    + vm_compute. reflexivity.
    + vm_compute. discriminate.
    + exists b1. destruct H0 as [Hg Hn]; [reflexivity|reflexivity|].
      destruct H300 as [Hs Ht]; [reflexivity|].
      repeat (split; [assumption|]).
      apply Hq. exists 75, 0. repeat split; try lia; reflexivity.
  - destruct (level_up_progression before_second_goal)
      as (b2 & Hrun & Hl & _ & Hq & _ & _ & H225 & _ & _ & H1).
    + reflexivity.
    + vm_compute. reflexivity.
    + vm_compute. discriminate.
    + exists b2. destruct H1 as (_ & Hn & Hg); [reflexivity|].
      destruct H225 as [Hs Ht]; [reflexivity|].
      split; [assumption|]. split; [apply Hg; reflexivity|].
      repeat (split; [assumption|]).
      apply Hq. exists 225, 2. repeat split; try lia; reflexivity.
  - destruct (level_up_progression before_thirtieth_goal)
      as (b3 & Hrun & Hl & _ & _ & _ & _ & _ & H30 & _).
    + reflexivity.
    + vm_compute. reflexivity.
    + vm_compute. discriminate.
    + exists b3. split; [assumption|]. split; [assumption|].
      apply H30. reflexivity.
Defined.

(** ** The two rotations *)

Lemma rotate_left_rotated (s : Shape.t) :
  Shape.rotate_left s = rotated_left s.
Proof.
  unfold Shape.rotate_left, rotated_left.
  destruct (decide (Shape.piece_shape s = SquareShape)); [reflexivity|].
  destruct s as [[[x0 y0] [x1 y1] [x2 y2] [x3 y3]] k]. reflexivity.
Qed.

(** C10. Rotating right and then left gives back the same kind and the
    same four coordinate pairs; on the square both rotations return the
    shape itself. *)
Theorem rotate_left_rotate_right (s : Shape.t) :
  Shape.rotate_left (Shape.rotate_right s) = s
  /\ (Shape.piece_shape s = SquareShape ->
      Shape.rotate_right s = s /\ Shape.rotate_left s = s).
Proof.
  split.
  - rewrite rotate_left_rotated, rotate_right_rotated.
    destruct s as [[[x0 y0] [x1 y1] [x2 y2] [x3 y3]] k].
    unfold rotated_right. cbn [Shape.piece_shape Shape.coords].
    destruct (decide (k = SquareShape)) as [->|Hk]; [reflexivity|].
    unfold rotated_left. cbn [Shape.piece_shape Shape.coords].
    destruct (decide (k = SquareShape)); [contradiction|].
    unfold quarter_turn, quarter_turn_back.
    cbn [c0 c1 c2 c3 fst snd]. rewrite !Z.opp_involutive. reflexivity.
  - intros Hk. rewrite rotate_left_rotated, rotate_right_rotated.
    unfold rotated_left, rotated_right.
    destruct (decide (Shape.piece_shape s = SquareShape)); [|contradiction].
    split; reflexivity.
Qed.

Lemma rotate_left_rotate_right_witness :
  Shape.rotate_left
    (Shape.rotate_right (Shape.set_shape Shape.new SquareShape))
  = Shape.set_shape Shape.new SquareShape
  /\ Shape.rotate_right (Shape.set_shape Shape.new SquareShape)
     = Shape.set_shape Shape.new SquareShape
  /\ Shape.rotate_left (Shape.set_shape Shape.new SquareShape)
     = Shape.set_shape Shape.new SquareShape.
Proof.
  destruct (rotate_left_rotate_right (Shape.set_shape Shape.new SquareShape))
    as [H1 H2].
  split; [exact H1|]. apply H2. reflexivity.
Defined.

(** ** The bag *)

Lemma swap_Permutation {A : Type} (l : list A) (i j : nat) :
  swap l i j ≡ₚ l.
Proof.
  unfold swap.
  destruct (l !! i) as [a|] eqn:Hi; [|reflexivity].
  destruct (l !! j) as [c|] eqn:Hj; [|reflexivity].
  apply (Permutation_insert_swap l i j a c Hi Hj).
Qed.

Lemma shuffle_Permutation {A : Type} (l : list A) (r : RNG) :
  fst (shuffle l r) ≡ₚ l.
Proof.
  unfold shuffle.
  change l with (fst (l, r)) at 3.
  generalize (l, r) as st. generalize (reverse (seq 1 (length l - 1))) as idxs.
  induction idxs as [|i idxs IH]; intros st; simpl; [reflexivity|].
  rewrite IH. destruct (randbelow (Z.of_nat i + 1) (snd st)) as [j r'].
  simpl. apply swap_Permutation.
Qed.

Lemma get_next_shape_pop (b : Board.t) (bg : list Tetrominoe)
    (s : Tetrominoe) :
  bag b = bg ++ [s] -> get_next_shape b = Ok (s, with_bag bg b).
Proof.
  intros Hbag. unfold get_next_shape. cbv [bind get].
  destruct (decide (bag b = [])) as [E|_].
  { rewrite Hbag in E. destruct bg; discriminate. }
  cbv [ret]. rewrite Hbag, reverse_snoc. cbv [bind modify ret].
  rewrite reverse_involutive. reflexivity.
Qed.

Lemma get_next_shape_refill (b : Board.t) (l bg : list Tetrominoe)
    (r : RNG) (s : Tetrominoe) :
  bag b = [] -> shuffle all_shapes (rng b) = (l, r) -> l = bg ++ [s] ->
  get_next_shape b = Ok (s, with_bag bg (with_rng r (with_bag l b))).
Proof.
  intros Hbag Hsh Hl. unfold get_next_shape. cbv [bind get].
  destruct (decide (bag b = [])) as [_|E]; [|contradiction].
  rewrite Hsh. cbv [bind modify ret].
  change (bag (with_rng r (with_bag l b))) with l.
  rewrite Hl, reverse_snoc, reverse_involutive. reflexivity.
Qed.

Lemma draws_S (n : nat) (b : Board.t) :
  draws (S n) b
  = match get_next_shape b with
    | Ok (s, b1) =>
        match draws n b1 with
        | Ok (rest, b2) => Ok (s :: rest, b2)
        | Raise e => Raise e
        end
    | Raise e => Raise e
    end.
Proof.
  simpl. unfold bind. destruct (get_next_shape b) as [[s b1]|e];
    [|reflexivity].
  destruct (draws n b1) as [[rest b2]|e]; reflexivity.
Qed.

Lemma draws_add (n m : nat) (b : Board.t) :
  draws (n + m) b
  = match draws n b with
    | Ok (l1, b1) =>
        match draws m b1 with
        | Ok (l2, b2) => Ok (l1 ++ l2, b2)
        | Raise e => Raise e
        end
    | Raise e => Raise e
    end.
Proof.
  revert b. induction n as [|n IH]; intros b.
  - simpl. unfold ret. destruct (draws m b) as [[l2 b2]|e]; reflexivity.
  - change (S n + m)%nat with (S (n + m)). rewrite !draws_S.
    destruct (get_next_shape b) as [[s b1]|e]; [|reflexivity].
    rewrite IH. destruct (draws n b1) as [[l1 b2]|e]; [|reflexivity].
    destruct (draws m b2) as [[l2 b3]|e]; reflexivity.
Qed.

(** Drawing as many pieces as the bag holds empties it, last element
    first. *)
Lemma draws_drain (bg : list Tetrominoe) :
  forall b, bag b = bg ->
  draws (length bg) b = Ok (reverse bg, with_bag [] b).
Proof.
  induction bg as [|s bg IH] using rev_ind; intros b Hbag.
  - simpl. unfold ret. replace (with_bag [] b) with b; [reflexivity|].
    rewrite <- Hbag. symmetry. apply with_bag_same'.
  - rewrite length_app, Nat.add_comm. simpl length. change (1 + length bg)%nat
      with (S (length bg)).
    rewrite draws_S, (get_next_shape_pop b bg s Hbag).
    rewrite (IH (with_bag bg b)) by reflexivity.
    rewrite reverse_snoc. reflexivity.
Qed.

(** Drawing no more than the bag holds succeeds. *)
Lemma draws_partial (n : nat) :
  forall b, (n <= length (bag b))%nat ->
  exists l b', draws n b = Ok (l, b') /\ length l = n.
Proof.
  induction n as [|n IH]; intros b Hn.
  - exists [], b. split; reflexivity.
  - destruct (bag b) as [|x bg0] eqn:Hbag using rev_ind;
      [simpl in Hn; lia|].
    clear IHbg0. rewrite length_app in Hn. simpl in Hn.
    destruct (IH (with_bag bg0 b)) as (l & b' & Hrun & Hlen).
    { simpl. lia. }
    exists (x :: l), b'. rewrite draws_S, (get_next_shape_pop b bg0 x Hbag).
    rewrite Hrun. split; [reflexivity|simpl; lia].
Qed.

Lemma shuffle_all_shapes (r : RNG) :
  exists l r' bg s,
    shuffle all_shapes r = (l, r') /\ l = bg ++ [s]
    /\ length bg = 6%nat /\ l ≡ₚ all_shapes.
Proof.
  pose proof (shuffle_Permutation all_shapes r) as Hperm.
  destruct (shuffle all_shapes r) as [l r']. simpl in Hperm.
  pose proof (Permutation_length Hperm) as Hlen. simpl in Hlen.
  destruct l as [|s bg _] using rev_ind; [discriminate|].
  exists (bg ++ [s]), r', bg, s. rewrite length_app in Hlen. simpl in Hlen.
  repeat split; [lia|exact Hperm].
Qed.

(** From an empty bag, seven draws are one shuffled bag, and leave the
    bag empty again. *)
Lemma draws_seven (b : Board.t) :
  bag b = [] ->
  exists l b', draws 7 b = Ok (l, b') /\ bag b' = [] /\ l ≡ₚ all_shapes.
Proof.
  intros Hbag.
  destruct (shuffle_all_shapes (rng b)) as (l & r & bg & s & Hsh & Hl & Hlen
                                            & Hperm).
  exists (s :: reverse bg), (with_bag [] (with_bag bg (with_rng r (with_bag l b)))).
  rewrite draws_S, (get_next_shape_refill b l bg r s Hbag Hsh Hl).
  replace 6%nat with (length bg) by exact Hlen.
  rewrite (draws_drain bg (with_bag bg (with_rng r (with_bag l b))) eq_refl).
  split; [reflexivity|]. split; [reflexivity|].
  rewrite <- reverse_snoc, <- Hl, reverse_Permutation. exact Hperm.
Qed.

(** From an empty bag, up to seven draws succeed. *)
Lemma draws_start (n : nat) (b : Board.t) :
  bag b = [] -> (n <= 7)%nat ->
  exists l b', draws n b = Ok (l, b') /\ length l = n.
Proof.
  intros Hbag Hn. destruct n as [|n].
  - exists [], b. split; reflexivity.
  - destruct (shuffle_all_shapes (rng b)) as (l & r & bg & s & Hsh & Hl
                                              & Hlen & _).
    destruct (draws_partial n (with_bag bg (with_rng r (with_bag l b))))
      as (rest & b' & Hrun & Hrest).
    { simpl. lia. }
    exists (s :: rest), b'.
    rewrite draws_S, (get_next_shape_refill b l bg r s Hbag Hsh Hl), Hrun.
    split; [reflexivity|simpl; lia].
Qed.

(** C9. Starting at a refill (empty bag), any number of draws succeeds,
    and each run of seven draws counted from there is a permutation of
    the seven piece kinds, so without repeats. *)
Theorem bag_windows (N : nat) :
  forall b, bag b = [] ->
  exists l b',
    draws N b = Ok (l, b') /\ length l = N
    /\ forall k, (7 * (k + 1) <= N)%nat ->
         window l k ≡ₚ all_shapes /\ NoDup (window l k).
Proof.
  induction N as [N IH] using lt_wf_ind. intros b Hbag.
  destruct (le_lt_dec 7 N) as [Hge|Hlt].
  - destruct (draws_seven b Hbag) as (l1 & b1 & Hrun1 & Hbag1 & Hperm1).
    destruct (IH (N - 7)%nat ltac:(lia) b1 Hbag1)
      as (l2 & b2 & Hrun2 & Hlen2 & Hwin2).
    pose proof (Permutation_length Hperm1) as Hlen1. simpl in Hlen1.
    exists (l1 ++ l2), b2.
    replace N with (7 + (N - 7))%nat at 1 by lia.
    rewrite draws_add, Hrun1, Hrun2.
    split; [reflexivity|]. split; [rewrite length_app; lia|].
    intros k Hk. unfold window. destruct k as [|k].
    + rewrite drop_0, take_app_le by lia.
      rewrite firstn_all2 by lia.
      split; [exact Hperm1|].
      rewrite Hperm1. apply (bool_decide_unpack _). vm_compute. exact I.
    + replace (7 * S k)%nat with (length l1 + 7 * k)%nat by lia.
      rewrite drop_app_add. apply Hwin2. lia.
  - destruct (draws_start N b Hbag ltac:(lia)) as (l & b' & Hrun & Hlen).
    exists l, b'. split; [exact Hrun|]. split; [exact Hlen|].
    intros k Hk. lia.
Qed.

Lemma bag_windows_witness :
  exists l b',
    draws 15 (example_state empty_grid) = Ok (l, b') /\ length l = 15%nat
    /\ forall k, (7 * (k + 1) <= 15)%nat ->
         window l k ≡ₚ all_shapes /\ NoDup (window l k).
Proof.
  apply (bag_windows 15 (example_state empty_grid)). reflexivity.
Defined.

(** ** Spawning *)

Lemma get_next_shape_ok (b : Board.t) :
  exists s bg r, get_next_shape b = Ok (s, with_bag bg (with_rng r b)).
Proof.
  destruct (bag b) as [|s bg _] eqn:Hbag using rev_ind.
  - destruct (shuffle_all_shapes (rng b)) as (l & r & bg & s & Hsh & Hl & _).
    exists s, bg, r.
    rewrite (get_next_shape_refill b l bg r s Hbag Hsh Hl).
    destruct b; reflexivity.
  - exists s, bg, (rng b). rewrite (get_next_shape_pop b bg s Hbag).
    destruct b; reflexivity.
Qed.

Lemma place_same (b : Board.t) :
  place (current_piece b) (cur_x b) (cur_y b) b = b.
Proof. destruct b; reflexivity. Qed.

Lemma game_over_spec (b : Board.t) :
  game_over b = Ok (tt, game_over_state b).
Proof. destruct b; vm_compute; reflexivity. Qed.

Lemma new_piece_spec (b : Board.t) :
  wf b ->
  exists s bg r,
    new_piece b
    = Ok (tt,
          let sp := spawned s bg r b in
          if fits sp (current_piece sp) (cur_x sp) (cur_y sp)
          then sp else game_over_state sp).
Proof.
  intros Hwf.
  destruct (get_next_shape_ok
              (with_current_piece
                 (Shape.set_shape (current_piece b)
                    (Shape.shape (next_piece b))) b))
    as (s & bg & r & Hdraw).
  exists s, bg, r. unfold new_piece. cbv [bind modify get].
  rewrite Hdraw. fold (spawned s bg r b).
  set (sp := spawned s bg r b).
  assert (wf sp) as Hsp by exact Hwf.
  rewrite (try_move_spec sp _ _ _ Hsp).
  destruct (fits sp (current_piece sp) (cur_x sp) (cur_y sp)).
  - rewrite place_same. reflexivity.
  - apply game_over_spec.
Qed.

(** ** Locking *)

Lemma lock_loop (b : Board.t) (idxs : list Idx) :
  forall l0, length l0 = 220%nat ->
  forallb (fun i => on_board (cur_x b + Shape.x (current_piece b) i)
                      (cur_y b - Shape.y (current_piece b) i)) idxs = true ->
  for_each idxs
    (fun i => b' <- get ;;
              set_shape_at (cur_x b' + Shape.x (current_piece b') i)
                (cur_y b' - Shape.y (current_piece b') i)
                (Shape.shape (current_piece b')))
    (with_board l0 b)
  = Ok (tt,
        with_board
          (fold_left
             (fun l i =>
                <[Z.to_nat ((cur_y b - Shape.y (current_piece b) i) * 10
                            + (cur_x b + Shape.x (current_piece b) i))
                  := Shape.shape (current_piece b)]> l)
             idxs l0) b).
Proof.
  induction idxs as [|i idxs IH]; intros l0 Hlen Hon; [reflexivity|].
  simpl in Hon. apply andb_prop in Hon as [Hi Hrest].
  simpl for_each. cbv [bind get].
  cbn [cur_x cur_y current_piece with_board].
  rewrite (set_shape_at_on_board (with_board l0 b) _ _ _ Hlen Hi).
  cbn [board with_board]. simpl fold_left.
  apply IH; [rewrite length_insert; exact Hlen|exact Hrest].
Qed.

Lemma lock_cells_spec (b : Board.t) :
  wf b -> piece_on_board b = true ->
  for_each range4
    (fun i => b' <- get ;;
              set_shape_at (cur_x b' + Shape.x (current_piece b') i)
                (cur_y b' - Shape.y (current_piece b') i)
                (Shape.shape (current_piece b'))) b
  = Ok (tt, with_board (locked_grid b) b).
Proof.
  intros Hwf Hon.
  pose proof (lock_loop b range4 (board b) Hwf Hon) as H.
  rewrite with_board_same in H. exact H.
Qed.

Lemma length_locked_grid (b : Board.t) :
  length (locked_grid b) = length (board b).
Proof.
  unfold locked_grid. generalize (board b) as l. generalize range4 as idxs.
  induction idxs as [|i idxs IH]; intros l; simpl; [reflexivity|].
  rewrite IH, length_insert. reflexivity.
Qed.

Lemma remove_full_lines_none (b : Board.t) :
  wf b -> full_rows (board b) = [] -> remove_full_lines b = Ok (tt, b).
Proof.
  intros Hwf Hnone.
  destruct (remove_full_lines_spec b Hwf) as (l' & Hrun & _ & Hspec).
  rewrite Hnone in Hrun, Hspec. simpl in Hrun. unfold ret in Hrun.
  rewrite Hspec. unfold lines_tail. simpl. congruence.
Qed.

(** A lock that completes no row spawns the next piece at once and
    unlocks hold. *)
Lemma finalize_piece_no_lines (b : Board.t) :
  wf b -> piece_on_board b = true -> is_waiting_after_line b = false ->
  full_rows (locked_grid b) = [] ->
  exists b', finalize_piece b = Ok (tt, b') /\ hold_locked b' = false
             /\ wf b'.
Proof.
  intros Hwf Hon Hwait Hnone.
  unfold finalize_piece. unfold bind at 1, modify at 1.
  unfold bind at 1.
  rewrite (lock_cells_spec (with_finalize_timer false b) Hwf Hon).
  change (locked_grid (with_finalize_timer false b)) with (locked_grid b).
  set (b1 := with_board (locked_grid b) (with_finalize_timer false b)).
  assert (wf b1) as Hwf1.
  { unfold wf, b1. cbn [board with_board]. rewrite length_locked_grid.
    exact Hwf. }
  unfold bind at 1.
  rewrite (remove_full_lines_none b1 Hwf1 Hnone).
  cbv [bind modify get].
  change (is_waiting_after_line (with_is_landed false b1))
    with (is_waiting_after_line b).
  rewrite Hwait. cbn [negb].
  destruct (new_piece_spec (with_is_landed false b1) Hwf1)
    as (s & bg & r & Hnew).
  rewrite Hnew. eexists. split; [reflexivity|].
  split; [reflexivity|].
  cbv zeta.
  destruct (fits _ _ _ _); exact Hwf1.
Qed.

(** ** Hold *)

Lemma hold_locked_noop (b : Board.t) :
  hold_locked b = true -> hold_current_piece b = Ok (tt, b).
Proof.
  intros H. unfold hold_current_piece. cbv [bind get].
  rewrite H. reflexivity.
Qed.

Lemma hold_current_piece_ok (b : Board.t) :
  wf b ->
  exists b1, hold_current_piece b = Ok (tt, b1) /\ hold_locked b1 = true.
Proof.
  intros Hwf. destruct (hold_locked b) eqn:Hlock.
  { exists b. split; [apply hold_locked_noop; exact Hlock|exact Hlock]. }
  unfold hold_current_piece. cbv [bind get]. rewrite Hlock. cbn [negb].
  destruct (decide (Shape.shape (hold_piece b) = NoShape)) as [_|_].
  - cbv [bind modify].
    set (b0 := with_hold_piece _ b).
    destruct (new_piece_spec b0 Hwf) as (s & bg & r & Hnew).
    rewrite Hnew. eexists. split; reflexivity.
  - cbv [bind modify get].
    set (b0 := with_cur_y _ _).
    assert (wf b0) as Hwf0 by exact Hwf.
    rewrite (try_move_spec b0 _ _ _ Hwf0).
    destruct (fits b0 _ _ _).
    + eexists. split; reflexivity.
    + rewrite game_over_spec. eexists. split; reflexivity.
Qed.

Lemma hold_locked_noop_key (b : Board.t) :
  is_started b = true -> Shape.shape (current_piece b) <> NoShape ->
  is_paused b = false -> hold_locked b = true ->
  keyPressEvent Key_C b = Ok (tt, b).
Proof.
  intros Hs Hp Hpause Hlock. unfold keyPressEvent. cbv [bind get].
  rewrite Hs, Hpause, bool_decide_eq_false_2 by exact Hp. cbn [negb orb].
  apply hold_locked_noop. exact Hlock.
Qed.

(** A second hold without a lock in between changes nothing and leaves
    [hold_locked] set; a lock that completes no row clears
    [hold_locked]. *)
Lemma hold_twice_and_plain_lock (b : Board.t) :
  wf b ->
  (exists b1,
     hold_current_piece b = Ok (tt, b1) /\ hold_locked b1 = true
     /\ hold_current_piece b1 = Ok (tt, b1))
  /\ (piece_on_board b = true -> is_waiting_after_line b = false ->
      full_rows (locked_grid b) = [] ->
      exists b', finalize_piece b = Ok (tt, b') /\ hold_locked b' = false).
Proof.
  intros Hwf. split.
  - destruct (hold_current_piece_ok b Hwf) as (b1 & Hrun & Hlock).
    exists b1. split; [exact Hrun|]. split; [exact Hlock|].
    apply hold_locked_noop. exact Hlock.
  - intros Hon Hwait Hnone.
    destruct (finalize_piece_no_lines b Hwf Hon Hwait Hnone)
      as (b' & Hrun & Hlock & _).
    exists b'. split; assumption.
Qed.

(** C5 on a lock that completes a row. Hold (key C) stores the Z piece
    and locks hold; the hard drop (Space) puts the T piece into the gap of
    the bottom row, which is removed, and [hold_locked] stays set; the
    next tick spawns the next piece with [hold_locked] still set, so the
    next hold (key C) changes nothing. *)
Theorem hold_locked_after_line_clear :
  wf before_hold
  /\ exists b1 b2 b3,
       keyPressEvent Key_C before_hold = Ok (tt, b1)
       /\ hold_locked b1 = true
       /\ Shape.shape (hold_piece b1) = ZShape
       /\ Shape.shape (current_piece b1) = TShape
       /\ keyPressEvent Key_Space b1 = Ok (tt, b2)
       /\ num_lines_removed b2 = 1
       /\ full_rows (board b2) = []
       /\ is_waiting_after_line b2 = true
       /\ hold_locked b2 = true
       /\ timerEvent b2 = Ok (tt, b3)
       /\ is_started b3 = true
       /\ Shape.shape (current_piece b3) = ZShape
       /\ hold_locked b3 = true
       /\ keyPressEvent Key_C b3 = Ok (tt, b3).
Proof.
  split; [reflexivity|].
  eexists. eexists. eexists.
  split; [vm_compute; reflexivity|].
  split; [reflexivity|]. split; [reflexivity|]. split; [reflexivity|].
  split; [vm_compute; reflexivity|].
  split; [reflexivity|]. split; [reflexivity|]. split; [reflexivity|].
  split; [reflexivity|].
  split; [vm_compute; reflexivity|].
  split; [reflexivity|]. split; [reflexivity|]. split; [reflexivity|].
  apply hold_locked_noop_key; first [reflexivity | discriminate].
Qed.

(** ** Game over *)

(** A blocked spawn ends the game: the current piece is blanked, the game
    timer stopped, the started flag cleared, and "Game over" is emitted
    once. *)
Lemma new_piece_blocked (b : Board.t) :
  wf b -> spawn_blocked b ->
  exists b',
    new_piece b = Ok (tt, b')
    /\ is_started b' = false /\ timer b' = None
    /\ Shape.shape (current_piece b') = NoShape
    /\ statusbar b' = statusbar b ++ ["Game over"]
    /\ board b' = board b.
Proof.
  intros Hwf Hblocked.
  destruct (new_piece_spec b Hwf) as (s & bg & r & Hnew).
  rewrite Hnew. cbv zeta.
  replace (fits (spawned s bg r b) (current_piece (spawned s bg r b))
             (cur_x (spawned s bg r b)) (cur_y (spawned s bg r b)))
    with false by (symmetry; exact Hblocked).
  eexists. split; [reflexivity|]. repeat split.
Qed.

(** After that, a key press does nothing... *)
Lemma keyPressEvent_not_started (b : Board.t) (key : Key) :
  is_started b = false -> keyPressEvent key b = Ok (tt, b).
Proof.
  intros H. unfold keyPressEvent. cbv [bind get]. rewrite H. reflexivity.
Qed.

(** ... and no event of the stopped game timer is handled. *)
Lemma timerEvent_stopped (b : Board.t) :
  timer b = None -> timerEvent b = Ok (tt, b).
Proof.
  intros H. unfold timerEvent. cbv [bind get]. rewrite H. reflexivity.
Qed.

(** C6 on the key-repeat path. A press of Down moves the O piece onto
    the stack and starts the key-repeat timer; with the key still held,
    the first timeout locks the piece and the blocked spawn ends the game
    with one "Game over". A key press and the game timer are then without
    effect, but the next timeout of the key-repeat timer runs [move_down]
    again: it locks the blank piece, draws another piece and reports
    "Game over" a second time. *)
Theorem game_over_then_key_repeat :
  wf topped_out
  /\ exists b0 b1 b2,
       keyPressEvent Key_Down topped_out = Ok (tt, b0)
       /\ cur_y b0 = 20 /\ down_key_timer b0 = true
       /\ down_key_timeout b0 = Ok (tt, b1)
       /\ is_started b1 = false /\ timer b1 = None
       /\ Shape.shape (current_piece b1) = NoShape
       /\ statusbar b1 = ["Game over"]
       /\ down_key_timer b1 = true
       /\ (forall key, keyPressEvent key b1 = Ok (tt, b1))
       /\ timerEvent b1 = Ok (tt, b1)
       /\ down_key_timeout b1 = Ok (tt, b2)
       /\ statusbar b2 = ["Game over"; "Game over"]
       /\ Shape.shape (next_piece b1) = ZShape
       /\ Shape.shape (next_piece b2) = MirroredLShape
       /\ cur_y b1 = 21 /\ cur_y b2 = 20
       /\ b2 <> b1.
Proof.
  split; [reflexivity|].
  eexists. eexists. eexists.
  split; [vm_compute; reflexivity|].
  split; [reflexivity|]. split; [reflexivity|].
  split; [vm_compute; reflexivity|].
  split; [reflexivity|]. split; [reflexivity|]. split; [reflexivity|].
  split; [reflexivity|]. split; [reflexivity|].
  split; [intros key; apply keyPressEvent_not_started; reflexivity|].
  split; [apply timerEvent_stopped; reflexivity|].
  split; [vm_compute; reflexivity|].
  split; [reflexivity|]. split; [reflexivity|]. split; [reflexivity|].
  split; [reflexivity|]. split; [reflexivity|].
  intros H. apply (f_equal statusbar) in H. discriminate H.
Qed.

(** ** The join code: bits *)

Lemma land_shiftl_small (hi lo n : Z) :
  0 <= n -> 0 <= lo < 2 ^ n -> Z.land (Z.shiftl hi n) lo = 0.
Proof.
  intros Hn Hlo. apply Z.bits_inj'. intros k Hk.
  rewrite Z.land_spec, Z.bits_0.
  destruct (Z.lt_ge_cases k n) as [Hlt|Hge].
  - rewrite Z.shiftl_spec_low by exact Hlt. reflexivity.
  - destruct (Z.eq_dec lo 0) as [->|Hne].
    + rewrite Z.bits_0. apply andb_false_r.
    + assert (Z.testbit lo k = false) as ->; [|apply andb_false_r].
      apply Z.bits_above_log2; [lia|].
      apply Z.log2_lt_pow2; [lia|].
      apply Z.lt_le_trans with (2 ^ n); [lia|].
      apply Z.pow_le_mono_r; lia.
Qed.

Lemma lor_shiftl_add (hi lo n : Z) :
  0 <= n -> 0 <= lo < 2 ^ n -> Z.lor (Z.shiftl hi n) lo = hi * 2 ^ n + lo.
Proof.
  intros Hn Hlo.
  rewrite <- Z.lxor_lor by (apply land_shiftl_small; assumption).
  rewrite <- Z.add_nocarry_lxor by (apply land_shiftl_small; assumption).
  rewrite Z.shiftl_mul_pow2 by exact Hn. reflexivity.
Qed.

(** Three bytes cut into four six-bit values and put together again. *)
Lemma sextets_round_trip (x y z : Z) :
  0 <= x < 256 -> 0 <= y < 256 -> 0 <= z < 256 ->
  let v0 := Z.shiftr x 2 in
  let v1 := Z.lor (Z.shiftl (Z.land x 3) 4) (Z.shiftr y 4) in
  let v2 := Z.lor (Z.shiftl (Z.land y 15) 2) (Z.shiftr z 6) in
  let v3 := Z.land z 63 in
  (0 <= v0 < 64 /\ 0 <= v1 < 64 /\ 0 <= v2 < 64 /\ 0 <= v3 < 64)
  /\ Z.land (Z.lor (Z.shiftl v0 2) (Z.shiftr v1 4)) 255 = x
  /\ Z.land (Z.lor (Z.shiftl (Z.land v1 15) 4) (Z.shiftr v2 2)) 255 = y
  /\ Z.land (Z.lor (Z.shiftl (Z.land v2 3) 6) v3) 255 = z.
Proof.
  intros Hx Hy Hz. cbv zeta.
  change 3 with (Z.ones 2). change 15 with (Z.ones 4).
  change 63 with (Z.ones 6). change 255 with (Z.ones 8).
  rewrite !Z.land_ones by lia.
  rewrite !Z.shiftr_div_pow2 by lia.
  change (2 ^ 2) with 4. change (2 ^ 4) with 16. change (2 ^ 6) with 64.
  change (2 ^ 8) with 256.
  rewrite (lor_shiftl_add (x mod 4) (y / 16) 4)
    by (change (2 ^ 4) with 16; Z.div_mod_to_equations; lia).
  rewrite (lor_shiftl_add (y mod 16) (z / 64) 2)
    by (change (2 ^ 2) with 4; Z.div_mod_to_equations; lia).
  change (2 ^ 2) with 4. change (2 ^ 4) with 16.
  rewrite (lor_shiftl_add (x / 4) _ 2)
    by (change (2 ^ 2) with 4; Z.div_mod_to_equations; lia).
  rewrite (lor_shiftl_add _ _ 4)
    by (change (2 ^ 4) with 16; Z.div_mod_to_equations; lia).
  rewrite (lor_shiftl_add _ _ 6)
    by (change (2 ^ 6) with 64; Z.div_mod_to_equations; lia).
  change (2 ^ 2) with 4. change (2 ^ 4) with 16. change (2 ^ 6) with 64.
  Z.div_mod_to_equations. lia.
Qed.

Lemma port_round_trip (port : Z) :
  0 <= port <= 65535 ->
  0 <= Z.shiftr port 8 < 256 /\ 0 <= Z.land port 255 < 256
  /\ Z.lor (Z.shiftl (Z.shiftr port 8) 8) (Z.land port 255) = port.
Proof.
  intros Hp. change 255 with (Z.ones 8).
  rewrite Z.land_ones, Z.shiftr_div_pow2 by lia.
  rewrite lor_shiftl_add by (change (2 ^ 8) with 256;
                             Z.div_mod_to_equations; lia).
  change (2 ^ 8) with 256. Z.div_mod_to_equations. lia.
Qed.

(** ** The join code: tables and text *)

Lemma forallb_seqZ (P : Z -> bool) (m n v : Z) :
  forallb P (seqZ m n) = true -> m <= v < m + n -> P v = true.
Proof.
  intros Hall Hv. rewrite forallb_forall in Hall. apply Hall.
  apply list_elem_of_In, elem_of_seqZ. exact Hv.
Qed.

Lemma octet_ok_range (v : Z) : 0 <= v <= 255 -> octet_ok v = true.
Proof.
  intros Hv. apply (forallb_seqZ octet_ok 0 256); [|lia].
  vm_compute. reflexivity.
Qed.

Lemma sextet_ok_range (v : Z) : 0 <= v < 64 -> sextet_ok v = true.
Proof.
  intros Hv. apply (forallb_seqZ sextet_ok 0 64); [|lia].
  vm_compute. reflexivity.
Qed.

Lemma int_of_str_octet (v : Z) :
  0 <= v <= 255 -> JoinCode.int_of_str (str_of_Z v) = Ok v.
Proof.
  intros Hv. pose proof (octet_ok_range v Hv) as H.
  unfold octet_ok in H. apply andb_prop in H as [_ H].
  destruct (JoinCode.int_of_str (str_of_Z v)) as [n|e]; [|discriminate].
  apply Z.eqb_eq in H. congruence.
Qed.

Lemma octet_no_dot (v : Z) :
  0 <= v <= 255 ->
  forallb (fun ch => negb (bool_decide (ch = "."%char)))
    (String.list_ascii_of_string (str_of_Z v)) = true.
Proof.
  intros Hv. pose proof (octet_ok_range v Hv) as H.
  unfold octet_ok in H. apply andb_prop in H as [H _]. exact H.
Qed.

Lemma list_ascii_of_string_app (s1 s2 : string) :
  String.list_ascii_of_string (s1 +:+ s2)
  = String.list_ascii_of_string s1 ++ String.list_ascii_of_string s2.
Proof.
  induction s1 as [|c s1 IH]; simpl; [reflexivity|].
  rewrite IH. reflexivity.
Qed.

Lemma split_from_part (sep : ascii) (s : list ascii) :
  forall cur rest,
    forallb (fun ch => negb (bool_decide (ch = sep))) s = true ->
    JoinCode.split_from sep (s ++ sep :: rest) cur
    = (cur ++ s) :: JoinCode.split_from sep rest [].
Proof.
  induction s as [|c s IH]; intros cur rest Hs; simpl.
  - destruct (decide (sep = sep)); [|contradiction].
    rewrite app_nil_r. reflexivity.
  - simpl in Hs. apply andb_prop in Hs as [Hc Hs].
    destruct (decide (c = sep)) as [->|_].
    + rewrite bool_decide_eq_true_2 in Hc by reflexivity. discriminate.
    + rewrite IH by exact Hs. rewrite <- app_assoc. reflexivity.
Qed.

Lemma split_from_last (sep : ascii) (s : list ascii) :
  forall cur,
    forallb (fun ch => negb (bool_decide (ch = sep))) s = true ->
    JoinCode.split_from sep s cur = [cur ++ s].
Proof.
  induction s as [|c s IH]; intros cur Hs; simpl.
  - rewrite app_nil_r. reflexivity.
  - simpl in Hs. apply andb_prop in Hs as [Hc Hs].
    destruct (decide (c = sep)) as [->|_].
    + rewrite bool_decide_eq_true_2 in Hc by reflexivity. discriminate.
    + rewrite IH by exact Hs. rewrite <- app_assoc. reflexivity.
Qed.

Lemma split_dotted_quad (a b c d : Z) :
  0 <= a <= 255 -> 0 <= b <= 255 -> 0 <= c <= 255 -> 0 <= d <= 255 ->
  JoinCode.split (dotted_quad a b c d) "."
  = [str_of_Z a; str_of_Z b; str_of_Z c; str_of_Z d].
Proof.
  intros Ha Hb Hc Hd. unfold JoinCode.split, dotted_quad.
  cbn [map JoinCode.join].
  rewrite !list_ascii_of_string_app.
  change (String.list_ascii_of_string ".") with ["."%char].
  cbn [app].
  rewrite (split_from_part "." _ [] _ (octet_no_dot a Ha)).
  rewrite (split_from_part "." _ [] _ (octet_no_dot b Hb)).
  rewrite (split_from_part "." _ [] _ (octet_no_dot c Hc)).
  rewrite (split_from_last "." _ [] (octet_no_dot d Hd)).
  cbn [map app]. rewrite !String.string_of_list_ascii_of_string.
  reflexivity.
Qed.

(** ** The join code: encoding *)

Lemma py_getitem_4 {A : Type} (x0 x1 x2 x3 : A) :
  py_getitem [x0; x1; x2; x3] 0 = Ok x0
  /\ py_getitem [x0; x1; x2; x3] 1 = Ok x1
  /\ py_getitem [x0; x1; x2; x3] 2 = Ok x2
  /\ py_getitem [x0; x1; x2; x3] 3 = Ok x3.
Proof. repeat split. Qed.

Lemma pack_B_ok (v : Z) : 0 <= v <= 255 -> JoinCode.pack_B v = Ok v.
Proof.
  intros Hv. unfold JoinCode.pack_B.
  replace ((0 <=? v) && (v <=? 255)) with true by lia. reflexivity.
Qed.

Lemma ipv4_port_to_base64_spec (a b c d port : Z) :
  0 <= a <= 255 -> 0 <= b <= 255 -> 0 <= c <= 255 -> 0 <= d <= 255 ->
  0 <= port <= 65535 ->
  JoinCode.ipv4_port_to_base64 (dotted_quad a b c d) port
  = Ok (JoinCode.str_of_bytes (JoinCode.b64encode (packed a b c d port))).
Proof.
  intros Ha Hb Hc Hd Hp. unfold JoinCode.ipv4_port_to_base64.
  rewrite split_dotted_quad by assumption.
  destruct (py_getitem_4 (str_of_Z a) (str_of_Z b) (str_of_Z c) (str_of_Z d))
    as (-> & -> & -> & ->).
  cbn [JoinCode.rbind].
  rewrite !int_of_str_octet by assumption. cbn [JoinCode.rbind].
  unfold JoinCode.pack_BBBB. rewrite !pack_B_ok by assumption.
  cbn [JoinCode.rbind]. unfold JoinCode.pack_H.
  replace ((0 <=? port) && (port <=? 65535)) with true by lia.
  reflexivity.
Qed.

(** ** The join code: decoding *)

Lemma a2b_loop_step (v : Z) (rest : list Z) (st : JoinCode.a2b_state) :
  0 <= v < 64 ->
  JoinCode.a2b_loop (JoinCode.table_b2a_base64 v :: rest) st
  = JoinCode.a2b_loop rest (a2b_next v st).
Proof.
  intros Hv. pose proof (sextet_ok_range v Hv) as H.
  unfold sextet_ok in H.
  apply andb_prop in H as [H _]. apply andb_prop in H as [H _].
  apply andb_prop in H as [Hpad Htab].
  apply negb_true_iff in Hpad. apply Z.eqb_eq in Htab.
  cbn [JoinCode.a2b_loop]. rewrite Hpad, Htab.
  replace (64 <=? v) with false by lia. reflexivity.
Qed.

(** Four characters that stand for six-bit values complete a quad and
    append three bytes. *)
Lemma a2b_loop_quad (v0 v1 v2 v3 : Z) (rest out : list Z) :
  0 <= v0 < 64 -> 0 <= v1 < 64 -> 0 <= v2 < 64 -> 0 <= v3 < 64 ->
  JoinCode.a2b_loop
    (JoinCode.table_b2a_base64 v0 :: JoinCode.table_b2a_base64 v1
     :: JoinCode.table_b2a_base64 v2 :: JoinCode.table_b2a_base64 v3
     :: rest) (JoinCode.mk_a2b 0 0 0 out)
  = JoinCode.a2b_loop rest
      (JoinCode.mk_a2b 0 0 0
         (out
          ++ [Z.land (Z.lor (Z.shiftl v0 2) (Z.shiftr v1 4)) 255;
              Z.land (Z.lor (Z.shiftl (Z.land v1 15) 4) (Z.shiftr v2 2)) 255;
              Z.land (Z.lor (Z.shiftl (Z.land v2 3) 6) v3) 255])).
Proof.
  intros H0 H1 H2 H3.
  rewrite (a2b_loop_step v0) by assumption. unfold a2b_next.
  cbn [JoinCode.quad_pos JoinCode.leftchar JoinCode.bin_data Z.eqb Pos.eqb].
  rewrite (a2b_loop_step v1) by assumption. unfold a2b_next.
  cbn [JoinCode.quad_pos JoinCode.leftchar JoinCode.bin_data Z.eqb Pos.eqb].
  rewrite (a2b_loop_step v2) by assumption. unfold a2b_next.
  cbn [JoinCode.quad_pos JoinCode.leftchar JoinCode.bin_data Z.eqb Pos.eqb].
  rewrite (a2b_loop_step v3) by assumption. unfold a2b_next.
  cbn [JoinCode.quad_pos JoinCode.leftchar JoinCode.bin_data Z.eqb Pos.eqb].
  rewrite <- !app_assoc. reflexivity.
Qed.

Lemma code_ascii_of_nat (c : Z) :
  0 <= c < 256 -> JoinCode.code (ascii_of_nat (Z.to_nat c)) = c.
Proof.
  intros Hc. unfold JoinCode.code.
  rewrite nat_ascii_embedding by lia. lia.
Qed.

Lemma ascii_bytes_str_of_bytes (bs : list Z) :
  Forall (fun c => 0 <= c < 128) bs ->
  JoinCode.ascii_bytes (JoinCode.str_of_bytes bs) = Ok bs.
Proof.
  intros Hbs. unfold JoinCode.ascii_bytes, JoinCode.str_of_bytes.
  rewrite String.list_ascii_of_string_of_list_ascii, map_map.
  assert (map (fun c => JoinCode.code (ascii_of_nat (Z.to_nat c))) bs = bs)
    as ->.
  { induction Hbs as [|c bs Hc _ IH]; [reflexivity|]. simpl.
    rewrite IH, code_ascii_of_nat by lia. reflexivity. }
  assert (forallb (fun c => c <? 128) bs = true) as ->; [|reflexivity].
  induction Hbs as [|c bs Hc _ IH]; [reflexivity|]. simpl.
  rewrite IH. replace (c <? 128) with true by lia. reflexivity.
Qed.

Lemma table_b2a_base64_ascii (v : Z) :
  0 <= v < 64 -> 0 <= JoinCode.table_b2a_base64 v < 128.
Proof.
  intros Hv. pose proof (sextet_ok_range v Hv) as H.
  unfold sextet_ok in H.
  apply andb_prop in H as [H Hhi]. apply andb_prop in H as [_ Hlo]. lia.
Qed.

Lemma b64decode_b64encode_6 (x0 x1 x2 x3 x4 x5 : Z) :
  0 <= x0 < 256 -> 0 <= x1 < 256 -> 0 <= x2 < 256 ->
  0 <= x3 < 256 -> 0 <= x4 < 256 -> 0 <= x5 < 256 ->
  JoinCode.b64decode
    (JoinCode.str_of_bytes (JoinCode.b64encode [x0; x1; x2; x3; x4; x5]))
  = Ok [x0; x1; x2; x3; x4; x5].
Proof.
  intros H0 H1 H2 H3 H4 H5.
  destruct (sextets_round_trip x0 x1 x2 H0 H1 H2)
    as ((Ha0 & Ha1 & Ha2 & Ha3) & Ea & Eb & Ec).
  destruct (sextets_round_trip x3 x4 x5 H3 H4 H5)
    as ((Hb0 & Hb1 & Hb2 & Hb3) & Ed & Ee & Ef).
  unfold JoinCode.b64decode, JoinCode.b64encode.
  cbn [JoinCode.b2a_base64].
  rewrite ascii_bytes_str_of_bytes
    by (repeat (apply Forall_cons; split;
                [apply table_b2a_base64_ascii; assumption|]);
        apply Forall_nil_2).
  cbn [JoinCode.rbind]. unfold JoinCode.a2b_base64.
  rewrite !a2b_loop_quad by assumption.
  cbn [JoinCode.a2b_loop JoinCode.quad_pos JoinCode.bin_data Z.eqb app].
  rewrite Ea, Eb, Ec, Ed, Ee, Ef. reflexivity.
Qed.

(** C7. Encoding a canonical dotted quad and a port packs the four
    octets and the big-endian port into six bytes, and decoding the token
    gives back the same address text and port. *)
Theorem join_code_round_trip (a b c d port : Z) :
  0 <= a <= 255 -> 0 <= b <= 255 -> 0 <= c <= 255 -> 0 <= d <= 255 ->
  0 <= port <= 65535 ->
  exists token,
    JoinCode.ipv4_port_to_base64 (dotted_quad a b c d) port = Ok token
    /\ token
       = JoinCode.str_of_bytes (JoinCode.b64encode (packed a b c d port))
    /\ JoinCode.base64_to_ipv4_port token = Ok (dotted_quad a b c d, port).
Proof.
  intros Ha Hb Hc Hd Hp. eexists.
  split; [apply ipv4_port_to_base64_spec; assumption|].
  split; [reflexivity|].
  destruct (port_round_trip port Hp) as (Hhi & Hlo & Hport).
  unfold JoinCode.base64_to_ipv4_port, packed.
  rewrite b64decode_b64encode_6 by lia.
  cbn [JoinCode.rbind take drop JoinCode.unpack_BBBB JoinCode.unpack_H].
  rewrite Hport. reflexivity.
Qed.

Lemma join_code_round_trip_witness :
  JoinCode.ipv4_port_to_base64 "127.0.0.1" 8080 = Ok "fwAAAR+Q"
  /\ JoinCode.base64_to_ipv4_port "fwAAAR+Q" = Ok ("127.0.0.1", 8080).
Proof.
  destruct (join_code_round_trip 127 0 0 1 8080)
    as (token & Henc & Htok & Hdec); try lia.
  vm_compute in Htok. subst token. split; [exact Henc|exact Hdec].
Defined.

(** ** The join code: malformed tokens *)



Lemma a2b_loop_skip (c : Z) (l1 l2 : list Z) :
  64 <= JoinCode.table_a2b_base64 c -> c <> JoinCode.BASE64_PAD ->
  forall st,
    JoinCode.a2b_loop (l1 ++ c :: l2) st = JoinCode.a2b_loop (l1 ++ l2) st.
Proof.
  intros Hc Hpad. induction l1 as [|x l1 IH]; intros st.
  - cbn [app JoinCode.a2b_loop].
    destruct (Z.eqb_spec c JoinCode.BASE64_PAD); [contradiction|].
    destruct (Z.leb_spec 64 (JoinCode.table_a2b_base64 c)); [|lia].
    reflexivity.
  - cbn [app JoinCode.a2b_loop]. rewrite !IH. reflexivity.
Qed.







(** * Further properties *)

(** ** Shapes *)

Lemma rotate_right_other (c : Coords) (k : Tetrominoe) :
  k <> SquareShape ->
  Shape.rotate_right (Shape.mk c k)
  = Shape.mk (mkCoords (quarter_turn (c0 c)) (quarter_turn (c1 c))
                (quarter_turn (c2 c)) (quarter_turn (c3 c))) k.
Proof.
  intros Hk. rewrite rotate_right_rotated. unfold rotated_right.
  cbn [Shape.piece_shape Shape.coords].
  destruct (decide (k = SquareShape)); [contradiction|reflexivity].
Qed.

Lemma rotate_left_other (c : Coords) (k : Tetrominoe) :
  k <> SquareShape ->
  Shape.rotate_left (Shape.mk c k)
  = Shape.mk (mkCoords (quarter_turn_back (c0 c)) (quarter_turn_back (c1 c))
                (quarter_turn_back (c2 c)) (quarter_turn_back (c3 c))) k.
Proof.
  intros Hk. rewrite rotate_left_rotated. unfold rotated_left.
  cbn [Shape.piece_shape Shape.coords].
  destruct (decide (k = SquareShape)); [contradiction|reflexivity].
Qed.

Lemma rotate_square (c : Coords) :
  Shape.rotate_right (Shape.mk c SquareShape) = Shape.mk c SquareShape
  /\ Shape.rotate_left (Shape.mk c SquareShape) = Shape.mk c SquareShape.
Proof. split; reflexivity. Qed.

(** X11. Four right rotations give back the shape, and a left rotation
    undone by a right rotation does too (the other order is
    [rotate_left_rotate_right]). *)
Theorem rotate_right_four_times (s : Shape.t) :
  Shape.rotate_right
    (Shape.rotate_right (Shape.rotate_right (Shape.rotate_right s))) = s
  /\ Shape.rotate_right (Shape.rotate_left s) = s.
Proof.
  destruct s as [[[x0 y0] [x1 y1] [x2 y2] [x3 y3]] k].
  destruct (decide (k = SquareShape)) as [->|Hk].
  - destruct (rotate_square (mkCoords (x0, y0) (x1, y1) (x2, y2) (x3, y3)))
      as [Hr Hl].
    rewrite Hl, !Hr. split; reflexivity.
  - rewrite rotate_left_other by exact Hk.
    rewrite !rotate_right_other by exact Hk.
    unfold quarter_turn, quarter_turn_back. cbn [c0 c1 c2 c3 fst snd].
    rewrite !Z.opp_involutive. split; reflexivity.
Qed.

(** X12. The four extremes are what their names say: each bounds the
    coordinate of every square and is the coordinate of one of them. *)
Theorem shape_extremes (s : Shape.t) :
  (forall i, Shape.min_x s <= Shape.x s i <= Shape.max_x s)
  /\ (forall i, Shape.min_y s <= Shape.y s i <= Shape.max_y s)
  /\ (exists i, Shape.x s i = Shape.min_x s)
  /\ (exists i, Shape.x s i = Shape.max_x s)
  /\ (exists i, Shape.y s i = Shape.min_y s)
  /\ (exists i, Shape.y s i = Shape.max_y s).
Proof.
  destruct s as [[[x0 y0] [x1 y1] [x2 y2] [x3 y3]] k].
  unfold Shape.min_x, Shape.max_x, Shape.min_y, Shape.max_y, Shape.x,
    Shape.y.
  cbn [fold_left range4 get_coord Shape.coords c0 c1 c2 c3 fst snd].
  split; [intros []; cbn; lia|]. split; [intros []; cbn; lia|].
  split.
  { destruct (Z.min_spec (Z.min (Z.min (Z.min x0 x0) x1) x2) x3)
      as [[_ ->]|[_ ->]]; [|exists i3; reflexivity].
    destruct (Z.min_spec (Z.min (Z.min x0 x0) x1) x2)
      as [[_ ->]|[_ ->]]; [|exists i2; reflexivity].
    destruct (Z.min_spec (Z.min x0 x0) x1)
      as [[_ ->]|[_ ->]]; [|exists i1; reflexivity].
    exists i0. cbn. lia. }
  split.
  { destruct (Z.max_spec (Z.max (Z.max (Z.max x0 x0) x1) x2) x3)
      as [[_ ->]|[_ ->]]; [exists i3; reflexivity|].
    destruct (Z.max_spec (Z.max (Z.max x0 x0) x1) x2)
      as [[_ ->]|[_ ->]]; [exists i2; reflexivity|].
    destruct (Z.max_spec (Z.max x0 x0) x1)
      as [[_ ->]|[_ ->]]; [exists i1; reflexivity|].
    exists i0. cbn. lia. }
  split.
  { destruct (Z.min_spec (Z.min (Z.min (Z.min y0 y0) y1) y2) y3)
      as [[_ ->]|[_ ->]]; [|exists i3; reflexivity].
    destruct (Z.min_spec (Z.min (Z.min y0 y0) y1) y2)
      as [[_ ->]|[_ ->]]; [|exists i2; reflexivity].
    destruct (Z.min_spec (Z.min y0 y0) y1)
      as [[_ ->]|[_ ->]]; [|exists i1; reflexivity].
    exists i0. cbn. lia. }
  destruct (Z.max_spec (Z.max (Z.max (Z.max y0 y0) y1) y2) y3)
    as [[_ ->]|[_ ->]]; [exists i3; reflexivity|].
  destruct (Z.max_spec (Z.max (Z.max y0 y0) y1) y2)
    as [[_ ->]|[_ ->]]; [exists i2; reflexivity|].
  destruct (Z.max_spec (Z.max y0 y0) y1)
    as [[_ ->]|[_ ->]]; [exists i1; reflexivity|].
  exists i0. cbn. lia.
Qed.

(** ** Drawing *)

(** X13. The board drawn with [square_size] fits: ten squares take at
    most two thirds of the width, twenty-two at most the height, and one
    pixel more per square would not fit. *)
Theorem square_size_fits (rect_width rect_height : Z) :
  let s := square_size rect_width rect_height in
  3 * (board_width * s) <= 2 * rect_width
  /\ BoardHeight * s <= rect_height
  /\ (rect_width * 2 / 3 < board_width * (s + 1)
      \/ rect_height < BoardHeight * (s + 1)).
Proof.
  unfold square_size, board_width, BoardHeight. cbv zeta.
  Z.div_mod_to_equations. lia.
Qed.

(** ** The collision test *)

Lemma forallb_range4 (P : Idx -> bool) :
  forallb P range4 = true <-> forall i, P i = true.
Proof.
  unfold range4. simpl. rewrite !andb_true_iff. split.
  - intros (H0 & H1 & H2 & H3 & _) []; assumption.
  - intros H. repeat split; apply H.
Qed.

(** X1. [try_move] returns true exactly when each of the four squares
    of the piece, put at the requested position, lies on the board and on
    an empty cell of the grid. *)
Theorem try_move_true_iff (b : Board.t) (piece : Shape.t) (new_x new_y : Z) :
  wf b ->
  (exists b', try_move piece new_x new_y b = Ok (true, b'))
  <-> (forall i,
         0 <= new_x + Shape.x piece i < board_width
         /\ 0 <= new_y - Shape.y piece i < BoardHeight
         /\ cell (board b) (new_x + Shape.x piece i)
              (new_y - Shape.y piece i) = Some NoShape).
Proof.
  intros Hwf. rewrite (try_move_spec b piece new_x new_y Hwf).
  assert (fits b piece new_x new_y = true
          <-> forall i,
                0 <= new_x + Shape.x piece i < board_width
                /\ 0 <= new_y - Shape.y piece i < BoardHeight
                /\ cell (board b) (new_x + Shape.x piece i)
                     (new_y - Shape.y piece i) = Some NoShape) as Hfits.
  { unfold fits. rewrite forallb_range4.
    split; intros H i; specialize (H i).
    - unfold cell_free in H. apply andb_prop in H as [Hon Hfree].
      apply bool_decide_eq_true in Hfree.
      unfold on_board, board_width, BoardHeight in *. repeat split; (lia || exact Hfree).
    - destruct H as (Hx & Hy & Hfree). unfold cell_free.
      rewrite (bool_decide_eq_true_2 _ Hfree).
      unfold on_board, board_width, BoardHeight in *. lia. }
  rewrite <- Hfits. destruct (fits b piece new_x new_y).
  - split; [reflexivity|]. intros _. eexists. reflexivity.
  - split; [|discriminate]. intros [b' H]. discriminate H.
Qed.

Lemma try_move_true_iff_witness :
  (exists b', try_move (Shape.set_shape Shape.new LineShape) 3 5
                (example_state empty_grid) = Ok (true, b'))
  <-> (forall i,
         0 <= 3 + Shape.x (Shape.set_shape Shape.new LineShape) i
              < board_width
         /\ 0 <= 5 - Shape.y (Shape.set_shape Shape.new LineShape) i
                 < BoardHeight
         /\ cell (board (example_state empty_grid))
              (3 + Shape.x (Shape.set_shape Shape.new LineShape) i)
              (5 - Shape.y (Shape.set_shape Shape.new LineShape) i)
            = Some NoShape).
Proof.
  apply (try_move_true_iff (example_state empty_grid)). reflexivity.
Defined.

(** ** The counters *)

(** X5. [remove_full_lines] keeps the counters of the level display
    sound: the goal stays positive, the lines counted toward it stay
    below it (so "lines to goal" is never zero or negative), and goal,
    level and removed lines never go down. *)
Theorem remove_full_lines_counters (b : Board.t) :
  wf b -> counters_ok b ->
  exists b',
    remove_full_lines b = Ok (tt, b')
    /\ counters_ok b'
    /\ goal b <= goal b'
    /\ num_goals_reached b <= num_goals_reached b'
    /\ num_lines_removed b <= num_lines_removed b'.
Proof.
  intros Hwf (Hg & Hn & Hl).
  destruct (remove_full_lines_spec b Hwf) as (l' & _ & _ & Hspec).
  eexists. split; [exact Hspec|].
  generalize (Z.of_nat (length (full_rows (board b)))) (Nat2Z.is_nonneg
    (length (full_rows (board b)))). intros n Hn0.
  unfold lines_tail, counters_ok.
  destruct (Z.ltb_spec 0 n) as [Hpos|_];
    [|cbn [goal num_goals_reached lines_to_goal num_lines_removed
           with_board]; lia].
  destruct (Z.leb_spec (goal (counted n (with_board l' b)))
              (lines_to_goal (counted n (with_board l' b)))) as [Hge|Hlt].
  - destruct (level_fields (counted n (with_board l' b)))
      as (H1 & H2 & H3 & _).
    rewrite H1, H2, H3.
    change (num_lines_removed (leveled (counted n (with_board l' b))))
      with (num_lines_removed b + n).
    change (goal (counted n (with_board l' b))) with (goal b) in *.
    change (num_goals_reached (counted n (with_board l' b)))
      with (num_goals_reached b).
    destruct (decide (num_goals_reached b <> 0)); lia.
  - change (goal (counted n (with_board l' b))) with (goal b) in *.
    change (lines_to_goal (counted n (with_board l' b)))
      with (lines_to_goal b + n) in *.
    change (num_goals_reached (counted n (with_board l' b)))
      with (num_goals_reached b).
    change (num_lines_removed (counted n (with_board l' b)))
      with (num_lines_removed b + n).
    lia.
Qed.

Lemma remove_full_lines_counters_witness :
  exists b',
    remove_full_lines before_first_goal = Ok (tt, b')
    /\ counters_ok b'
    /\ goal before_first_goal <= goal b'
    /\ num_goals_reached before_first_goal <= num_goals_reached b'
    /\ num_lines_removed before_first_goal <= num_lines_removed b'.
Proof.
  apply (remove_full_lines_counters before_first_goal).
  - reflexivity.
  - unfold counters_ok. cbn. lia.
Defined.

(** ** The bag between refills *)

(** X6. On a bag without repeats and without the empty kind,
    [get_next_shape] returns a piece kind other than [NoShape], that is
    not left in the bag, and the bag stays such a bag; a non-empty bag
    loses exactly its last element, an empty one is first refilled with a
    permutation of the seven kinds. *)
Theorem get_next_shape_bag (b : Board.t) :
  bag_ok (bag b) ->
  exists s b',
    get_next_shape b = Ok (s, b')
    /\ s <> NoShape /\ (s ∉ bag b') /\ bag_ok (bag b')
    /\ (bag b <> [] -> bag b = bag b' ++ [s] /\ rng b' = rng b)
    /\ (bag b = [] -> bag b' ++ [s] ≡ₚ all_shapes).
Proof.
  intros [Hnd Hkinds].
  assert (forall bg s, NoDup (bg ++ [s]) ->
            (forall k, k ∈ bg ++ [s] -> k <> NoShape) ->
            s <> NoShape /\ (s ∉ bg) /\ bag_ok bg) as Hsnoc.
  { intros bg s Hnd' Hk. apply NoDup_app in Hnd' as (Hbg & Hdisj & _).
    split; [apply Hk; apply elem_of_app; right; apply list_elem_of_singleton;
            reflexivity|].
    split.
    - intros Hin. apply (Hdisj s Hin). apply list_elem_of_singleton.
      reflexivity.
    - split; [exact Hbg|]. intros k Hin. apply Hk. apply elem_of_app.
      left; exact Hin. }
  destruct (bag b) as [|s bg _] eqn:Hbag using rev_ind.
  - destruct (shuffle_all_shapes (rng b))
      as (l & r & bg & s & Hsh & Hl & _ & Hperm).
    exists s, (with_bag bg (with_rng r (with_bag l b))).
    rewrite (get_next_shape_refill b l bg r s Hbag Hsh Hl).
    cbn [bag with_bag].
    assert (NoDup (bg ++ [s])) as Hnd'.
    { rewrite <- Hl, Hperm. apply (bool_decide_unpack _). vm_compute.
      exact I. }
    assert (forall k, k ∈ bg ++ [s] -> k <> NoShape) as Hk.
    { intros k Hin. rewrite <- Hl, Hperm in Hin. intros ->.
      revert Hin. apply (bool_decide_unpack _). vm_compute. exact I. }
    destruct (Hsnoc bg s Hnd' Hk) as (H1 & H2 & H3).
    split; [reflexivity|]. split; [exact H1|]. split; [exact H2|].
    split; [exact H3|]. split; [intros H; contradiction|].
    intros _. rewrite <- Hl. exact Hperm.
  - exists s, (with_bag bg b).
    rewrite (get_next_shape_pop b bg s Hbag). cbn [bag with_bag].
    destruct (Hsnoc bg s Hnd Hkinds) as (H1 & H2 & H3).
    split; [reflexivity|]. split; [exact H1|]. split; [exact H2|].
    split; [exact H3|]. split; [intros _; split; reflexivity|].
    intros H. destruct bg; discriminate H.
Qed.

Lemma get_next_shape_bag_witness :
  exists s b',
    get_next_shape (example_state empty_grid) = Ok (s, b')
    /\ s <> NoShape /\ (s ∉ bag b') /\ bag_ok (bag b')
    /\ (bag (example_state empty_grid) <> [] ->
        bag (example_state empty_grid) = bag b' ++ [s]
        /\ rng b' = rng (example_state empty_grid))
    /\ (bag (example_state empty_grid) = [] ->
        bag b' ++ [s] ≡ₚ all_shapes).
Proof.
  apply (get_next_shape_bag (example_state empty_grid)).
  split; [apply NoDup_nil_2|]. intros s Hs. inversion Hs.
Defined.

(** ** The hard drop *)

Lemma place_current (b : Board.t) (y : Z) :
  place (current_piece b) (cur_x b) y b = with_cur_y y b.
Proof. destruct b; reflexivity. Qed.

Lemma with_cur_y_same (b : Board.t) : with_cur_y (cur_y b) b = b.
Proof. destruct b; reflexivity. Qed.

Lemma drop_down_loop_spec (rounds : nat) :
  forall b, wf b -> (Z.to_nat (cur_y b) <= rounds)%nat ->
  exists y',
    drop_down_loop rounds (cur_y b) b = Ok (tt, with_cur_y y' b)
    /\ y' <= cur_y b
    /\ (cur_y b <= 0 -> y' = cur_y b)
    /\ (0 < cur_y b -> 0 <= y')
    /\ (forall y, y' <= y < cur_y b ->
          fits b (current_piece b) (cur_x b) y = true)
    /\ (0 < y' -> fits b (current_piece b) (cur_x b) (y' - 1) = false).
Proof.
  induction rounds as [|rounds IH]; intros b Hwf Hrounds.
  - exists (cur_y b). rewrite with_cur_y_same. simpl.
    split; [reflexivity|]. split; [lia|]. split; [lia|]. split; [lia|].
    split; [intros y Hy; lia|]. intros Hy. exfalso. lia.
  - simpl. destruct (Z.ltb_spec 0 (cur_y b)) as [Hpos|Hle].
    + cbv [bind get].
      rewrite (try_move_spec b _ _ _ Hwf).
      destruct (fits b (current_piece b) (cur_x b) (cur_y b - 1)) eqn:Hfit.
      * rewrite place_current.
        destruct (IH (with_cur_y (cur_y b - 1) b) Hwf)
          as (y' & Hrun & H1 & H0 & H2 & H3 & H4).
        { cbn [cur_y with_cur_y]. lia. }
        cbn [cur_y with_cur_y] in Hrun, H1, H0, H2, H3.
        exists y'. rewrite Hrun. split; [reflexivity|].
        split; [lia|]. split; [lia|]. split; [lia|].
        split; [|exact H4].
        intros y Hy. destruct (Z.eq_dec y (cur_y b - 1)) as [->|Hne];
          [exact Hfit|].
        apply H3. lia.
      * exists (cur_y b). rewrite with_cur_y_same.
        split; [reflexivity|]. split; [lia|]. split; [lia|]. split; [lia|].
        split; [intros y Hy; lia|]. intros _. exact Hfit.
    + exists (cur_y b). rewrite with_cur_y_same.
      split; [reflexivity|]. split; [lia|]. split; [lia|]. split; [lia|].
      split; [intros y Hy; lia|]. intros Hy. exfalso. lia.
Qed.

(** X7. The hard drop locks the piece in its column at the lowest row
    it reaches by single steps down: every row passed fits, and the piece
    stops because the next row does not fit or because its centre row is
    0. *)
Theorem drop_down_lands (b : Board.t) :
  wf b ->
  exists y',
    drop_down b = piece_dropped (with_cur_y y' b)
    /\ y' <= cur_y b
    /\ (cur_y b <= 0 -> y' = cur_y b)
    /\ (0 < cur_y b -> 0 <= y')
    /\ (forall y, y' <= y < cur_y b ->
          fits b (current_piece b) (cur_x b) y = true)
    /\ (0 < y' -> fits b (current_piece b) (cur_x b) (y' - 1) = false).
Proof.
  intros Hwf.
  destruct (drop_down_loop_spec (Z.to_nat (cur_y b)) b Hwf (Nat.le_refl _))
    as (y' & Hrun & H).
  exists y'. split; [|exact H].
  unfold drop_down. cbv [bind get]. rewrite Hrun. reflexivity.
Qed.

Lemma drop_down_lands_witness :
  exists y',
    drop_down (example_state empty_grid)
    = piece_dropped (with_cur_y y' (example_state empty_grid))
    /\ y' <= 20
    /\ (20 <= 0 -> y' = 20)
    /\ (0 < 20 -> 0 <= y')
    /\ (forall y, y' <= y < 20 ->
          fits (example_state empty_grid)
            (current_piece (example_state empty_grid)) 6 y = true)
    /\ (0 < y' ->
        fits (example_state empty_grid)
          (current_piece (example_state empty_grid)) 6 (y' - 1) = false).
Proof.
  apply (drop_down_lands (example_state empty_grid)). reflexivity.
Defined.

(** ** The lock *)

Lemma fold_insert_lookup {A : Type} (f : Idx -> nat) (v : A)
    (idxs : list Idx) :
  forall (l : list A) (n : nat),
    (n < length l)%nat ->
    fold_left (fun l i => <[f i := v]> l) idxs l !! n
    = if existsb (fun i => Nat.eqb (f i) n) idxs then Some v else l !! n.
Proof.
  induction idxs as [|i idxs IH]; intros l n Hn; [reflexivity|].
  simpl. rewrite IH by (rewrite length_insert; exact Hn).
  destruct (Nat.eqb_spec (f i) n) as [->|Hne]; simpl.
  - rewrite list_lookup_insert_eq by exact Hn.
    destruct (existsb _ idxs); reflexivity.
  - rewrite list_lookup_insert_ne by exact Hne. reflexivity.
Qed.

(** The grid with the piece written into it, cell by cell. *)
Lemma locked_grid_cell (b : Board.t) (x y : Z) :
  wf b -> piece_on_board b = true -> on_board x y = true ->
  cell (locked_grid b) x y
  = if existsb
         (fun i => (x =? cur_x b + Shape.x (current_piece b) i)
                   && (y =? cur_y b - Shape.y (current_piece b) i)) range4
    then Some (Shape.shape (current_piece b))
    else cell (board b) x y.
Proof.
  intros Hwf Hon Hxy. unfold cell, locked_grid.
  rewrite (fold_insert_lookup
             (fun i => Z.to_nat ((cur_y b - Shape.y (current_piece b) i) * 10
                                 + (cur_x b + Shape.x (current_piece b) i))))
    by (unfold wf in Hwf; unfold on_board in Hxy; lia).
  unfold piece_on_board in Hon. rewrite forallb_range4 in Hon.
  assert (forall i,
            Nat.eqb (Z.to_nat ((cur_y b - Shape.y (current_piece b) i) * 10
                               + (cur_x b + Shape.x (current_piece b) i)))
              (Z.to_nat (y * 10 + x))
            = (x =? cur_x b + Shape.x (current_piece b) i)
              && (y =? cur_y b - Shape.y (current_piece b) i)) as Heq.
  { intros i. specialize (Hon i). unfold on_board in Hon, Hxy.
    destruct (Nat.eqb_spec
                (Z.to_nat ((cur_y b - Shape.y (current_piece b) i) * 10
                           + (cur_x b + Shape.x (current_piece b) i)))
                (Z.to_nat (y * 10 + x))); lia. }
  unfold range4. simpl existsb. rewrite !Heq. reflexivity.
Qed.

Lemma new_piece_frame (b : Board.t) :
  wf b ->
  exists b',
    new_piece b = Ok (tt, b')
    /\ board b' = board b
    /\ num_lines_removed b' = num_lines_removed b
    /\ lines_to_goal b' = lines_to_goal b
    /\ goal b' = goal b
    /\ num_goals_reached b' = num_goals_reached b
    /\ hold_piece b' = hold_piece b
    /\ hold_locked b' = hold_locked b
    /\ is_waiting_after_line b' = is_waiting_after_line b
    /\ is_landed b' = is_landed b.
Proof.
  intros Hwf. destruct (new_piece_spec b Hwf) as (s & bg & r & Hnew).
  eexists. split; [exact Hnew|]. cbv zeta.
  destruct (fits _ _ _ _); repeat split.
Qed.

(** X10. A lock that completes no row writes the kind of the piece into
    its four cells and leaves every other cell, the line counters and the
    level as they were; the landed flag is cleared and hold is unlocked. *)
Theorem lock_writes_piece_cells (b : Board.t) :
  wf b -> piece_on_board b = true -> is_waiting_after_line b = false ->
  full_rows (locked_grid b) = [] ->
  exists b',
    finalize_piece b = Ok (tt, b')
    /\ (forall x y, on_board x y = true ->
          cell (board b') x y
          = if existsb
                 (fun i => (x =? cur_x b + Shape.x (current_piece b) i)
                           && (y =? cur_y b - Shape.y (current_piece b) i))
                 range4
            then Some (Shape.shape (current_piece b))
            else cell (board b) x y)
    /\ num_lines_removed b' = num_lines_removed b
    /\ lines_to_goal b' = lines_to_goal b
    /\ goal b' = goal b
    /\ num_goals_reached b' = num_goals_reached b
    /\ is_landed b' = false
    /\ hold_locked b' = false.
Proof.
  intros Hwf Hon Hwait Hnone.
  unfold finalize_piece. unfold bind at 1, modify at 1.
  unfold bind at 1.
  rewrite (lock_cells_spec (with_finalize_timer false b) Hwf Hon).
  change (locked_grid (with_finalize_timer false b)) with (locked_grid b).
  set (b1 := with_board (locked_grid b) (with_finalize_timer false b)).
  assert (wf b1) as Hwf1.
  { unfold wf, b1. cbn [board with_board]. rewrite length_locked_grid.
    exact Hwf. }
  unfold bind at 1.
  rewrite (remove_full_lines_none b1 Hwf1 Hnone).
  cbv [bind modify get].
  change (is_waiting_after_line (with_is_landed false b1))
    with (is_waiting_after_line b).
  rewrite Hwait. cbn [negb].
  destruct (new_piece_frame (with_is_landed false b1) Hwf1)
    as (b' & Hnew & Hb & Hn & Hl & Hg & Hr & _ & _ & _ & Hlanded).
  rewrite Hnew. eexists. split; [reflexivity|].
  cbn [board num_lines_removed lines_to_goal goal num_goals_reached
       is_landed hold_locked with_hold_locked].
  rewrite Hb, Hn, Hl, Hg, Hr, Hlanded.
  split; [|repeat split].
  intros x y Hxy. apply (locked_grid_cell b x y Hwf Hon Hxy).
Qed.

Lemma lock_writes_piece_cells_witness :
  exists b',
    finalize_piece (with_cur_y 1 (example_state empty_grid)) = Ok (tt, b')
    /\ (forall x y, on_board x y = true ->
          cell (board b') x y
          = if existsb
                 (fun i =>
                    (x =? 6 + Shape.x (Shape.set_shape Shape.new ZShape) i)
                    && (y =? 1 - Shape.y (Shape.set_shape Shape.new ZShape) i))
                 range4
            then Some ZShape
            else cell empty_grid x y)
    /\ num_lines_removed b' = 0
    /\ lines_to_goal b' = 0
    /\ goal b' = 10
    /\ num_goals_reached b' = 0
    /\ is_landed b' = false
    /\ hold_locked b' = false.
Proof.
  apply (lock_writes_piece_cells (with_cur_y 1 (example_state empty_grid)));
    [reflexivity|reflexivity|reflexivity|vm_compute; reflexivity].
Defined.

(** ** Removing every full row *)

Lemma forallb_ext_in {A : Type} (f g : A -> bool) (l : list A) :
  (forall a, In a l -> f a = g a) -> forallb f l = forallb g l.
Proof.
  induction l as [|a l IH]; intros H; simpl; [reflexivity|].
  rewrite (H a) by (left; reflexivity).
  rewrite IH; [reflexivity|]. intros a' Ha'. apply H. right; exact Ha'.
Qed.

Lemma filter_all {A : Type} (f : A -> bool) (l : list A) :
  (forall a, In a l -> f a = true) -> List.filter f l = l.
Proof.
  induction l as [|a l IH]; intros H; simpl; [reflexivity|].
  rewrite (H a) by (left; reflexivity).
  rewrite IH; [reflexivity|]. intros a' Ha'. apply H. right; exact Ha'.
Qed.

Lemma row_full_ext (l l' : list Tetrominoe) (y y' : Z) :
  (forall x, 0 <= x < 10 -> cell l' x y' = cell l x y) ->
  row_full l' y' = row_full l y.
Proof.
  intros H. unfold row_full. apply forallb_ext_in. intros x Hx.
  apply elem_seqZ_In in Hx. unfold occupied. rewrite H by lia. reflexivity.
Qed.

Lemma row_empty (l : list Tetrominoe) (y : Z) :
  (forall x, 0 <= x < 10 -> cell l x y = Some NoShape) ->
  row_full l y = false.
Proof.
  intros H. unfold row_full. rewrite (seqZ_cons 0 10) by lia.
  simpl. unfold occupied at 1. rewrite H by lia.
  rewrite bool_decide_eq_false_2 by tauto. reflexivity.
Qed.

Lemma kept_rows_split (l : list Tetrominoe) (n : Z) :
  0 <= n < 22 -> row_full l n = true ->
  (forall y, n < y < 22 -> row_full l y = false) ->
  kept_rows l
  = List.filter (fun y => negb (row_full l y)) (seqZ 0 n)
    ++ seqZ (n + 1) (21 - n).
Proof.
  intros Hn Hfull Habove. unfold kept_rows.
  replace 22 with (n + (22 - n)) at 1 by lia.
  rewrite seqZ_app by lia. rewrite List.filter_app. f_equal.
  rewrite (seqZ_cons (0 + n)) by lia. simpl.
  replace (0 + n) with n by lia. rewrite Hfull. simpl.
  replace (Z.succ n) with (n + 1) by lia.
  replace (Z.pred (22 - n)) with (21 - n) by lia.
  apply filter_all. intros y Hy. apply elem_seqZ_In in Hy.
  rewrite Habove by lia. reflexivity.
Qed.

Lemma kept_rows_none_full (l : list Tetrominoe) (n : Z) :
  0 <= n < 22 ->
  (forall y, n <= y < 22 -> row_full l y = false) ->
  kept_rows l
  = List.filter (fun y => negb (row_full l y)) (seqZ 0 n)
    ++ seqZ n (22 - n).
Proof.
  intros Hn Habove. unfold kept_rows.
  replace 22 with (n + (22 - n)) at 1 by lia.
  rewrite seqZ_app by lia. rewrite List.filter_app. f_equal.
  replace (0 + n) with n by lia.
  apply filter_all. intros y Hy. apply elem_seqZ_In in Hy.
  rewrite Habove by lia. reflexivity.
Qed.

Lemma row_removed_below (l l1 : list Tetrominoe) (n y : Z) :
  row_removed l n l1 -> 0 <= y < n -> n < 22 ->
  row_full l1 y = row_full l y.
Proof.
  intros [_ Hcells] Hy Hn. apply row_full_ext. intros x Hx.
  rewrite Hcells by (unfold on_board; lia).
  destruct (Z.ltb_spec y n); [reflexivity|lia].
Qed.

Lemma row_removed_above (l l1 : list Tetrominoe) (n y : Z) :
  row_removed l n l1 -> 0 <= n -> n <= y < 22 ->
  (forall y', n < y' < 22 -> row_full l y' = false) ->
  row_full l1 y = false.
Proof.
  intros [_ Hcells] Hn Hy Habove.
  destruct (Z.lt_ge_cases y 21) as [Hlt|Hge].
  - rewrite (row_full_ext l l1 (y + 1) y); [apply Habove; lia|].
    intros x Hx. rewrite Hcells by (unfold on_board; lia).
    destruct (Z.ltb_spec y n); [lia|].
    destruct (Z.ltb_spec y 21); [reflexivity|lia].
  - apply row_empty. intros x Hx.
    rewrite Hcells by (unfold on_board; lia).
    destruct (Z.ltb_spec y n); [lia|].
    destruct (Z.ltb_spec y 21); [lia|reflexivity].
Qed.

Lemma gravity_after_remove (l l1 : list Tetrominoe) (n x y : Z) :
  row_removed l n l1 -> 0 <= n < 22 -> row_full l n = true ->
  (forall y', n < y' < 22 -> row_full l y' = false) ->
  on_board x y = true ->
  gravity_cell l1 x y = gravity_cell l x y.
Proof.
  intros Hrem Hn Hfull Habove Hxy. unfold gravity_cell.
  rewrite (kept_rows_split l n Hn Hfull Habove).
  rewrite (kept_rows_none_full l1 n Hn)
    by (intros y' Hy'; apply (row_removed_above l l1 n y' Hrem); lia || exact Habove).
  rewrite (List.filter_ext_in
             (fun y0 => negb (row_full l1 y0))
             (fun y0 => negb (row_full l y0)) (seqZ 0 n))
    by (intros a Ha; apply elem_seqZ_In in Ha;
        rewrite (row_removed_below l l1 n a Hrem) by lia; reflexivity).
  set (A := List.filter (fun y0 => negb (row_full l y0)) (seqZ 0 n)).
  destruct Hrem as [_ Hcells]. unfold on_board in Hxy.
  destruct (Nat.lt_ge_cases (Z.to_nat y) (length A)) as [Hlt|Hge].
  - rewrite !lookup_app_l by exact Hlt.
    destruct (A !! Z.to_nat y) as [y0|] eqn:Hy0; [|reflexivity].
    assert (In y0 A) as Hin
      by (apply list_elem_of_In; eapply list_elem_of_lookup_2; exact Hy0).
    apply filter_In in Hin as [Hin _]. apply elem_seqZ_In in Hin.
    rewrite Hcells by (unfold on_board; lia).
    destruct (Z.ltb_spec y0 n); [reflexivity|lia].
  - rewrite !lookup_app_r by exact Hge.
    set (k := (Z.to_nat y - length A)%nat).
    destruct (Z.lt_ge_cases (Z.of_nat k) (21 - n)) as [Hk|Hk].
    + rewrite !lookup_seqZ_lt by lia.
      rewrite Hcells by (unfold on_board; lia).
      destruct (Z.ltb_spec (n + Z.of_nat k) n); [lia|].
      destruct (Z.ltb_spec (n + Z.of_nat k) 21); [|lia].
      f_equal. lia.
    + rewrite (lookup_seqZ_ge (n + 1)) by lia.
      destruct (Z.eq_dec (Z.of_nat k) (21 - n)) as [Heq|Hne].
      * rewrite lookup_seqZ_lt by lia.
        rewrite Hcells by (unfold on_board; lia).
        destruct (Z.ltb_spec (n + Z.of_nat k) n); [lia|].
        destruct (Z.ltb_spec (n + Z.of_nat k) 21); [lia|reflexivity].
      * rewrite lookup_seqZ_ge by lia. reflexivity.
Qed.

Lemma remove_rows_from_top (b : Board.t) (n : nat) :
  (n <= 22)%nat ->
  forall l, length l = 220%nat ->
  (forall y, Z.of_nat n <= y < 22 -> row_full l y = false) ->
  exists l',
    for_each (reverse (List.filter (row_full l) (seqZ 0 (Z.of_nat n))))
      remove_row (with_board l b)
    = Ok (tt, with_board l' b)
    /\ length l' = 220%nat
    /\ forall x y, on_board x y = true ->
         cell l' x y = gravity_cell l x y.
Proof.
  induction n as [|n IH]; intros Hn l Hlen Habove.
  - exists l. split; [reflexivity|]. split; [exact Hlen|].
    intros x y Hxy. unfold gravity_cell, kept_rows, on_board in *.
    rewrite filter_all
      by (intros a Ha; apply elem_seqZ_In in Ha; rewrite Habove by lia;
          reflexivity).
    rewrite lookup_seqZ_lt by lia.
    replace (0 + Z.of_nat (Z.to_nat y)) with y by lia. reflexivity.
  - rewrite seqZ_S, List.filter_app. simpl List.filter.
    replace (0 + Z.of_nat n) with (Z.of_nat n) by lia.
    destruct (row_full l (Z.of_nat n)) eqn:Hfull.
    + rewrite reverse_snoc. simpl for_each. unfold bind.
      destruct (remove_row_spec (with_board l b) (Z.of_nat n) Hlen
                  ltac:(lia)) as (l1 & Hrun & Hrem).
      cbn [board with_board] in Hrem. rewrite Hrun.
      destruct (IH ltac:(lia) l1 (proj1 Hrem)) as (l' & Hrun' & Hlen' & Hcells).
      { intros y Hy. apply (row_removed_above l l1 (Z.of_nat n) y Hrem);
          [lia|lia|]. intros y' Hy'. apply Habove. lia. }
      exists l'.
      rewrite (List.filter_ext_in (row_full l) (row_full l1)
                 (seqZ 0 (Z.of_nat n)))
        by (intros a Ha; apply elem_seqZ_In in Ha; symmetry;
            apply (row_removed_below l l1 (Z.of_nat n) a Hrem); lia).
      split; [exact Hrun'|]. split; [exact Hlen'|].
      intros x y Hxy. rewrite Hcells by exact Hxy.
      apply (gravity_after_remove l l1 (Z.of_nat n)); try assumption; [lia|].
      intros y' Hy'. apply Habove. lia.
    + rewrite app_nil_r. apply IH; [lia|exact Hlen|].
      intros y Hy. destruct (Z.eq_dec y (Z.of_nat n)) as [->|Hne];
        [exact Hfull|]. apply Habove. lia.
Qed.

(** X4. [remove_full_lines] removes every full row, however many: the
    rows that were not full keep their order and move down onto each
    other, empty rows fill the top, no full row is left, and the count of
    removed lines grows by the number of rows that were full. *)
Theorem remove_full_lines_all_rows (b : Board.t) :
  wf b ->
  exists b',
    remove_full_lines b = Ok (tt, b')
    /\ wf b'
    /\ (forall x y, on_board x y = true ->
          cell (board b') x y = gravity_cell (board b) x y)
    /\ full_rows (board b') = []
    /\ num_lines_removed b'
       = num_lines_removed b + Z.of_nat (length (full_rows (board b))).
Proof.
  intros Hwf.
  destruct (remove_full_lines_spec b Hwf) as (l' & Hrun & Hlen & Hspec).
  destruct (remove_rows_from_top b 22 (Nat.le_refl _) (board b) Hwf)
    as (l2 & Hrun2 & _ & Hcells).
  { intros y Hy. lia. }
  change (seqZ 0 (Z.of_nat 22)) with (seqZ 0 22) in Hrun2.
  fold (full_rows (board b)) in Hrun2. rewrite with_board_same in Hrun2.
  assert (l2 = l') as -> by (apply (with_board_inj _ _ b); congruence).
  eexists. split; [exact Hspec|].
  rewrite board_lines_tail. cbn [board with_board].
  split; [unfold wf; rewrite board_lines_tail; exact Hlen|].
  split; [exact Hcells|]. split.
  - apply filter_none. intros y Hy. apply elem_seqZ_In in Hy.
    destruct (kept_rows (board b) !! Z.to_nat y) as [y0|] eqn:Hy0.
    + assert (In y0 (kept_rows (board b))) as Hin
        by (apply list_elem_of_In; eapply list_elem_of_lookup_2; exact Hy0).
      apply filter_In in Hin as [_ Hnot]. apply negb_true_iff in Hnot.
      rewrite <- Hnot. apply row_full_ext. intros x Hx.
      rewrite Hcells by (unfold on_board; lia).
      unfold gravity_cell. rewrite Hy0. reflexivity.
    + apply row_empty. intros x Hx.
      rewrite Hcells by (unfold on_board; lia).
      unfold gravity_cell. rewrite Hy0. reflexivity.
  - destruct (length (full_rows (board b))) as [|k] eqn:Hk.
    + unfold lines_tail. change (0 <? Z.of_nat 0) with false. cbv iota.
      cbn [num_lines_removed with_board Z.of_nat]. lia.
    + rewrite num_lines_removed_lines_tail by lia. reflexivity.
Qed.

Lemma remove_full_lines_all_rows_witness :
  exists b',
    remove_full_lines (example_state bottom_row_full) = Ok (tt, b')
    /\ wf b'
    /\ (forall x y, on_board x y = true ->
          cell (board b') x y = gravity_cell bottom_row_full x y)
    /\ full_rows (board b') = []
    /\ num_lines_removed b'
       = 0 + Z.of_nat (length (full_rows bottom_row_full)).
Proof.
  apply (remove_full_lines_all_rows (example_state bottom_row_full)).
  reflexivity.
Defined.

(** ** What holds between events *)

Ltac unfold_piece_ok :=
  unfold piece_ok, Shape.x, Shape.y;
  cbn [existsb forallb fold_left range4 get_coord Shape.coords c0 c1 c2 c3
       fst snd].

Lemma piece_ok_set_shape (p : Shape.t) (k : Tetrominoe) :
  piece_ok (Shape.set_shape p k) = true.
Proof. destruct k; reflexivity. Qed.

Lemma shape_rotate_right (p : Shape.t) :
  Shape.shape (Shape.rotate_right p) = Shape.shape p.
Proof.
  rewrite rotate_right_rotated. unfold rotated_right.
  destruct (decide _); reflexivity.
Qed.

Lemma piece_ok_rotate_right (p : Shape.t) :
  piece_ok p = true -> piece_ok (Shape.rotate_right p) = true.
Proof.
  intros H. rewrite rotate_right_rotated. unfold rotated_right.
  destruct (decide _); [exact H|].
  destruct p as [[[x0 y0] [x1 y1] [x2 y2] [x3 y3]] k].
  revert H. unfold_piece_ok. unfold quarter_turn. cbn [fst snd]. lia.
Qed.

Lemma min_y_piece_ok (p : Shape.t) :
  piece_ok p = true -> -2 <= Shape.min_y p <= 0.
Proof.
  destruct p as [[[x0 y0] [x1 y1] [x2 y2] [x3 y3]] k].
  unfold Shape.min_y. unfold_piece_ok. lia.
Qed.

Lemma origin_on_board (p : Shape.t) (cx cy : Z) :
  piece_ok p = true ->
  forallb (fun i => on_board (cx + Shape.x p i) (cy - Shape.y p i)) range4
  = true ->
  on_board cx cy = true.
Proof.
  destruct p as [[[x0 y0] [x1 y1] [x2 y2] [x3 y3]] k].
  unfold on_board. unfold_piece_ok. lia.
Qed.

Lemma fits_on_board (b : Board.t) (p : Shape.t) (x y : Z) :
  fits b p x y = true ->
  forallb (fun i => on_board (x + Shape.x p i) (y - Shape.y p i)) range4
  = true.
Proof.
  unfold fits. rewrite !forallb_range4. intros H i.
  specialize (H i). unfold cell_free in H.
  apply andb_prop in H as [H _]. exact H.
Qed.

Lemma piece_on_board_noshape (b : Board.t) (p : Shape.t) :
  current_piece b = Shape.set_shape p NoShape ->
  on_board (cur_x b) (cur_y b) = true ->
  piece_on_board b = true.
Proof.
  intros Hp Hon. unfold piece_on_board. rewrite Hp.
  rewrite forallb_range4. intros i.
  replace (cur_x b + _) with (cur_x b) by (destruct i; cbn; lia).
  replace (cur_y b - _) with (cur_y b) by (destruct i; cbn; lia).
  exact Hon.
Qed.

(** The invariant reads six fields and the finalize timer. *)
Lemma inv_with_core (dead : bool) (b b' : Board.t) :
  inv_with dead b ->
  board b' = board b -> cur_x b' = cur_x b -> cur_y b' = cur_y b ->
  current_piece b' = current_piece b -> hold_piece b' = hold_piece b ->
  is_waiting_after_line b' = is_waiting_after_line b ->
  (finalize_timer b = false -> finalize_timer b' = false) ->
  inv_with dead b'.
Proof.
  unfold inv_with, game_inv, wf, piece_on_board, fits.
  intros H Hb Hx Hy Hp Hh Hw Hf.
  rewrite Hb, Hx, Hy, Hp, Hh, Hw. intuition.
Qed.

Lemma inv_place (dead : bool) (b : Board.t) (p : Shape.t) (x y : Z) :
  inv_with dead b -> piece_ok p = true ->
  Shape.shape p = Shape.shape (current_piece b) ->
  fits b p x y = true ->
  inv_with dead (place p x y b).
Proof.
  intros ((Hwf & Hcur & Hhold & Hon & Hfit & Hwait) & Hdead) Hp Hsh Hfits.
  split; [|exact Hdead].
  split; [exact Hwf|]. split; [exact Hp|]. split; [exact Hhold|].
  split; [exact (fits_on_board b p x y Hfits)|].
  split; [intros _; exact Hfits|].
  intros Hw. change (Shape.shape p = NoShape). rewrite Hsh.
  apply Hwait. exact Hw.
Qed.

Lemma inv_intro_noshape (dead : bool) (b : Board.t) (p : Shape.t) :
  wf b -> current_piece b = Shape.set_shape p NoShape ->
  piece_ok (hold_piece b) = true ->
  on_board (cur_x b) (cur_y b) = true ->
  (dead = true -> finalize_timer b = false) ->
  inv_with dead b.
Proof.
  intros Hwf Hp Hhold Hon Hdead. split; [|exact Hdead].
  split; [exact Hwf|]. split; [rewrite Hp; reflexivity|].
  split; [exact Hhold|].
  split; [exact (piece_on_board_noshape b p Hp Hon)|].
  rewrite Hp. split; [intros H; exfalso; apply H; reflexivity|].
  intros _. reflexivity.
Qed.

Lemma inv_intro_fits (dead : bool) (b : Board.t) :
  wf b -> piece_ok (current_piece b) = true ->
  piece_ok (hold_piece b) = true ->
  fits b (current_piece b) (cur_x b) (cur_y b) = true ->
  is_waiting_after_line b = false ->
  (dead = true -> finalize_timer b = false) ->
  inv_with dead b.
Proof.
  intros Hwf Hp Hhold Hfits Hwait Hdead. split; [|exact Hdead].
  split; [exact Hwf|]. split; [exact Hp|]. split; [exact Hhold|].
  split; [exact (fits_on_board _ _ _ _ Hfits)|].
  split; [intros _; exact Hfits|].
  rewrite Hwait. discriminate.
Qed.

Ltac frame_inv b :=
  intros H; apply (inv_with_core _ b); try reflexivity; [exact H|tauto].

Lemma inv_hold_locked (dead v : bool) (b : Board.t) :
  inv_with dead b -> inv_with dead (with_hold_locked v b).
Proof. frame_inv b. Qed.

Lemma inv_is_landed (dead v : bool) (b : Board.t) :
  inv_with dead b -> inv_with dead (with_is_landed v b).
Proof. frame_inv b. Qed.

Lemma inv_left_key_timer (dead v : bool) (b : Board.t) :
  inv_with dead b -> inv_with dead (with_left_key_timer v b).
Proof. frame_inv b. Qed.

Lemma inv_right_key_timer (dead v : bool) (b : Board.t) :
  inv_with dead b -> inv_with dead (with_right_key_timer v b).
Proof. frame_inv b. Qed.

Lemma inv_down_key_timer (dead v : bool) (b : Board.t) :
  inv_with dead b -> inv_with dead (with_down_key_timer v b).
Proof. frame_inv b. Qed.

Lemma inv_timer (dead : bool) (v : option Q) (b : Board.t) :
  inv_with dead b -> inv_with dead (with_timer v b).
Proof. frame_inv b. Qed.

Lemma inv_statusbar (dead : bool) (v : list string) (b : Board.t) :
  inv_with dead b -> inv_with dead (with_statusbar v b).
Proof. frame_inv b. Qed.

Lemma inv_is_started (dead v : bool) (b : Board.t) :
  inv_with dead b -> inv_with dead (with_is_started v b).
Proof. frame_inv b. Qed.

Lemma inv_is_paused (dead v : bool) (b : Board.t) :
  inv_with dead b -> inv_with dead (with_is_paused v b).
Proof. frame_inv b. Qed.

Lemma inv_finalize_timer_stop (dead : bool) (b : Board.t) :
  inv_with dead b -> inv_with dead (with_finalize_timer false b).
Proof.
  intros H; apply (inv_with_core _ b); try reflexivity. exact H.
Qed.

Lemma spawned_core (s : Tetrominoe) (bg : list Tetrominoe) (r : RNG)
    (b : Board.t) :
  board (spawned s bg r b) = board b
  /\ cur_x (spawned s bg r b) = 6
  /\ cur_y (spawned s bg r b)
     = 21 + Shape.min_y (Shape.set_shape (current_piece b)
                           (Shape.shape (next_piece b)))
  /\ current_piece (spawned s bg r b)
     = Shape.set_shape (current_piece b) (Shape.shape (next_piece b))
  /\ hold_piece (spawned s bg r b) = hold_piece b
  /\ is_waiting_after_line (spawned s bg r b) = is_waiting_after_line b
  /\ finalize_timer (spawned s bg r b) = finalize_timer b.
Proof. destruct b; repeat split. Qed.

Lemma game_over_state_core (b : Board.t) :
  board (game_over_state b) = board b
  /\ cur_x (game_over_state b) = cur_x b
  /\ cur_y (game_over_state b) = cur_y b
  /\ current_piece (game_over_state b)
     = Shape.set_shape (current_piece b) NoShape
  /\ hold_piece (game_over_state b) = hold_piece b
  /\ finalize_timer (game_over_state b) = false.
Proof. destruct b; repeat split. Qed.

Lemma lines_tail_core (n : Z) (b : Board.t) :
  board (lines_tail n b) = board b
  /\ cur_x (lines_tail n b) = cur_x b
  /\ cur_y (lines_tail n b) = cur_y b
  /\ hold_piece (lines_tail n b) = hold_piece b
  /\ finalize_timer (lines_tail n b) = finalize_timer b
  /\ current_piece (lines_tail n b)
     = (if 0 <? n then Shape.set_shape (current_piece b) NoShape
        else current_piece b)
  /\ is_waiting_after_line (lines_tail n b)
     = (if 0 <? n then true else is_waiting_after_line b).
Proof.
  unfold lines_tail. destruct (0 <? n); [|repeat split].
  destruct (goal _ <=? lines_to_goal _); destruct b; repeat split.
Qed.

(** The spawn: on any grid of 220 cells, outside the wait after a line
    clear, [new_piece] leaves a piece that fits or no piece. *)
Lemma new_piece_inv (dead : bool) (b : Board.t) :
  wf b -> piece_ok (hold_piece b) = true ->
  is_waiting_after_line b = false ->
  (dead = true -> finalize_timer b = false) ->
  exists b', new_piece b = Ok (tt, b') /\ inv_with dead b'.
Proof.
  intros Hwf Hhold Hwait Hdead.
  destruct (new_piece_spec b Hwf) as (s & bg & r & Hnew).
  eexists. split; [exact Hnew|]. cbv zeta.
  destruct (spawned_core s bg r b) as (Hb & Hx & Hy & Hp & Hh & Hw & Hf).
  set (sp := spawned s bg r b) in *.
  destruct (fits sp _ _ _) eqn:Hfits.
  - apply inv_intro_fits.
    + unfold wf. rewrite Hb. exact Hwf.
    + rewrite Hp. apply piece_ok_set_shape.
    + rewrite Hh. exact Hhold.
    + exact Hfits.
    + rewrite Hw. exact Hwait.
    + rewrite Hf. exact Hdead.
  - destruct (game_over_state_core sp) as (Gb & Gx & Gy & Gp & Gh & Gf).
    apply (inv_intro_noshape dead _ (current_piece sp)).
    + unfold wf. rewrite Gb, Hb. exact Hwf.
    + exact Gp.
    + rewrite Gh, Hh. exact Hhold.
    + rewrite Gx, Gy, Hx, Hy.
      pose proof (min_y_piece_ok _
                    (piece_ok_set_shape (current_piece b)
                       (Shape.shape (next_piece b)))) as Hm.
      unfold on_board. lia.
    + intros _. exact Gf.
Qed.

Lemma finalize_piece_inv (dead : bool) (b : Board.t) :
  inv_with dead b ->
  exists b', finalize_piece b = Ok (tt, b') /\ inv_with dead b'.
Proof.
  intros ((Hwf & Hcur & Hhold & Hon & Hfit & Hwait) & Hdead).
  unfold finalize_piece. unfold bind at 1, modify at 1.
  unfold bind at 1.
  rewrite (lock_cells_spec (with_finalize_timer false b) Hwf Hon).
  change (locked_grid (with_finalize_timer false b)) with (locked_grid b).
  assert (wf (with_board (locked_grid b) (with_finalize_timer false b)))
    as Hwf1.
  { unfold wf. cbn [board with_board]. rewrite length_locked_grid.
    exact Hwf. }
  unfold bind at 1.
  destruct (remove_full_lines_spec _ Hwf1) as (l' & _ & Hlen & Hrm).
  rewrite Hrm. clear Hrm.
  generalize (Z.of_nat
                (length
                   (full_rows
                      (board
                         (with_board (locked_grid b)
                            (with_finalize_timer false b)))))) as n.
  intros n.
  destruct (lines_tail_core n
              (with_board l'
                 (with_board (locked_grid b) (with_finalize_timer false b))))
    as (Hb & Hx & Hy & Hh & Hf & Hp & Hw).
  cbn [board cur_x cur_y hold_piece finalize_timer current_piece
       is_waiting_after_line with_board with_finalize_timer]
    in Hb, Hx, Hy, Hh, Hf, Hp, Hw.
  set (b2 := lines_tail n _) in *.
  cbv [bind modify get].
  change (is_waiting_after_line (with_is_landed false b2))
    with (is_waiting_after_line b2).
  rewrite Hw.
  assert (wf b2) as Hwf2 by (unfold wf; rewrite Hb; exact Hlen).
  destruct (0 <? n).
  - cbn [negb]. eexists. split; [reflexivity|].
    apply inv_is_landed.
    apply (inv_intro_noshape dead _ (current_piece b)).
    + exact Hwf2.
    + exact Hp.
    + rewrite Hh. exact Hhold.
    + rewrite Hx, Hy. exact (origin_on_board _ _ _ Hcur Hon).
    + intros _. exact Hf.
  - destruct (is_waiting_after_line b) eqn:Hwb; cbn [negb].
    + eexists. split; [reflexivity|].
      apply inv_is_landed.
      split; [|intros _; exact Hf].
      split; [exact Hwf2|]. split; [rewrite Hp; exact Hcur|].
      split; [rewrite Hh; exact Hhold|].
      split; [unfold piece_on_board; rewrite Hx, Hy, Hp; exact Hon|].
      rewrite Hp. split; [|intros _; apply Hwait; reflexivity].
      intros Hne. exfalso. apply Hne. apply Hwait. reflexivity.
    + destruct (new_piece_inv dead (with_is_landed false b2))
        as (b3 & Hnew & Hinv).
      * exact Hwf2.
      * change (piece_ok (hold_piece b2) = true). rewrite Hh. exact Hhold.
      * exact Hw.
      * intros _. exact Hf.
      * rewrite Hnew. eexists. split; [reflexivity|].
        apply inv_hold_locked. exact Hinv.
Qed.

Lemma piece_dropped_inv (dead : bool) (b : Board.t) :
  inv_with dead b ->
  exists b', piece_dropped b = Ok (tt, b') /\ inv_with dead b'.
Proof.
  intros H. unfold piece_dropped. cbv [bind modify].
  apply finalize_piece_inv. apply inv_is_landed. exact H.
Qed.

Lemma try_move_current_inv (dead : bool) (b : Board.t) (x y : Z) :
  inv_with dead b ->
  exists r b',
    try_move (current_piece b) x y b = Ok (r, b')
    /\ inv_with dead b' /\ (r = false -> b' = b).
Proof.
  intros H. pose proof H as ((Hwf & Hcur & _) & _).
  rewrite (try_move_spec b _ _ _ Hwf).
  destruct (fits b (current_piece b) x y) eqn:Hfits.
  - exists true. eexists. split; [reflexivity|].
    split; [|discriminate].
    apply inv_place; [exact H|exact Hcur|reflexivity|exact Hfits].
  - exists false, b. split; [reflexivity|]. split; [exact H|reflexivity].
Qed.

Lemma move_left_inv (dead : bool) (b : Board.t) :
  inv_with dead b ->
  exists b', move_left b = Ok (tt, b') /\ inv_with dead b'.
Proof.
  intros H. unfold move_left. cbv [bind get].
  destruct (try_move_current_inv dead b (cur_x b - 1) (cur_y b) H)
    as (r & b' & Hrun & Hinv & _).
  rewrite Hrun. exists b'. split; [reflexivity|exact Hinv].
Qed.

Lemma move_right_inv (dead : bool) (b : Board.t) :
  inv_with dead b ->
  exists b', move_right b = Ok (tt, b') /\ inv_with dead b'.
Proof.
  intros H. unfold move_right. cbv [bind get].
  destruct (try_move_current_inv dead b (cur_x b + 1) (cur_y b) H)
    as (r & b' & Hrun & Hinv & _).
  rewrite Hrun. exists b'. split; [reflexivity|exact Hinv].
Qed.

Lemma move_down_inv (dead : bool) (b : Board.t) :
  inv_with dead b ->
  exists b', move_down b = Ok (tt, b') /\ inv_with dead b'.
Proof.
  intros H. unfold move_down. cbv [bind get].
  destruct (try_move_current_inv dead b (cur_x b) (cur_y b - 1) H)
    as (r & b' & Hrun & Hinv & Hsame).
  rewrite Hrun. destruct r.
  - exists b'. split; [reflexivity|exact Hinv].
  - apply piece_dropped_inv. exact Hinv.
Qed.

Lemma one_line_down_inv (dead : bool) (b : Board.t) :
  inv_with dead b ->
  exists b', one_line_down b = Ok (tt, b') /\ inv_with dead b'.
Proof. exact (move_down_inv dead b). Qed.

Lemma drop_down_inv (dead : bool) (b : Board.t) :
  inv_with dead b ->
  exists b', drop_down b = Ok (tt, b') /\ inv_with dead b'.
Proof.
  intros H. pose proof H as ((Hwf & Hcur & _) & _).
  unfold drop_down. cbv [bind get].
  destruct (drop_down_loop_spec (Z.to_nat (cur_y b)) b Hwf (le_n _))
    as (y' & Hrun & Hle & _ & _ & Hall & _).
  rewrite Hrun. apply piece_dropped_inv.
  destruct (Z.eq_dec y' (cur_y b)) as [->|Hne].
  - rewrite with_cur_y_same. exact H.
  - rewrite <- place_current.
    apply inv_place; [exact H|exact Hcur|reflexivity|].
    apply Hall. lia.
Qed.

Lemma try_rotate_right_inv (dead : bool) (b : Board.t) :
  inv_with dead b ->
  exists b', try_rotate_right b = Ok (tt, b') /\ inv_with dead b'.
Proof.
  intros H. pose proof H as ((Hwf & Hcur & _) & _).
  rewrite (try_rotate_right_spec b Hwf). eexists. split; [reflexivity|].
  destruct (first_fit _ _ _) as [c|] eqn:Hff; [|exact H].
  apply find_some in Hff as [_ Hfits].
  apply inv_place;
    [exact H|apply piece_ok_rotate_right; exact Hcur
    |apply shape_rotate_right|exact Hfits].
Qed.

Lemma hold_current_piece_inv (dead : bool) (b : Board.t) :
  inv_with dead b -> is_waiting_after_line b = false ->
  exists b', hold_current_piece b = Ok (tt, b') /\ inv_with dead b'.
Proof.
  intros H Hw. pose proof H as ((Hwf & Hcur & Hhold & _) & Hdead).
  destruct (hold_locked b) eqn:Hlock.
  { exists b. split; [apply hold_locked_noop; exact Hlock|exact H]. }
  unfold hold_current_piece. cbv [bind get]. rewrite Hlock. cbn [negb].
  destruct (decide (Shape.shape (hold_piece b) = NoShape)) as [_|_].
  - cbv [bind modify].
    destruct (new_piece_inv dead
                (with_hold_piece
                   (Shape.set_shape (hold_piece b)
                      (Shape.shape (current_piece b))) b))
      as (b1 & Hnew & Hinv);
      [exact Hwf|apply piece_ok_set_shape|exact Hw|exact Hdead|].
    rewrite Hnew. eexists. split; [reflexivity|].
    apply inv_hold_locked. exact Hinv.
  - cbv [bind modify get].
    set (b0 := with_cur_y _ _).
    assert (wf b0) as Hwf0 by exact Hwf.
    assert (board b0 = board b /\ cur_x b0 = 6
            /\ cur_y b0 = 21 + Shape.min_y (hold_piece b)
            /\ current_piece b0 = hold_piece b
            /\ hold_piece b0 = current_piece b
            /\ is_waiting_after_line b0 = is_waiting_after_line b
            /\ finalize_timer b0 = finalize_timer b)
      as (Hb & Hx & Hy & Hp & Hh & Hw0 & Hf)
      by (subst b0; clear; destruct b; repeat split).
    rewrite (try_move_spec b0 _ _ _ Hwf0).
    destruct (fits b0 _ _ _) eqn:Hfits.
    + rewrite place_same. eexists. split; [reflexivity|].
      apply inv_hold_locked.
      apply inv_intro_fits;
        [exact Hwf0|rewrite Hp; exact Hhold|rewrite Hh; exact Hcur
        |exact Hfits|rewrite Hw0; exact Hw|rewrite Hf; exact Hdead].
    + rewrite game_over_spec. eexists. split; [reflexivity|].
      destruct (game_over_state_core b0) as (Gb & Gx & Gy & Gp & Gh & Gf).
      apply inv_hold_locked.
      apply (inv_intro_noshape dead _ (current_piece b0)).
      * unfold wf. rewrite Gb. exact Hwf0.
      * exact Gp.
      * rewrite Gh, Hh. exact Hcur.
      * rewrite Gx, Gy, Hx, Hy.
        pose proof (min_y_piece_ok _ Hhold) as Hm.
        unfold on_board. lia.
      * intros _. exact Gf.
Qed.

Lemma inv_finalize_timer_restart (dead : bool) (b : Board.t) :
  inv_with dead b -> finalize_timer b = true ->
  inv_with dead (with_finalize_timer true b).
Proof.
  intros H Ht. apply (inv_with_core dead b); try reflexivity; [exact H|].
  intros Hf. congruence.
Qed.

Ltac frames :=
  repeat match goal with
    | |- inv_with _ (with_hold_locked _ _) => apply inv_hold_locked
    | |- inv_with _ (with_is_landed _ _) => apply inv_is_landed
    | |- inv_with _ (with_left_key_timer _ _) => apply inv_left_key_timer
    | |- inv_with _ (with_right_key_timer _ _) => apply inv_right_key_timer
    | |- inv_with _ (with_down_key_timer _ _) => apply inv_down_key_timer
    | |- inv_with _ (with_timer _ _) => apply inv_timer
    | |- inv_with _ (with_statusbar _ _) => apply inv_statusbar
    | |- inv_with _ (with_is_started _ _) => apply inv_is_started
    | |- inv_with _ (with_is_paused _ _) => apply inv_is_paused
    | |- inv_with _ (with_finalize_timer false _) =>
        apply inv_finalize_timer_stop
    end.

Lemma pause_inv (dead : bool) (b : Board.t) :
  inv_with dead b ->
  exists b', pause b = Ok (tt, b') /\ inv_with dead b'.
Proof.
  intros H. unfold pause. cbv [bind get].
  destruct (negb (is_started b)); [exists b; split; [reflexivity|exact H]|].
  cbv [bind modify get]. cbn [is_paused with_is_paused].
  destruct (is_paused b); cbn [negb]; cbv [bind modify emit];
    (eexists; split; [reflexivity|]); frames; exact H.
Qed.

Lemma start_inv (dead : bool) (b : Board.t) :
  inv_with dead b ->
  exists b', start b = Ok (tt, b') /\ inv_with dead b'.
Proof.
  intros H. pose proof H as ((Hwf & _ & Hhold & _) & Hdead).
  unfold start. cbv [bind get].
  destruct (is_paused b); [exists b; split; [reflexivity|exact H]|].
  cbv [bind modify get emit clear_board].
  match goal with
  | |- context [new_piece ?X] =>
      destruct (new_piece_inv dead X) as (b1 & Hnew & Hinv);
        [reflexivity|exact Hhold|reflexivity|exact Hdead|]
  end.
  rewrite Hnew. eexists. split; [reflexivity|]. frames. exact Hinv.
Qed.

Lemma keyPressEvent_inv (dead : bool) (b : Board.t) (key : Key) :
  inv_with dead b ->
  exists b', keyPressEvent key b = Ok (tt, b') /\ inv_with dead b'.
Proof.
  intros H. unfold keyPressEvent. cbv [bind get].
  destruct (negb (is_started b)
            || bool_decide (Shape.shape (current_piece b) = NoShape))
    eqn:Hg; [exists b; split; [reflexivity|exact H]|].
  apply orb_false_elim in Hg as [_ Hne].
  apply bool_decide_eq_false_1 in Hne.
  assert (is_waiting_after_line b = false) as Hw.
  { pose proof H as ((_ & _ & _ & _ & _ & Hwait) & _).
    destruct (is_waiting_after_line b); [|reflexivity].
    exfalso. apply Hne. apply Hwait. reflexivity. }
  destruct key; [apply pause_inv; exact H|..];
    (destruct (is_paused b); [exists b; split; [reflexivity|exact H]|]).
  - destruct (move_left_inv dead b H) as (b1 & Hrun & Hinv).
    cbv [modify]. rewrite Hrun. eexists. split; [reflexivity|].
    frames. exact Hinv.
  - destruct (move_right_inv dead b H) as (b1 & Hrun & Hinv).
    cbv [modify]. rewrite Hrun. eexists. split; [reflexivity|].
    frames. exact Hinv.
  - destruct (move_down_inv dead b H) as (b1 & Hrun & Hinv).
    cbv [modify]. rewrite Hrun. eexists. split; [reflexivity|].
    frames. exact Hinv.
  - apply drop_down_inv. exact H.
  - destruct (try_rotate_right_inv dead b H) as (b1 & Hrun & Hinv).
    rewrite Hrun. destruct (finalize_timer b1) eqn:Hft.
    + eexists. split; [reflexivity|].
      apply inv_finalize_timer_restart; assumption.
    + exists b1. split; [reflexivity|exact Hinv].
  - apply hold_current_piece_inv; assumption.
  - exists b. split; [reflexivity|exact H].
Qed.

Lemma keyReleaseEvent_inv (dead : bool) (b : Board.t) (key : Key) :
  inv_with dead b ->
  exists b', keyReleaseEvent key b = Ok (tt, b') /\ inv_with dead b'.
Proof.
  intros H. destruct key; cbv [keyReleaseEvent modify ret];
    (eexists; split; [reflexivity|]); frames; exact H.
Qed.

Lemma timerEvent_inv (dead : bool) (b : Board.t) :
  inv_with dead b ->
  exists b', timerEvent b = Ok (tt, b') /\ inv_with dead b'.
Proof.
  intros H. pose proof H as ((Hwf & _ & Hhold & _) & Hdead).
  unfold timerEvent. cbv [bind get].
  destruct (bool_decide (timer b <> None));
    [|exists b; split; [reflexivity|exact H]].
  destruct (is_waiting_after_line b).
  - cbv [modify].
    apply (new_piece_inv dead (with_is_waiting_after_line false b));
      [exact Hwf|exact Hhold|reflexivity|exact Hdead].
  - apply one_line_down_inv. exact H.
Qed.

Lemma show_game_over_inv (dead : bool) (b : Board.t) (message : string) :
  inv_with dead b ->
  exists b', show_game_over message b = Ok (tt, b') /\ inv_with dead b'.
Proof.
  intros H. cbv [show_game_over bind modify emit].
  eexists. split; [reflexivity|]. frames. exact H.
Qed.

Lemma handle_inv (dead : bool) (e : Event) (b : Board.t) :
  inv_with dead b ->
  exists b', handle e b = Ok (tt, b') /\ inv_with dead b'.
Proof.
  intros H. destruct e; unfold handle.
  - apply keyPressEvent_inv. exact H.
  - apply keyReleaseEvent_inv. exact H.
  - apply timerEvent_inv. exact H.
  - unfold left_key_timeout. cbv [bind get].
    destruct (left_key_timer b);
      [apply move_left_inv; exact H|exists b; split; [reflexivity|exact H]].
  - unfold right_key_timeout. cbv [bind get].
    destruct (right_key_timer b);
      [apply move_right_inv; exact H|exists b; split; [reflexivity|exact H]].
  - unfold down_key_timeout. cbv [bind get].
    destruct (down_key_timer b);
      [apply move_down_inv; exact H|exists b; split; [reflexivity|exact H]].
  - unfold finalize_timeout. cbv [bind get].
    destruct (finalize_timer b);
      [apply finalize_piece_inv; exact H
      |exists b; split; [reflexivity|exact H]].
  - apply start_inv. exact H.
  - apply show_game_over_inv. exact H.
Qed.

Lemma run_inv (dead : bool) (events : list Event) :
  forall b, inv_with dead b ->
  exists b', run events b = Ok (tt, b') /\ inv_with dead b'.
Proof.
  unfold run. induction events as [|e events IH]; intros b H.
  - exists b. split; [reflexivity|exact H].
  - destruct (handle_inv dead e b H) as (b1 & Hrun & Hinv).
    simpl for_each. unfold bind. rewrite Hrun. apply IH. exact Hinv.
Qed.

Lemma init_board_inv (speed : Q) (r : RNG) :
  exists b0, init_board speed r = Ok b0 /\ inv_with true b0.
Proof.
  unfold init_board. cbv [bind modify clear_board].
  match goal with
  | |- context [get_next_shape ?X] =>
      destruct (get_next_shape_ok X) as (s & bg & r' & Hdraw)
  end.
  rewrite Hdraw. eexists. split; [reflexivity|].
  apply (inv_intro_noshape true _ Shape.new); try reflexivity.
Qed.

(** X2. No event raises, whatever the order of events: from a state in
    which the grid has its 220 cells, the current piece is on the board
    and a falling piece overlaps no landed cell, every handler returns,
    and the state it leaves is such a state again. *)
Theorem handle_keeps_invariant (b : Board.t) (e : Event) :
  game_inv b ->
  exists b', handle e b = Ok (tt, b') /\ game_inv b'.
Proof.
  intros H.
  destruct (handle_inv false e b) as (b' & Hrun & Hinv & _);
    [split; [exact H|discriminate]|].
  exists b'. split; [exact Hrun|exact Hinv].
Qed.

Lemma handle_keeps_invariant_witness :
  exists b',
    handle (KeyPress Key_Space) (example_state empty_grid) = Ok (tt, b')
    /\ game_inv b'.
Proof.
  apply (handle_keeps_invariant (example_state empty_grid)
           (KeyPress Key_Space)).
  split; [reflexivity|]. split; [reflexivity|]. split; [reflexivity|].
  split; [reflexivity|]. split; [intros _; reflexivity|].
  intros H. discriminate H.
Defined.

(** X3. A whole solo game: the board [__init__] builds, under any
    sequence of events and calls of [start], never raises (no
    [IndexError] from the grid or the bag); the falling piece stays on
    the board and off the landed cells; and the finalize timer is never
    active, so a piece that cannot fall is always locked at once. *)
Theorem game_never_raises (speed : Q) (r : RNG) (events : list Event) :
  exists b0 b',
    init_board speed r = Ok b0
    /\ run events b0 = Ok (tt, b')
    /\ game_inv b'
    /\ finalize_timer b' = false.
Proof.
  destruct (init_board_inv speed r) as (b0 & Hinit & Hinv0).
  destruct (run_inv true events b0 Hinv0) as (b' & Hrun & Hinv & Hdead).
  exists b0, b'. split; [exact Hinit|]. split; [exact Hrun|].
  split; [exact Hinv|]. apply Hdead. reflexivity.
Qed.

(** ** Pause and start *)

Lemma pause_running (b : Board.t) :
  is_started b = true -> is_paused b = false ->
  pause b = Ok (tt, paused_state b).
Proof.
  destruct b. cbn [is_started is_paused]. intros -> ->.
  cbv -[str_of_Z]. reflexivity.
Qed.

Lemma pause_paused (b : Board.t) :
  is_started b = true -> is_paused b = true ->
  pause b = Ok (tt, resumed_state b).
Proof.
  destruct b. cbn [is_started is_paused]. intros -> ->.
  cbv -[str_of_Z]. reflexivity.
Qed.

Lemma key_timers_same (b : Board.t) :
  (left_key_timer b = false -> with_left_key_timer false b = b)
  /\ (right_key_timer b = false -> with_right_key_timer false b = b)
  /\ (down_key_timer b = false -> with_down_key_timer false b = b).
Proof.
  destruct b. cbn [left_key_timer right_key_timer down_key_timer].
  repeat split; intros ->; vm_compute; reflexivity.
Qed.

(** A paused game with its timers stopped ignores every event but the
    key P and the game-over message. *)
Lemma paused_ignores (b : Board.t) (e : Event) :
  is_started b = true -> is_paused b = true -> timer b = None ->
  finalize_timer b = false -> left_key_timer b = false ->
  right_key_timer b = false -> down_key_timer b = false ->
  e <> KeyPress Key_P -> (forall m, e <> GameOverMessage m) ->
  handle e b = Ok (tt, b).
Proof.
  intros Hs Hp Ht Hf Hl Hr Hd He Hm.
  destruct (key_timers_same b) as (Kl & Kr & Kd).
  destruct e as [key|key| | | | | | |m]; unfold handle.
  - unfold keyPressEvent. cbv [bind get]. rewrite Hs, Hp. cbn [negb orb].
    destruct (bool_decide _); [reflexivity|].
    destruct key; [congruence|reflexivity..].
  - destruct key; cbv [keyReleaseEvent modify ret];
      rewrite ?Kl, ?Kr, ?Kd by assumption; reflexivity.
  - unfold timerEvent. cbv [bind get]. rewrite Ht.
    rewrite bool_decide_eq_false_2 by (intros H; apply H; reflexivity).
    reflexivity.
  - unfold left_key_timeout. cbv [bind get]. rewrite Hl. reflexivity.
  - unfold right_key_timeout. cbv [bind get]. rewrite Hr. reflexivity.
  - unfold down_key_timeout. cbv [bind get]. rewrite Hd. reflexivity.
  - unfold finalize_timeout. cbv [bind get]. rewrite Hf. reflexivity.
  - unfold start. cbv [bind get]. rewrite Hp. reflexivity.
  - exfalso. apply (Hm m). reflexivity.
Qed.

(** X8. Pause freezes the game: from a running game with a falling
    piece, the key P pauses and stops the game timer; after that every
    event other than the key P and the game-over message leaves the
    state exactly as it is; the key P again resumes with the timer at
    the current speed and the grid and piece untouched. *)
Theorem pause_freezes (b : Board.t) :
  is_started b = true -> is_paused b = false ->
  Shape.shape (current_piece b) <> NoShape ->
  exists bp,
    keyPressEvent Key_P b = Ok (tt, bp)
    /\ is_paused bp = true /\ timer bp = None
    /\ (forall e, e <> KeyPress Key_P ->
          (forall m, e <> GameOverMessage m) ->
          handle e bp = Ok (tt, bp))
    /\ exists br,
         keyPressEvent Key_P bp = Ok (tt, br)
         /\ is_paused br = false /\ timer br = Some (Speed b)
         /\ board br = board b /\ current_piece br = current_piece b
         /\ cur_x br = cur_x b /\ cur_y br = cur_y b.
Proof.
  intros Hs Hp Hk. exists (paused_state b).
  split.
  { unfold keyPressEvent. cbv [bind get].
    rewrite Hs, bool_decide_eq_false_2 by exact Hk. cbn [negb orb].
    apply pause_running; assumption. }
  split; [reflexivity|]. split; [reflexivity|]. split.
  { intros e He Hm.
    apply paused_ignores; try reflexivity; assumption. }
  exists (resumed_state (paused_state b)). split.
  { unfold keyPressEvent. cbv [bind get].
    change (is_started (paused_state b)) with (is_started b).
    change (current_piece (paused_state b)) with (current_piece b).
    rewrite Hs, bool_decide_eq_false_2 by exact Hk. cbn [negb orb].
    apply pause_paused; [exact Hs|reflexivity]. }
  repeat split.
Qed.

Lemma pause_freezes_witness :
  exists bp,
    keyPressEvent Key_P (example_state empty_grid) = Ok (tt, bp)
    /\ is_paused bp = true /\ timer bp = None
    /\ (forall e, e <> KeyPress Key_P ->
          (forall m, e <> GameOverMessage m) ->
          handle e bp = Ok (tt, bp))
    /\ exists br,
         keyPressEvent Key_P bp = Ok (tt, br)
         /\ is_paused br = false /\ timer br = Some (300 # 1)
         /\ board br = empty_grid
         /\ current_piece br = Shape.set_shape Shape.new ZShape
         /\ cur_x br = 6 /\ cur_y br = 20.
Proof.
  apply (pause_freezes (example_state empty_grid));
    [reflexivity|reflexivity|discriminate].
Defined.

Lemma spawned_frame (s : Tetrominoe) (bg : list Tetrominoe) (r : RNG)
    (b : Board.t) :
  is_started (spawned s bg r b) = is_started b
  /\ num_lines_removed (spawned s bg r b) = num_lines_removed b
  /\ goal (spawned s bg r b) = goal b
  /\ num_goals_reached (spawned s bg r b) = num_goals_reached b
  /\ lines_to_goal (spawned s bg r b) = lines_to_goal b
  /\ Speed (spawned s bg r b) = Speed b
  /\ hold_locked (spawned s bg r b) = hold_locked b.
Proof. destruct b; repeat split. Qed.

Lemma spawn_fits_empty (p : Shape.t) (k : Tetrominoe) :
  forallb
    (fun i =>
       cell_free empty_grid (6 + Shape.x (Shape.set_shape p k) i)
         (21 + Shape.min_y (Shape.set_shape p k)
          - Shape.y (Shape.set_shape p k) i)) range4
  = true.
Proof. destruct k; vm_compute; reflexivity. Qed.

Lemma start_unfold (b : Board.t) :
  is_paused b = false ->
  start b
  = match new_piece (cleared_state b) with
    | Ok (_, b') => Ok (tt, with_timer (Some (Speed b')) b')
    | Raise e => Raise e
    end.
Proof.
  destruct b. cbn [is_paused]. intros ->.
  cbv -[str_of_Z new_piece]. reflexivity.
Qed.

Lemma cleared_state_core (b : Board.t) :
  board (cleared_state b) = empty_grid
  /\ is_started (cleared_state b) = true
  /\ num_lines_removed (cleared_state b) = 0
  /\ is_waiting_after_line (cleared_state b) = false
  /\ current_piece (cleared_state b) = current_piece b
  /\ next_piece (cleared_state b) = next_piece b
  /\ goal (cleared_state b) = goal b
  /\ num_goals_reached (cleared_state b) = num_goals_reached b
  /\ lines_to_goal (cleared_state b) = lines_to_goal b
  /\ Speed (cleared_state b) = Speed b
  /\ hold_piece (cleared_state b) = hold_piece b
  /\ hold_locked (cleared_state b) = hold_locked b.
Proof. destruct b; repeat split. Qed.

Lemma with_timer_frame (v : option Q) (b : Board.t) :
  board (with_timer v b) = board b
  /\ is_started (with_timer v b) = is_started b
  /\ num_lines_removed (with_timer v b) = num_lines_removed b
  /\ is_waiting_after_line (with_timer v b) = is_waiting_after_line b
  /\ current_piece (with_timer v b) = current_piece b
  /\ cur_x (with_timer v b) = cur_x b
  /\ cur_y (with_timer v b) = cur_y b
  /\ timer (with_timer v b) = v
  /\ goal (with_timer v b) = goal b
  /\ num_goals_reached (with_timer v b) = num_goals_reached b
  /\ lines_to_goal (with_timer v b) = lines_to_goal b
  /\ Speed (with_timer v b) = Speed b
  /\ hold_piece (with_timer v b) = hold_piece b
  /\ hold_locked (with_timer v b) = hold_locked b.
Proof. destruct b; repeat split. Qed.

(** X9. [start] on a game that is not paused: the grid is emptied, the
    piece of the next slot is spawned at the top (it always fits), the
    count of removed lines is zero and the timer runs at the current
    speed.  What [start] does not reset: the goal, the goals reached,
    the lines toward the goal, the speed, the held piece and the hold
    lock, which all carry over from the game before. *)
Theorem start_resets (b : Board.t) :
  is_paused b = false ->
  exists b',
    start b = Ok (tt, b')
    /\ is_started b' = true
    /\ board b' = empty_grid
    /\ num_lines_removed b' = 0
    /\ is_waiting_after_line b' = false
    /\ current_piece b'
       = Shape.set_shape (current_piece b) (Shape.shape (next_piece b))
    /\ cur_x b' = 6
    /\ cur_y b' = 21 + Shape.min_y (current_piece b')
    /\ timer b' = Some (Speed b)
    /\ goal b' = goal b
    /\ num_goals_reached b' = num_goals_reached b
    /\ lines_to_goal b' = lines_to_goal b
    /\ Speed b' = Speed b
    /\ hold_piece b' = hold_piece b
    /\ hold_locked b' = hold_locked b.
Proof.
  intros Hp. rewrite (start_unfold b Hp).
  destruct (new_piece_spec (cleared_state b)) as (s & bg & r & Hnew);
    [reflexivity|].
  rewrite Hnew. clear Hnew. cbv zeta.
  destruct (spawned_core s bg r (cleared_state b))
    as (Hb & Hx & Hy & Hc & Hh & Hw & _).
  destruct (spawned_frame s bg r (cleared_state b))
    as (Hst & Hn & Hg & Hng & Hl & Hs & Hhl).
  destruct (cleared_state_core b)
    as (Cb & Cst & Cn & Cw & Cc & Cnp & Cg & Cng & Cl & Cs & Ch & Chl).
  rewrite Cb in Hb. rewrite Cc, Cnp in Hy, Hc. rewrite Ch in Hh.
  rewrite Cw in Hw. rewrite Cst in Hst. rewrite Cn in Hn.
  rewrite Cg in Hg. rewrite Cng in Hng. rewrite Cl in Hl.
  rewrite Cs in Hs. rewrite Chl in Hhl.
  clear Cb Cst Cn Cw Cc Cnp Cg Cng Cl Cs Ch Chl.
  generalize dependent (spawned s bg r (cleared_state b)). intros sp.
  intros Hb Hx Hy Hc Hh Hw Hst Hn Hg Hng Hl Hs Hhl.
  assert (fits sp (current_piece sp) (cur_x sp) (cur_y sp) = true) as ->.
  { unfold fits. rewrite Hb, Hx, Hy, Hc. apply spawn_fits_empty. }
  eexists. split; [reflexivity|].
  destruct (with_timer_frame (Some (Speed sp)) sp)
    as (Tb & Tst & Tn & Tw & Tc & Tx & Ty & Tt & Tg & Tng & Tl & Ts & Th
        & Thl).
  rewrite Tb, Tst, Tn, Tw, Tc, Tx, Ty, Tt, Tg, Tng, Tl, Ts, Th, Thl.
  rewrite Hst, Hb, Hn, Hw, Hc, Hx, Hy, Hg, Hng, Hl, Hs, Hh, Hhl.
  repeat split.
Qed.

Lemma start_resets_witness :
  exists b',
    start (example_state bottom_row_full) = Ok (tt, b')
    /\ is_started b' = true
    /\ board b' = empty_grid
    /\ num_lines_removed b' = 0
    /\ is_waiting_after_line b' = false
    /\ current_piece b' = Shape.set_shape Shape.new TShape
    /\ cur_x b' = 6
    /\ cur_y b' = 21 + Shape.min_y (current_piece b')
    /\ timer b' = Some (300 # 1)
    /\ goal b' = 10
    /\ num_goals_reached b' = 0
    /\ lines_to_goal b' = 0
    /\ Speed b' = 300 # 1
    /\ hold_piece b' = Shape.new
    /\ hold_locked b' = false.
Proof.
  apply (start_resets (example_state bottom_row_full)). reflexivity.
Defined.

(** ** Moves *)

Lemma place_place (p p' : Shape.t) (x y x' y' : Z) (b : Board.t) :
  place p x y (place p' x' y' b) = place p x y b.
Proof. destruct b; reflexivity. Qed.

Lemma try_move_back (b : Board.t) (x' y' : Z) :
  wf b ->
  fits b (current_piece b) (cur_x b) (cur_y b) = true ->
  try_move (current_piece b) (cur_x b) (cur_y b)
    (place (current_piece b) x' y' b)
  = Ok (true, b).
Proof.
  intros Hwf Hfits.
  rewrite (try_move_spec (place (current_piece b) x' y' b) _ _ _ Hwf).
  change (fits (place (current_piece b) x' y' b)) with (fits b).
  rewrite Hfits, place_place, place_same. reflexivity.
Qed.

(** X14. Sideways moves undo each other: when the falling piece can
    move left, moving left and then right gives back exactly the state
    before, and the same the other way round. *)
Theorem moves_undo_each_other (b : Board.t) :
  game_inv b -> Shape.shape (current_piece b) <> NoShape ->
  (fits b (current_piece b) (cur_x b - 1) (cur_y b) = true ->
   (move_left ;; move_right) b = Ok (tt, b))
  /\ (fits b (current_piece b) (cur_x b + 1) (cur_y b) = true ->
      (move_right ;; move_left) b = Ok (tt, b)).
Proof.
  intros (Hwf & _ & _ & _ & Hfit & _) Hne. specialize (Hfit Hne).
  split; intros Hside.
  - unfold move_left, move_right. cbv [bind get ret].
    rewrite (try_move_spec b _ _ _ Hwf), Hside.
    cbn [cur_x cur_y current_piece place with_cur_x with_cur_y
         with_current_piece].
    replace (cur_x b - 1 + 1) with (cur_x b) by lia.
    rewrite (try_move_back b _ _ Hwf Hfit). reflexivity.
  - unfold move_left, move_right. cbv [bind get ret].
    rewrite (try_move_spec b _ _ _ Hwf), Hside.
    cbn [cur_x cur_y current_piece place with_cur_x with_cur_y
         with_current_piece].
    replace (cur_x b + 1 - 1) with (cur_x b) by lia.
    rewrite (try_move_back b _ _ Hwf Hfit). reflexivity.
Qed.

Lemma moves_undo_each_other_witness :
  (fits (example_state empty_grid) (Shape.set_shape Shape.new ZShape)
     (6 - 1) 20 = true ->
   (move_left ;; move_right) (example_state empty_grid)
   = Ok (tt, example_state empty_grid))
  /\ (fits (example_state empty_grid) (Shape.set_shape Shape.new ZShape)
        (6 + 1) 20 = true ->
      (move_right ;; move_left) (example_state empty_grid)
      = Ok (tt, example_state empty_grid)).
Proof.
  apply (moves_undo_each_other (example_state empty_grid)).
  - split; [reflexivity|]. split; [reflexivity|]. split; [reflexivity|].
    split; [reflexivity|]. split; [intros _; reflexivity|].
    intros H. discriminate H.
  - discriminate.
Defined.

(** ** Hard drop and soft drops *)








(** ** The join code, beyond canonical addresses *)


Lemma decode_packed (a b c d port : Z) :
  0 <= a <= 255 -> 0 <= b <= 255 -> 0 <= c <= 255 -> 0 <= d <= 255 ->
  0 <= port <= 65535 ->
  JoinCode.base64_to_ipv4_port
    (JoinCode.str_of_bytes (JoinCode.b64encode (packed a b c d port)))
  = Ok (dotted_quad a b c d, port).
Proof.
  intros Ha Hb Hc Hd Hp.
  destruct (port_round_trip port Hp) as (Hhi & Hlo & Hport).
  unfold JoinCode.base64_to_ipv4_port, packed.
  rewrite b64decode_b64encode_6 by lia.
  cbn [JoinCode.rbind take drop JoinCode.unpack_BBBB JoinCode.unpack_H].
  rewrite Hport. reflexivity.
Qed.



(** X17. The decoder does not validate: an ASCII character outside the
    base-64 alphabet (a blank, a dash, a dot, a line break ...), put
    anywhere into a token, changes nothing of what the token decodes to,
    error or result. *)
Theorem decode_skips_foreign (s1 s2 : string) (c : ascii) :
  foreign c = true ->
  JoinCode.b64decode (s1 +:+ String c s2) = JoinCode.b64decode (s1 +:+ s2)
  /\ JoinCode.base64_to_ipv4_port (s1 +:+ String c s2)
     = JoinCode.base64_to_ipv4_port (s1 +:+ s2).
Proof.
  unfold foreign. intros Hc.
  assert (JoinCode.b64decode (s1 +:+ String c s2)
          = JoinCode.b64decode (s1 +:+ s2)) as Hdec.
  { unfold JoinCode.b64decode, JoinCode.ascii_bytes.
    rewrite !list_ascii_of_string_app. cbn [String.list_ascii_of_string].
    rewrite !map_app, !forallb_app. cbn [map forallb].
    replace (JoinCode.code c <? 128) with true by lia. cbn [andb].
    destruct (forallb _ (map JoinCode.code (String.list_ascii_of_string s1)));
      [|reflexivity].
    destruct (forallb _ (map JoinCode.code (String.list_ascii_of_string s2)));
      [|reflexivity].
    cbn [andb JoinCode.rbind]. unfold JoinCode.a2b_base64.
    apply a2b_loop_skip; lia. }
  split; [exact Hdec|].
  unfold JoinCode.base64_to_ipv4_port. rewrite Hdec. reflexivity.
Qed.

Lemma decode_skips_foreign_witness :
  JoinCode.b64decode ("fwAA" +:+ String "-" "AR+Q")
  = JoinCode.b64decode ("fwAA" +:+ "AR+Q")
  /\ JoinCode.base64_to_ipv4_port ("fwAA" +:+ String "-" "AR+Q")
     = JoinCode.base64_to_ipv4_port ("fwAA" +:+ "AR+Q").
Proof.
  apply (decode_skips_foreign "fwAA" "AR+Q" "-"). reflexivity.
Defined.

Lemma land_255_range (x : Z) : 0 <= Z.land x 255 < 256.
Proof.
  change 255 with (Z.ones 8). rewrite Z.land_ones by lia.
  change (2 ^ 8) with 256. apply Z.mod_pos_bound. lia.
Qed.

Lemma a2b_loop_bytes (data : list Z) :
  forall st bs,
    Forall (fun x => 0 <= x < 256) (JoinCode.bin_data st) ->
    JoinCode.a2b_loop data st = Ok bs ->
    Forall (fun x => 0 <= x < 256) bs.
Proof.
  induction data as [|ch data IH]; intros st bs Hst.
  - cbn [JoinCode.a2b_loop]. destruct (JoinCode.quad_pos st =? 0);
      [|discriminate]. intros [= <-]. exact Hst.
  - cbn [JoinCode.a2b_loop].
    destruct (ch =? JoinCode.BASE64_PAD).
    + destruct (2 <=? JoinCode.quad_pos st); [|apply IH; exact Hst].
      destruct (4 <=? JoinCode.quad_pos st + (JoinCode.pads st + 1)).
      * intros [= <-]. exact Hst.
      * apply IH. exact Hst.
    + destruct (64 <=? JoinCode.table_a2b_base64 ch); [apply IH; exact Hst|].
      apply IH.
      destruct (JoinCode.quad_pos st =? 0); [exact Hst|].
      destruct (JoinCode.quad_pos st =? 1);
        [|destruct (JoinCode.quad_pos st =? 2)];
        cbn [JoinCode.bin_data];
        (apply Forall_app; split;
         [exact Hst|apply Forall_cons; split;
                    [apply land_255_range|apply Forall_nil_2]]).
Qed.

(** X18. What the decoder accepts it gives back in range and in
    canonical form: a decoded address is the dotted quad of four octets
    in 0..255 and the port is in 0..65535, so the encoder accepts the
    pair, and its token decodes to the same pair again. *)
Theorem decode_then_encode (token ipv4 : string) (port : Z) :
  JoinCode.base64_to_ipv4_port token = Ok (ipv4, port) ->
  exists a b c d canonical,
    0 <= a <= 255 /\ 0 <= b <= 255 /\ 0 <= c <= 255 /\ 0 <= d <= 255
    /\ 0 <= port <= 65535
    /\ ipv4 = dotted_quad a b c d
    /\ JoinCode.ipv4_port_to_base64 ipv4 port = Ok canonical
    /\ JoinCode.base64_to_ipv4_port canonical = Ok (ipv4, port).
Proof.
  unfold JoinCode.base64_to_ipv4_port at 1.
  destruct (JoinCode.b64decode token) as [bs|e] eqn:Hdec;
    cbn [JoinCode.rbind]; [|discriminate].
  assert (Forall (fun x => 0 <= x < 256) bs) as Hbs.
  { unfold JoinCode.b64decode in Hdec.
    destruct (JoinCode.ascii_bytes token) as [data|]; [|discriminate].
    cbn [JoinCode.rbind] in Hdec.
    apply (a2b_loop_bytes data (JoinCode.mk_a2b 0 0 0 []) bs
             (Forall_nil_2 _) Hdec). }
  destruct bs as [|a [|b [|c [|d [|hi [|lo [|x bs]]]]]]];
    cbn [take drop JoinCode.unpack_BBBB JoinCode.unpack_H JoinCode.rbind];
    try discriminate.
  intros [= <- <-].
  repeat (apply Forall_cons in Hbs as [? Hbs]).
  assert (0 <= Z.lor (Z.shiftl hi 8) lo <= 65535) as Hport.
  { rewrite lor_shiftl_add by (change (2 ^ 8) with 256; lia).
    change (2 ^ 8) with 256. lia. }
  exists a, b, c, d. eexists.
  repeat (split; [lia|]). split; [reflexivity|].
  split; [apply ipv4_port_to_base64_spec; lia|].
  apply decode_packed; lia.
Qed.

Lemma decode_then_encode_witness :
  exists a b c d canonical,
    0 <= a <= 255 /\ 0 <= b <= 255 /\ 0 <= c <= 255 /\ 0 <= d <= 255
    /\ 0 <= 8080 <= 65535
    /\ "127.0.0.1" = dotted_quad a b c d
    /\ JoinCode.ipv4_port_to_base64 "127.0.0.1" 8080 = Ok canonical
    /\ JoinCode.base64_to_ipv4_port canonical = Ok ("127.0.0.1", 8080).
Proof.
  apply (decode_then_encode "fw A-A.AR+Q=" "127.0.0.1" 8080). reflexivity.
Defined.
